(** * Stock management (main.py): a shallow embedding of the SQLite store,
      the helper functions and the form handlers, with the properties of
      the stock ledger.

    Modelling conventions.
    - A table is the list of its rows in rowid order (the order of a full
      scan); an INSERT appends, since AUTOINCREMENT hands out a rowid larger
      than every rowid in the table.
    - REAL columns and Python floats are exact rationals ([Q]); rounding
      error of binary floating point is outside the model.  Equalities
      between computed numbers are therefore stated with [==].
    - TEXT is [string]; a nullable column is an [option].
    - [created_at] (CURRENT_TIMESTAMP, 'YYYY-MM-DD HH:MM:SS', one second
      granularity) is the number of seconds it denotes; the text order of
      that fixed-width format is the order of those numbers.
    - A function that raises returns [Raise e] and the store it leaves. *)

From Stdlib Require Import ZArith QArith Qabs List String Ascii Bool Lia.
From Stdlib Require Import Permutation Sorted.
Import ListNotations.
Open Scope string_scope.
Open Scope list_scope.
Open Scope Z_scope.

(** ** Python values and exceptions *)

(** The constraint an INSERT violated ([sqlite3.IntegrityError]). *)
Inductive constraint : Type :=
| CheckConstraint
| ForeignKeyConstraint.

Inductive exn : Type :=
| ValueError (msg : string)
| IntegrityError (c : constraint)
| IndexError.

Inductive result (A : Type) : Type :=
| Ok (a : A)
| Raise (e : exn).
Arguments Ok {A} a.
Arguments Raise {A} e.

(** [x or y] on optional strings: [None] and the empty string are falsy. *)
Definition str_or (x : option string) (y : string) : string :=
  match x with
  | Some s => if String.eqb s "" then y else s
  | None => y
  end.

(** [str.isspace] on the first 256 code points. *)
Definition is_space (c : ascii) : bool :=
  let n := N_of_ascii c in
  ((9 <=? n) && (n <=? 13) || (28 <=? n) && (n <=? 32)
   || (n =? 133) || (n =? 160))%N.

Fixpoint lstrip (s : string) : string :=
  match s with
  | EmptyString => EmptyString
  | String c s' => if is_space c then lstrip s' else s
  end.

Fixpoint rstrip (s : string) : string :=
  match s with
  | EmptyString => EmptyString
  | String c s' =>
      match rstrip s' with
      | EmptyString => if is_space c then EmptyString else String c EmptyString
      | r => String c r
      end
  end.

(** [str.strip()] *)
Definition strip (s : string) : string := rstrip (lstrip s).

(** ** Numbers: [round(2)] *)

(** Round to the nearest integer, halves to the even neighbour (numpy's
    [rint], which [Series.round] uses). *)
Definition rint (q : Q) : Z :=
  let n := Qnum q in
  let d := Zpos (Qden q) in
  let f := n / d in
  let r := n mod d in
  match 2 * r ?= d with
  | Lt => f
  | Gt => f + 1
  | Eq => if Z.even f then f else f + 1
  end.

(** [x.round(2)]: scale by 100, round, scale back. *)
Definition round2 (q : Q) : Q := rint (q * 100) # 100.

(** ** The schema (init_db) *)

(** items *)
Record Item : Type := mkItem {
  item_id : Z;
  item_name : string;
  item_category : option string;
  item_brand : option string;
  item_unit : string;
  item_cost_price : Q;
  item_sale_price : Q;
  item_active : Z;
  item_notes : option string
}.

(** parties *)
Record Party : Type := mkParty {
  party_id : Z;
  party_type : string;
  party_name : string;
  party_phone : option string;
  party_address : option string
}.

(** transactions *)
Record Txn : Type := mkTxn {
  txn_id : Z;
  txn_item_id : Z;
  txn_type : string;
  txn_qty : Q;
  txn_unit_price : option Q;
  txn_party_id : option Z;
  txn_ref_no : option string;
  txn_date : string;
  txn_remarks : option string;
  txn_created_at : Z
}.

(** The database file: the three tables and, per table, the largest rowid
    ever handed out (the sqlite_sequence row AUTOINCREMENT keeps). *)
Record DB : Type := mkDB {
  items : list Item;
  parties : list Party;
  transactions : list Txn;
  seq_items : Z;
  seq_parties : Z;
  seq_transactions : Z
}.

(** The store after [init_db] on a fresh file. *)
Definition empty_db : DB := mkDB [] [] [] 0 0 0.

(** What the process reads from its surroundings: [date.today().isoformat()]
    and the value of CURRENT_TIMESTAMP. *)
Record Env : Type := mkEnv {
  today : string;
  now : Z
}.

(** The rowid AUTOINCREMENT assigns: one more than the largest of the rowids
    in the table and the recorded sequence value. *)
Definition next_rowid (ids : list Z) (seq : Z) : Z :=
  fold_right Z.max seq ids + 1.

Definition str_in (s : string) (l : list string) : bool :=
  existsb (String.eqb s) l.

Definition party_types : list string := ["supplier"; "customer"].
Definition txn_types : list string := ["IN"; "OUT"; "ADJUST"].

(** INSERT INTO parties(type,name,phone,address): the CHECK on [type]
    rejects the row, otherwise it is appended under a new rowid, which
    is returned ([cur.lastrowid]). *)
Definition insert_party (db : DB) (ty name : string)
    (phone address : option string) : result Z * DB :=
  if str_in ty party_types then
    let pid := next_rowid (map party_id (parties db)) (seq_parties db) in
    (Ok pid,
     mkDB (items db)
          (parties db ++ [mkParty pid ty name phone address])
          (transactions db)
          (seq_items db) pid (seq_transactions db))
  else (Raise (IntegrityError CheckConstraint), db).

(** The foreign keys of a transactions row, checked only on a connection
    whose [foreign_keys] pragma is on. *)
Definition fk_ok (db : DB) (iid : Z) (pid : option Z) : bool :=
  existsb (fun i => item_id i =? iid) (items db)
  && match pid with
     | None => true
     | Some p => existsb (fun q => party_id q =? p) (parties db)
     end.

(** INSERT INTO transactions(item_id, txn_type, qty, unit_price, party_id,
    ref_no, txn_date, remarks): [created_at] takes its default.  A row that
    fails the CHECK on [txn_type], or a foreign key on a connection that
    enforces them, is rejected and the store is left as it was. *)
Definition insert_transaction (fk : bool) (env : Env) (db : DB)
    (iid : Z) (ty : string) (qty : Q) (unit_price : option Q)
    (pid : option Z) (ref_no : option string) (tdate : string)
    (remarks : option string) : result unit * DB :=
  if negb (str_in ty txn_types) then
    (Raise (IntegrityError CheckConstraint), db)
  else if fk && negb (fk_ok db iid pid) then
    (Raise (IntegrityError ForeignKeyConstraint), db)
  else
    let tid := next_rowid (map txn_id (transactions db)) (seq_transactions db) in
    (Ok tt,
     mkDB (items db) (parties db)
          (transactions db
             ++ [mkTxn tid iid ty qty unit_price pid ref_no tdate remarks
                       (now env)])
          (seq_items db) (seq_parties db) tid).

(** ** Data frames ([pandas.read_sql_query]) *)

Inductive cell : Type :=
| CNull
| CInt (z : Z)
| CReal (q : Q)
| CText (s : string).

Definition opt_text (o : option string) : cell :=
  match o with Some s => CText s | None => CNull end.

Definition opt_real (o : option Q) : cell :=
  match o with Some q => CReal q | None => CNull end.

(** A frame: the column labels and the rows, each row aligned with the
    labels. *)
Record DataFrame : Type := mkDF {
  df_columns : list string;
  df_rows : list (list cell)
}.

(** [df.empty]: some axis has length 0. *)
Definition df_empty (df : DataFrame) : bool :=
  match df_columns df, df_rows df with
  | _ :: _, _ :: _ => false
  | _, _ => true
  end.

Fixpoint col_index (cols : list string) (c : string) : option nat :=
  match cols with
  | [] => None
  | x :: xs => if String.eqb x c then Some O
               else option_map S (col_index xs c)
  end.

(** [row[c]] for a row of frame [df]; a missing label has no value. *)
Definition df_get (df : DataFrame) (row : list cell) (c : string)
    : option cell :=
  match col_index (df_columns df) c with
  | Some k => nth_error row k
  | None => None
  end.

(** Product of two numeric cells; a missing operand gives NaN, shown as
    [CNull]. *)
Definition cell_mul (a b : cell) : cell :=
  match a, b with
  | CReal x, CReal y => CReal (x * y)
  | CReal x, CInt y => CReal (x * inject_Z y)
  | CInt x, CReal y => CReal (inject_Z x * y)
  | CInt x, CInt y => CInt (x * y)
  | _, _ => CNull
  end.

Definition cell_round2 (a : cell) : cell :=
  match a with
  | CReal x => CReal (round2 x)
  | other => other
  end.

Definition cell_or_null (o : option cell) : cell :=
  match o with Some c => c | None => CNull end.

(** [df[new] = (df[a] * df[b]).round(2)] *)
Definition df_add_product_column (df : DataFrame) (new a b : string)
    : DataFrame :=
  mkDF (df_columns df ++ [new])
       (map (fun r =>
               r ++ [cell_round2 (cell_mul (cell_or_null (df_get df r a))
                                           (cell_or_null (df_get df r b)))])
            (df_rows df)).

(** ** ORDER BY *)

Section OrderBy.
Context {A : Type}.
Variable leb : A -> A -> bool.

Fixpoint insert_sorted (x : A) (l : list A) : list A :=
  match l with
  | [] => [x]
  | y :: ys => if leb x y then x :: l else y :: insert_sorted x ys
  end.

(** A stable insertion sort of the scanned rows: rows of equal keys stay
    in scan order, as they do in the sorter SQLite runs for an ORDER BY
    without an index. *)
Definition order_by (l : list A) : list A :=
  fold_right insert_sorted [] l.
End OrderBy.

(** ** SQL expressions *)

(** [COALESCE(x, d)] *)
Definition coalesce {A : Type} (x : option A) (d : A) : A :=
  match x with Some v => v | None => d end.

(** [SUM]: NULL inputs are skipped, and the sum of no input is NULL. *)
Definition sql_sum (l : list (option Q)) : option Q :=
  fold_left
    (fun acc x =>
       match x, acc with
       | None, _ => acc
       | Some v, None => Some v
       | Some v, Some a => Some (a + v)%Q
       end)
    l None.

(** ** DB helpers *)

(** get_items_df: SELECT * FROM items [WHERE active=1]; the rows of the
    frame, each an items row. *)
Definition get_items_df (db : DB) (active_only : bool) : list Item :=
  if active_only then filter (fun i => item_active i =? 1) (items db)
  else items db.

(** The rows [items i LEFT JOIN transactions t ON t.item_id = i.id]
    produces for one item: one per matching transaction, or a single row
    with every [t] column NULL. *)
Definition left_join_transactions (db : DB) (i : Item) : list (option Txn) :=
  match filter (fun t => txn_item_id t =? item_id i) (transactions db) with
  | [] => [None]
  | ts => map Some ts
  end.

(** CASE WHEN t.txn_type='IN' THEN t.qty WHEN t.txn_type='OUT' THEN -t.qty
    WHEN t.txn_type='ADJUST' THEN t.qty ELSE 0 END; on the all-NULL row no
    WHEN is true. *)
Definition case_signed_qty (t : option Txn) : option Q :=
  match t with
  | None => Some 0%Q
  | Some t =>
      if String.eqb (txn_type t) "IN" then Some (txn_qty t)
      else if String.eqb (txn_type t) "OUT" then Some (- txn_qty t)%Q
      else if String.eqb (txn_type t) "ADJUST" then Some (txn_qty t)
      else Some 0%Q
  end.

(** The aggregate of one group: COALESCE(SUM(CASE ... END), 0). *)
Definition stock_qty (db : DB) (i : Item) : Q :=
  coalesce (sql_sum (map case_signed_qty (left_join_transactions db i))) 0%Q.

Definition inventory_columns : list string :=
  ["id"; "name"; "category"; "brand"; "unit"; "cost_price"; "sale_price";
   "stock_qty"].

(** The select list for the group of item [i] ([id] is the primary key,
    so GROUP BY i.id makes one group per items row). *)
Definition inventory_select (db : DB) (i : Item) : list cell :=
  [CInt (item_id i); CText (item_name i); opt_text (item_category i);
   opt_text (item_brand i); CText (item_unit i); CReal (item_cost_price i);
   CReal (item_sale_price i); CReal (stock_qty db i)].

(** The query of get_inventory_df: WHERE i.active=1 GROUP BY i.id
    ORDER BY i.name. *)
Definition inventory_query (db : DB) : list (list cell) :=
  map (inventory_select db)
      (order_by (fun a b => String.leb (item_name a) (item_name b))
                (filter (fun i => item_active i =? 1) (items db))).

Definition get_inventory_df (db : DB) : DataFrame :=
  let df := mkDF inventory_columns (inventory_query db) in
  if negb (df_empty df)
  then df_add_product_column df "stock_value_cost" "stock_qty" "cost_price"
  else df.

(** upsert_party([ptype], name, phone, address); [name] is [None] for
    Python's None.  The SELECT scans in rowid order and [fetchone] takes
    the first hit. *)
Definition upsert_party (db : DB) (ptype : string)
    (name : option string) (phone address : option string)
    : result (option Z) * DB :=
  if String.eqb (strip (str_or name "")) "" then (Ok None, db)
  else
    let nm := strip (str_or name "") in
    match filter (fun p => String.eqb (party_type p) ptype
                           && String.eqb (party_name p) nm)
                 (parties db) with
    | row :: _ => (Ok (Some (party_id row)), db)
    | [] =>
        match insert_party db ptype nm phone address with
        | (Ok pid, db') => (Ok (Some pid), db')
        | (Raise e, db') => (Raise e, db')
        end
    end.

(** list_parties: SELECT id, name FROM parties WHERE type=? ORDER BY name *)
Definition list_parties (db : DB) (ptype : string) : list (Z * string) :=
  map (fun p => (party_id p, party_name p))
      (order_by (fun a b => String.leb (party_name a) (party_name b))
                (filter (fun p => String.eqb (party_type p) ptype)
                        (parties db))).

(** add_item: the INSERT names every column but [id] and [active], which
    take a new rowid and the default 1. *)
Definition add_item (db : DB) (name : string) (category brand : option string)
    (unit : string) (cost_price sale_price : Q) (notes : option string)
    : DB :=
  let iid := next_rowid (map item_id (items db)) (seq_items db) in
  mkDB (items db
          ++ [mkItem iid name category brand unit cost_price sale_price 1
                     notes])
       (parties db) (transactions db)
       iid (seq_parties db) (seq_transactions db).

(** update_item_basic: UPDATE items SET cost_price = COALESCE(?, cost_price),
    sale_price = COALESCE(?, sale_price) WHERE id=? *)
Definition update_item_basic (db : DB) (iid : Z)
    (cost_price sale_price : option Q) : DB :=
  mkDB (map (fun i =>
               if item_id i =? iid then
                 mkItem (item_id i) (item_name i) (item_category i)
                        (item_brand i) (item_unit i)
                        (coalesce cost_price (item_cost_price i))
                        (coalesce sale_price (item_sale_price i))
                        (item_active i) (item_notes i)
               else i)
            (items db))
       (parties db) (transactions db)
       (seq_items db) (seq_parties db) (seq_transactions db).

(** record_txn.  [fk] is the [foreign_keys] setting of the connection
    [get_conn] opens: the PRAGMA in [init_db] configures the connection of
    [init_db] only, so here it is whatever the SQLite library defaults
    to. *)
Definition record_txn (fk : bool) (env : Env) (db : DB)
    (iid : Z) (ty : string) (qty : Q) (unit_price : option Q)
    (pid : option Z) (ref_no tdate remarks : option string)
    : result unit * DB :=
  if Qle_bool qty 0 then (Raise (ValueError "Qty must be > 0"), db)
  else insert_transaction fk env db iid ty qty unit_price pid ref_no
                          (str_or tdate (today env)) remarks.

(** ** The pages (Streamlit) *)

(** What a handler shows the operator. *)
Inductive ui_msg : Type :=
| st_error (msg : string)
| st_success (msg : string)
| st_info (msg : string).

(** [s or None] for a stripped text input. *)
Definition or_none (s : string) : option string :=
  if String.eqb s "" then None else Some s.

Definition cell_is_int (z : Z) (c : option cell) : bool :=
  match c with
  | Some (CInt y) => y =? z
  | _ => false
  end.

(** curr_stock(iid) of the Stock OUT page, over the frame [inv_df_out]. *)
Definition curr_stock (inv_df_out : DataFrame) (iid : Z) : Q :=
  match filter (fun r => cell_is_int iid (df_get inv_df_out r "id"))
               (df_rows inv_df_out) with
  | r :: _ =>
      match df_get inv_df_out r "stock_qty" with
      | Some (CReal q) => q
      | Some (CInt z) => inject_Z z
      | _ => 0%Q
      end
  | [] => 0%Q
  end.

(** The submit handler of stock_out_form.  [sel_name] is the selected
    label cut at " [In Stock"; [item_row] is the first row of that name
    ([.iloc[0]], IndexError when there is none) and [avail] its
    [in_stock], i.e. [curr_stock] of its id. *)
Definition stock_out_submit (fk : bool) (env : Env) (db : DB)
    (sel_name : string) (qty unit_price : Q) (tdate : string)
    (customer_name_sel customer_new ref_no remarks : string)
    : result ui_msg * DB :=
  let items_df_out := get_items_df db true in
  let inv_df_out := get_inventory_df db in
  match filter (fun r => String.eqb (item_name r) sel_name)
               items_df_out with
  | [] => (Raise IndexError, db)
  | item_row :: _ =>
      let iid := item_id item_row in
      let avail := curr_stock inv_df_out iid in
      if negb (Qle_bool qty avail) then
        (Ok (st_error "Not enough stock available."), db)
      else
        match upsert_party db "customer"
                (Some (str_or (Some (strip customer_new))
                              (strip customer_name_sel)))
                None None with
        | (Raise e, db1) => (Raise e, db1)
        | (Ok pid, db1) =>
            match record_txn fk env db1 iid "OUT" qty (Some unit_price) pid
                    (or_none (strip ref_no)) (Some tdate)
                    (or_none (strip remarks)) with
            | (Raise e, db2) => (Raise e, db2)
            | (Ok _, db2) => (Ok (st_success "Stock OUT recorded."), db2)
            end
        end
  end.

(** [df.to_csv(index=False)] as records of fields: the column labels, then
    one record per row.  [fmt] renders a value (number formatting and
    quoting). *)
Definition to_csv (fmt : cell -> string) (df : DataFrame)
    : list (list string) :=
  df_columns df :: map (map fmt) (df_rows df).

(** The export button of the Inventory & Reports page: offered only in the
    branch where the frame is not empty. *)
Definition export_csv (fmt : cell -> string) (db : DB)
    : option (list (list string)) :=
  let inv_df_report := get_inventory_df db in
  if df_empty inv_df_report then None
  else Some (to_csv fmt inv_df_report).

(** FROM transactions t JOIN items i ON i.id = t.item_id, rows in scan
    order. *)
Definition recent_join (db : DB) : list (Txn * Item) :=
  flat_map (fun t =>
              map (pair t)
                  (filter (fun i => item_id i =? txn_item_id t) (items db)))
           (transactions db).

(** ORDER BY t.created_at DESC: [a] may come before [b]. *)
Definition created_desc (a b : Txn * Item) : bool :=
  txn_created_at (fst b) <=? txn_created_at (fst a).

Definition recent_select (r : Txn * Item) : list cell :=
  [CText (txn_date (fst r)); CText (txn_type (fst r));
   CText (item_name (snd r)); CReal (txn_qty (fst r));
   opt_real (txn_unit_price (fst r)); opt_text (txn_ref_no (fst r));
   opt_text (txn_remarks (fst r))].

(** The joined rows behind the "Transactions (Recent)" frame: the
    transactions scanned in rowid order, each with its item, sorted keeping
    scan order among equal keys, cut at LIMIT 200. *)
Definition recent_rows (db : DB) : list (Txn * Item) :=
  firstn 200 (order_by created_desc (recent_join db)).

Definition recent_transactions (db : DB) : DataFrame :=
  mkDF ["txn_date"; "txn_type"; "item"; "qty"; "unit_price"; "ref_no";
        "remarks"]
       (map recent_select (recent_rows db)).

(** What the query text alone fixes of its result: the joined rows in some
    order that is descending in [created_at], cut at 200; [recent_rows] is
    the one of these the engine returns. *)
Definition recent_admissible (db : DB) (out : list (Txn * Item)) : Prop :=
  exists full,
    Permutation (recent_join db) full
    /\ StronglySorted
         (fun a b => txn_created_at (fst b) <= txn_created_at (fst a)) full
    /\ out = firstn 200 full.

(** ** The other pages *)

(** The submit handler of add_item_form; [category] comes from the select
    box, so it is never missing. *)
Definition add_item_submit (db : DB) (name category brand unit : string)
    (cost_price sale_price : Q) (notes : string) : ui_msg * DB :=
  if String.eqb (strip name) "" then (st_error "Item Name required.", db)
  else
    (st_success (String.append "Item '" (String.append name "' added.")),
     add_item db (strip name) (Some category) (or_none (strip brand))
              (str_or (Some (strip unit)) "pcs") cost_price sale_price
              (or_none (strip notes))).

(** An item id as Python holds it.  The id column of a frame is int64, so
    [item_row['id']] is a numpy.int64, which is not a Python int;
    [int(item_row["id"])] is one. *)
Inductive py_id : Type :=
| PyInt (z : Z)
| NumpyInt64 (z : Z).

(** A bound parameter.  sqlite3 binds a Python int as an INTEGER; a
    numpy.int64 is no int, float or str but exposes a buffer, and is bound
    as a BLOB. *)
Inductive sql_param : Type :=
| SqlInteger (z : Z)
| SqlBlob (z : Z).

Definition bind_id (v : py_id) : sql_param :=
  match v with
  | PyInt z => SqlInteger z
  | NumpyInt64 z => SqlBlob z
  end.

(** [id=?] on the INTEGER column [id]: a BLOB equals no INTEGER. *)
Definition id_equals (id : Z) (p : sql_param) : bool :=
  match p with
  | SqlInteger z => id =? z
  | SqlBlob _ => false
  end.

(** The UPDATE of update_item_basic with the id as the caller passes it. *)
Definition update_item_basic_bound (db : DB) (v : py_id)
    (cost_price sale_price : option Q) : DB :=
  mkDB (map (fun i =>
               if id_equals (item_id i) (bind_id v) then
                 mkItem (item_id i) (item_name i) (item_category i)
                        (item_brand i) (item_unit i)
                        (coalesce cost_price (item_cost_price i))
                        (coalesce sale_price (item_sale_price i))
                        (item_active i) (item_notes i)
               else i)
            (items db))
       (parties db) (transactions db)
       (seq_items db) (seq_parties db) (seq_transactions db).

(** The "Save Price Changes" button: [item_row] is the first listed item
    of the selected name; both prices are passed, and the id is passed as
    the row holds it, without [int(...)]. *)
Definition save_price_changes (db : DB) (sel_item_name : string)
    (cost_new sale_new : Q) : result ui_msg * DB :=
  match filter (fun r => String.eqb (item_name r) sel_item_name)
               (get_items_df db true) with
  | [] => (Raise IndexError, db)
  | item_row :: _ =>
      (Ok (st_success "Item price updated."),
       update_item_basic_bound db (NumpyInt64 (item_id item_row))
                               (Some cost_new) (Some sale_new))
  end.

(** The submit handler of stock_in_form: find or create the supplier, then
    record the movement; nothing joins the two writes. *)
Definition stock_in_submit (fk : bool) (env : Env) (db : DB)
    (item_sel_name : string) (qty unit_price : Q) (tdate : string)
    (supplier_name_sel supplier_new ref_no remarks : string)
    : result ui_msg * DB :=
  match filter (fun r => String.eqb (item_name r) item_sel_name)
               (get_items_df db true) with
  | [] => (Raise IndexError, db)
  | item_row :: _ =>
      match upsert_party db "supplier"
              (Some (str_or (Some (strip supplier_new))
                            (strip supplier_name_sel)))
              None None with
      | (Raise e, db1) => (Raise e, db1)
      | (Ok pid, db1) =>
          match record_txn fk env db1 (item_id item_row) "IN" qty
                  (Some unit_price) pid (or_none (strip ref_no))
                  (Some tdate) (or_none (strip remarks)) with
          | (Raise e, db2) => (Raise e, db2)
          | (Ok _, db2) => (Ok (st_success "Stock IN recorded."), db2)
          end
      end
  end.

(** The submit handlers of the add_supplier and add_customer forms. *)
Definition add_party_submit (ptype added : string) (db : DB)
    (name phone addr : string) : result ui_msg * DB :=
  if String.eqb (strip name) "" then (Ok (st_error "Name required."), db)
  else
    match upsert_party db ptype (Some (strip name)) (or_none (strip phone))
                       (or_none (strip addr)) with
    | (Raise e, db') => (Raise e, db')
    | (Ok _, db') => (Ok (st_success added), db')
    end.

Definition add_supplier_submit : DB -> string -> string -> string
                                 -> result ui_msg * DB :=
  add_party_submit "supplier" "Supplier added.".

Definition add_customer_submit : DB -> string -> string -> string
                                 -> result ui_msg * DB :=
  add_party_submit "customer" "Customer added.".

(** [df[col].sum()] over the given rows: missing values are skipped. *)
Definition df_sum (df : DataFrame) (rows : list (list cell)) (col : string)
    : Q :=
  fold_left
    (fun acc r =>
       match df_get df r col with
       | Some (CReal q) => (acc + q)%Q
       | Some (CInt z) => (acc + inject_Z z)%Q
       | _ => acc
       end)
    rows 0%Q.

(** [inv_df["category"].fillna("") == selected_cat], for one row. *)
Definition category_is (df : DataFrame) (selected_cat : string)
    (r : list cell) : bool :=
  match df_get df r "category" with
  | Some (CText s) => String.eqb s selected_cat
  | Some CNull => String.eqb "" selected_cat
  | _ => false
  end.

(** The three metrics of the Dashboard (total items, total quantity,
    inventory value at cost); [None] stands for the "No items yet" notice. *)
Definition dashboard_metrics (db : DB) (selected_cat : string)
    : option (nat * Q * Q) :=
  let inv_df := get_inventory_df db in
  if df_empty inv_df then None
  else
    let inv_filtered :=
      if String.eqb selected_cat "All" then df_rows inv_df
      else filter (category_is inv_df selected_cat) (df_rows inv_df) in
    let total_items := List.length inv_filtered in
    let total_qty :=
      match total_items with
      | O => 0%Q
      | _ => df_sum inv_df inv_filtered "stock_qty"
      end in
    let total_value :=
      match total_items with
      | O => 0%Q
      | _ => df_sum inv_df inv_filtered "stock_value_cost"
      end in
    Some (total_items, total_qty, total_value).

(** ** The ledger as the specification words it *)

(** The movements of one item. *)
Definition txns_of (db : DB) (iid : Z) : list Txn :=
  filter (fun t => txn_item_id t =? iid) (transactions db).

(** Σ(T.qty): the quantities of the movements of type [ty] among [ts]. *)
Definition qty_total (ts : list Txn) (ty : string) : Q :=
  fold_right Qplus 0%Q
    (map txn_qty (filter (fun t => String.eqb (txn_type t) ty) ts)).

(** Σ(IN.qty) − Σ(OUT.qty) + Σ(ADJUST.qty) over the movements of item
    [iid]. *)
Definition ledger_sum (db : DB) (iid : Z) : Q :=
  (qty_total (txns_of db iid) "IN" - qty_total (txns_of db iid) "OUT"
   + qty_total (txns_of db iid) "ADJUST")%Q.

(** +qty for IN, −qty for OUT, +qty for ADJUST. *)
Definition signed_qty (t : Txn) : Q :=
  if String.eqb (txn_type t) "IN" then txn_qty t
  else if String.eqb (txn_type t) "OUT" then (- txn_qty t)%Q
  else if String.eqb (txn_type t) "ADJUST" then txn_qty t
  else 0%Q.

Definition signed_sum (ts : list Txn) : Q :=
  fold_right Qplus 0%Q (map signed_qty ts).

Definition active_items (db : DB) : list Item :=
  filter (fun i => item_active i =? 1) (items db).

(** The primary key of items and the foreign key transactions.item_id. *)
Definition item_ids_unique (db : DB) : Prop :=
  NoDup (map item_id (items db)).

Definition item_refs_exist (db : DB) : Prop :=
  forall t, In t (transactions db) -> In (txn_item_id t) (map item_id (items db)).

(** (type, name) identifies at most one party. *)
Definition parties_unique (db : DB) : Prop :=
  NoDup (map (fun p => (party_type p, party_name p)) (parties db)).

(** The parties rows the SELECT of upsert_party finds. *)
Definition parties_matching (db : DB) (ty nm : string) : list Party :=
  filter (fun p => String.eqb (party_type p) ty && String.eqb (party_name p) nm)
         (parties db).

(** The row of item [i] in the frame: the select list and the valuation
    cell. *)
Definition position_row (db : DB) (i : Item) : list cell :=
  inventory_select db i
  ++ [CReal (round2 (stock_qty db i * item_cost_price i))].

Definition position_columns : list string :=
  inventory_columns ++ ["stock_value_cost"].

(** What update_item_basic may change in one items row. *)
Definition price_update (iid : Z) (cost_price sale_price : option Q)
    (i i' : Item) : Prop :=
  item_id i' = item_id i
  /\ item_name i' = item_name i
  /\ item_category i' = item_category i
  /\ item_brand i' = item_brand i
  /\ item_unit i' = item_unit i
  /\ item_active i' = item_active i
  /\ item_notes i' = item_notes i
  /\ (item_id i = iid ->
      item_cost_price i'
      = match cost_price with Some v => v | None => item_cost_price i end
      /\ item_sale_price i'
         = match sale_price with Some v => v | None => item_sale_price i end)
  /\ (item_id i <> iid -> i' = i).

(** The order the listing is said to have: newer first, and among equal
    creation times the smaller identity first. *)
Definition newest_first_then_id (a b : Txn * Item) : Prop :=
  txn_created_at (fst b) < txn_created_at (fst a)
  \/ (txn_created_at (fst b) = txn_created_at (fst a)
      /\ txn_id (fst a) < txn_id (fst b)).

Definition newest_first (a b : Txn * Item) : Prop :=
  txn_created_at (fst b) <= txn_created_at (fst a).

(** Every character is whitespace (so is the empty string). *)
Fixpoint all_space (s : string) : bool :=
  match s with
  | EmptyString => true
  | String c s' => is_space c && all_space s'
  end.

(** ** Invariants of the store *)

(** Rowids are distinct and none exceeds the recorded sequence value. *)
Definition rowids_ok (ids : list Z) (seq : Z) : Prop :=
  NoDup ids /\ Forall (fun k => k <= seq) ids.

(** A parties row as upsert_party writes it. *)
Definition party_ok (p : Party) : Prop :=
  In (party_type p) party_types
  /\ strip (party_name p) = party_name p
  /\ party_name p <> "".

(** A transactions row as record_txn writes it. *)
Definition txn_ok (t : Txn) : Prop :=
  In (txn_type t) txn_types /\ (0 < txn_qty t)%Q.

Definition store_ok (db : DB) : Prop :=
  rowids_ok (map item_id (items db)) (seq_items db)
  /\ rowids_ok (map party_id (parties db)) (seq_parties db)
  /\ rowids_ok (map txn_id (transactions db)) (seq_transactions db)
  /\ parties_unique db
  /\ Forall party_ok (parties db)
  /\ Forall txn_ok (transactions db)
  /\ Forall (fun i => item_active i = 1) (items db).

(** One call of a helper that writes. *)
Inductive helper_step (fk : bool) : DB -> DB -> Prop :=
| step_add_item db name category brand unit cost_price sale_price notes :
    helper_step fk db
      (add_item db name category brand unit cost_price sale_price notes)
| step_update_item_basic db iid cost_price sale_price :
    helper_step fk db (update_item_basic db iid cost_price sale_price)
| step_upsert_party db ptype name phone address :
    helper_step fk db (snd (upsert_party db ptype name phone address))
| step_record_txn env db iid ty qty unit_price pid ref_no tdate remarks :
    helper_step fk db
      (snd (record_txn fk env db iid ty qty unit_price pid ref_no tdate
                       remarks)).

(** The stores the helpers can produce from a fresh file. *)
Inductive helper_reachable (fk : bool) : DB -> Prop :=
| helper_init : helper_reachable fk empty_db
| helper_next db db' :
    helper_reachable fk db -> helper_step fk db db' ->
    helper_reachable fk db'.

(** One submission on one of the pages. *)
Inductive page_step (fk : bool) : DB -> DB -> Prop :=
| step_add_item_submit db name category brand unit cost_price sale_price
                       notes :
    page_step fk db
      (snd (add_item_submit db name category brand unit cost_price
                            sale_price notes))
| step_save_price_changes db sel cost_new sale_new :
    page_step fk db (snd (save_price_changes db sel cost_new sale_new))
| step_stock_in env db sel qty unit_price tdate psel pnew ref_no remarks :
    page_step fk db
      (snd (stock_in_submit fk env db sel qty unit_price tdate psel pnew
                            ref_no remarks))
| step_stock_out env db sel qty unit_price tdate psel pnew ref_no remarks :
    page_step fk db
      (snd (stock_out_submit fk env db sel qty unit_price tdate psel pnew
                             ref_no remarks))
| step_add_supplier db name phone addr :
    page_step fk db (snd (add_supplier_submit db name phone addr))
| step_add_customer db name phone addr :
    page_step fk db (snd (add_customer_submit db name phone addr)).

Inductive page_reachable (fk : bool) : DB -> Prop :=
| page_init : page_reachable fk empty_db
| page_next db db' :
    page_reachable fk db -> page_step fk db db' -> page_reachable fk db'.

(** What the pages keep on top of [store_ok]: movements reference listed
    items and known parties, none is an ADJUST, and no item's stock is
    negative. *)
Definition ledger_ok (db : DB) : Prop :=
  item_refs_exist db
  /\ (forall t p, In t (transactions db) -> txn_party_id t = Some p ->
                  In p (map party_id (parties db)))
  /\ Forall (fun t => txn_type t = "IN" \/ txn_type t = "OUT")
            (transactions db)
  /\ (forall i, In i (items db) -> (0 <= stock_qty db i)%Q).

(** ** A small shop, used to run the definitions *)

Definition env0 : Env := mkEnv "2024-01-15" 1705312800.

Definition shop_item : DB :=
  add_item empty_db "iPhone 11 Screen" (Some "Screen") (Some "Apple") "pcs"
           100 150 None.

Definition shop_screen : Item :=
  mkItem 1 "iPhone 11 Screen" (Some "Screen") (Some "Apple") "pcs" 100 150 1
         None.

Definition shop_in : DB :=
  snd (record_txn false env0 shop_item 1 "IN" 10 (Some 100%Q) None None None
                  None).

Definition shop_out : DB :=
  snd (record_txn false env0 shop_in 1 "OUT" 3 (Some 150%Q) None None None
                  None).

Definition shop : DB :=
  snd (record_txn false env0 shop_out 1 "ADJUST" 2 None None None None None).

(** The shop after 201 further receipts of one piece each. *)
Definition shop_busy : DB :=
  Nat.iter 201
    (fun db =>
       snd (record_txn false env0 db 1 "IN" 1 None None None None None))
    shop_item.

(** The shop as three submissions on the pages build it: the item, a
    receipt of 10 from a new supplier, an issue of 3. *)
Definition shop_by_pages : DB :=
  snd (stock_out_submit false env0
         (snd (stock_in_submit false env0
                 (snd (add_item_submit empty_db " iPhone 11 Screen " "Screen"
                                       "Apple" "" 100 150 ""))
                 "iPhone 11 Screen" 10 100 "2024-01-15" "" "Ali Traders" ""
                 ""))
         "iPhone 11 Screen" 3 150 "" "" "Walk-in" "" "").

(** An items row as the Items page writes it. *)
Definition item_ok (i : Item) : Prop :=
  strip (item_name i) = item_name i
  /\ item_name i <> ""
  /\ item_unit i <> ""
  /\ item_category i <> None.

(** The items the Dashboard counts under the selected category: all of
    them under "All", otherwise those whose category, with a missing one
    read as the empty text, is the selected one. *)
Definition in_category (selected_cat : string) (i : Item) : bool :=
  String.eqb selected_cat "All"
  || match item_category i with
     | Some c => String.eqb c selected_cat
     | None => String.eqb "" selected_cat
     end.

Definition q_sum (l : list Q) : Q := fold_right Qplus 0%Q l.

(** The transactions table in rowid order, as a scan reads it. *)
Definition txns_in_rowid_order (db : DB) : Prop :=
  StronglySorted Z.lt (map txn_id (transactions db)).

(** Ascending order of ids, joined rows. *)
Definition by_txn_id (a b : Txn * Item) : Prop :=
  txn_id (fst a) < txn_id (fst b).

Fixpoint ascendingb (l : list Z) : bool :=
  match l with
  | [] => true
  | x :: tl =>
      match tl with
      | [] => true
      | y :: _ => (x <? y) && ascendingb tl
      end
  end.

(** [n] receipts of one piece on the Stock IN page, three to the second. *)
Fixpoint receipts (n : nat) (db : DB) : DB :=
  match n with
  | O => db
  | S k =>
      snd (stock_in_submit false
             (mkEnv "2024-01-15" (1705312800 + Z.of_nat (k / 3)))
             (receipts k db) "iPhone 11 Screen" 1 100 "2024-01-15" ""
             "Ali Traders" "" "")
  end.

(** The shop after the item was added and 203 receipts were entered. *)
Definition shop_ledger : DB :=
  receipts 203
    (snd (add_item_submit empty_db "iPhone 11 Screen" "Screen" "Apple" "pcs"
                          100 150 "")).

(** The column set the export is said to have. *)
Definition displayed_columns : list string :=
  ["name"; "category"; "brand"; "unit"; "cost_price"; "sale_price";
   "stock_qty"; "stock_value_cost"].

(** A stand-in for the rendering of values in the export: text as it is,
    anything else blank. *)
Definition fmt_text (c : cell) : string :=
  match c with CText s => s | _ => "" end.

(** * Properties *)

(** ** Sorting *)

Section OrderByFacts.
Context {A : Type}.
Variable leb : A -> A -> bool.

Lemma insert_sorted_perm (x : A) (l : list A) :
  Permutation (x :: l) (insert_sorted leb x l).
Proof.
  induction l as [|y ys IH]; simpl.
  - apply Permutation_refl.
  - destruct (leb x y).
    + apply Permutation_refl.
    + eapply perm_trans; [apply perm_swap|].
      now apply perm_skip.
Qed.

Lemma order_by_perm (l : list A) : Permutation l (order_by leb l).
Proof.
  induction l as [|x xs IH]; simpl.
  - constructor.
  - eapply perm_trans; [|apply insert_sorted_perm].
    now apply perm_skip.
Qed.

Lemma order_by_In (l : list A) (x : A) : In x (order_by leb l) <-> In x l.
Proof.
  split; intro H.
  - eapply Permutation_in; [apply Permutation_sym, order_by_perm|exact H].
  - eapply Permutation_in; [apply order_by_perm|exact H].
Qed.

Lemma order_by_length (l : list A) :
  List.length (order_by leb l) = List.length l.
Proof. symmetry. apply Permutation_length, order_by_perm. Qed.

Variable R : A -> A -> Prop.
Hypothesis leb_R : forall a b, leb a b = true -> R a b.
Hypothesis leb_total : forall a b, leb a b = false -> R b a.
Hypothesis R_trans : forall a b c, R a b -> R b c -> R a c.

Lemma insert_sorted_sorted (x : A) (l : list A) :
  StronglySorted R l -> StronglySorted R (insert_sorted leb x l).
Proof.
  induction 1 as [|y ys Hs IH Hall]; simpl.
  - repeat constructor.
  - destruct (leb x y) eqn:E.
    + constructor; [now constructor|].
      constructor; [now apply leb_R|].
      eapply Forall_impl; [|exact Hall].
      intros z Hz. eapply R_trans; [apply leb_R; exact E|exact Hz].
    + constructor; [exact IH|].
      apply Forall_forall. intros z Hz.
      apply (Permutation_in _ (Permutation_sym (insert_sorted_perm x ys))) in Hz.
      destruct Hz as [<-|Hz].
      * now apply leb_total.
      * rewrite Forall_forall in Hall. now apply Hall.
Qed.

Lemma order_by_sorted (l : list A) : StronglySorted R (order_by leb l).
Proof.
  induction l as [|x xs IH]; simpl.
  - constructor.
  - now apply insert_sorted_sorted.
Qed.
End OrderByFacts.

Lemma In_firstn {A : Type} (n : nat) (l : list A) (x : A) :
  In x (firstn n l) -> In x l.
Proof.
  revert l. induction n as [|n IH]; intros [|y ys]; simpl; try tauto.
  intros [H|H]; [now left|right; now apply IH].
Qed.

Lemma firstn_strongly_sorted {A : Type} (R : A -> A -> Prop) (n : nat)
    (l : list A) :
  StronglySorted R l -> StronglySorted R (firstn n l).
Proof.
  revert l. induction n as [|n IH]; intros l Hs; simpl.
  - constructor.
  - destruct l as [|x xs]; [constructor|].
    inversion Hs as [|? ? Hxs Hall]; subst.
    constructor; [now apply IH|].
    apply Forall_forall. intros y Hy.
    rewrite Forall_forall in Hall. apply Hall.
    now apply (In_firstn n xs).
Qed.

(** ** record_txn *)

(** C2. Append Movement with [qty <= 0] raises the validation error before
    the store is touched: no transactions row is inserted and the stock
    position frame is the one computed before the call. *)
Theorem record_txn_rejects_nonpositive :
  forall fk env db iid ty qty unit_price pid ref_no tdate remarks,
    (qty <= 0)%Q ->
    let out := record_txn fk env db iid ty qty unit_price pid ref_no tdate
                          remarks in
    fst out = Raise (ValueError "Qty must be > 0")
    /\ snd out = db
    /\ transactions (snd out) = transactions db
    /\ get_inventory_df (snd out) = get_inventory_df db.
Proof.
  intros fk env db iid ty qty unit_price pid ref_no tdate remarks Hq out.
  subst out. unfold record_txn.
  apply Qle_bool_iff in Hq. rewrite Hq. simpl. repeat split.
Qed.

Lemma record_txn_rejects_nonpositive_witness :
  (-1 <= 0)%Q
  /\ fst (record_txn true env0 shop 1 "OUT" (-1) None None None None None)
     = Raise (ValueError "Qty must be > 0")
  /\ get_inventory_df
       (snd (record_txn true env0 shop 1 "OUT" (-1) None None None None None))
     = get_inventory_df shop.
Proof.
  assert (H : (-1 <= 0)%Q) by (unfold Qle; simpl; lia).
  split; [exact H|].
  destruct (record_txn_rejects_nonpositive true env0 shop 1 "OUT" (-1) None
              None None None None H) as (H1 & _ & _ & H4).
  split; [exact H1|exact H4].
Defined.

Lemma str_in_true_iff (s : string) (l : list string) :
  str_in s l = true <-> In s l.
Proof.
  unfold str_in. rewrite existsb_exists. split.
  - intros (x & Hx & E). apply String.eqb_eq in E. now subst.
  - intro H. exists s. split; [exact H|apply String.eqb_refl].
Qed.

(** C9. With [qty > 0], record_txn hands the row to the store as it is
    (its outcome is the INSERT's outcome); a [txn_type] outside
    'IN', 'OUT', 'ADJUST' fails the CHECK constraint there and the store,
    hence the transaction log, is unchanged. *)
Theorem record_txn_unknown_type_rejected_by_store :
  forall fk env db iid ty qty unit_price pid ref_no tdate remarks,
    (0 < qty)%Q ->
    ~ In ty txn_types ->
    record_txn fk env db iid ty qty unit_price pid ref_no tdate remarks
    = insert_transaction fk env db iid ty qty unit_price pid ref_no
                         (str_or tdate (today env)) remarks
    /\ record_txn fk env db iid ty qty unit_price pid ref_no tdate remarks
       = (Raise (IntegrityError CheckConstraint), db)
    /\ transactions
         (snd (record_txn fk env db iid ty qty unit_price pid ref_no tdate
                          remarks))
       = transactions db.
Proof.
  intros fk env db iid ty qty unit_price pid ref_no tdate remarks Hq Hty.
  assert (Hb : Qle_bool qty 0 = false).
  { destruct (Qle_bool qty 0) eqn:E; [|reflexivity].
    apply Qle_bool_iff in E. exfalso. apply (Qlt_not_le _ _ Hq E). }
  assert (Hs : str_in ty txn_types = false).
  { destruct (str_in ty txn_types) eqn:E; [|reflexivity].
    apply str_in_true_iff in E. contradiction. }
  unfold record_txn. rewrite Hb.
  split; [reflexivity|].
  unfold insert_transaction. rewrite Hs. simpl. split; reflexivity.
Qed.

Lemma record_txn_unknown_type_rejected_by_store_witness :
  (0 < 5)%Q
  /\ ~ In "RETURN" txn_types
  /\ record_txn false env0 shop 1 "RETURN" 5 None None None None None
     = (Raise (IntegrityError CheckConstraint), shop).
Proof.
  assert (H1 : (0 < 5)%Q) by reflexivity.
  assert (H2 : ~ In "RETURN" txn_types).
  { simpl. intros [H|[H|[H|[]]]]; discriminate H. }
  split; [exact H1|]. split; [exact H2|].
  exact (proj1 (proj2 (record_txn_unknown_type_rejected_by_store
                         false env0 shop 1 "RETURN" 5 None None None None None
                         H1 H2))).
Defined.

(** ** update_item_basic *)

(** C8. Update price: the items table keeps its rows, position by position;
    in the row of the given id an omitted (None) price keeps its previous
    value and a provided one is stored, name, category, brand, unit, active
    and notes are as before; every other row, and the parties and
    transactions tables, are unchanged. *)
Theorem update_item_basic_frame :
  forall db iid cost_price sale_price,
    let db' := update_item_basic db iid cost_price sale_price in
    Forall2 (price_update iid cost_price sale_price) (items db) (items db')
    /\ parties db' = parties db
    /\ transactions db' = transactions db
    /\ seq_items db' = seq_items db.
Proof.
  intros db iid cost_price sale_price db'. subst db'.
  unfold update_item_basic. simpl.
  split; [|repeat split].
  induction (items db) as [|i l IH]; simpl; constructor; [|exact IH].
  unfold price_update.
  destruct (Z.eqb_spec (item_id i) iid) as [E|E]; simpl;
    do 7 (split; [reflexivity|]); split.
  - intros _. split; [destruct cost_price|destruct sale_price]; reflexivity.
  - intro N. contradiction.
  - intro N. contradiction.
  - reflexivity.
Qed.

(** ** get_inventory_df *)

Lemma df_empty_rows (cols : list string) (rows : list (list cell)) :
  cols <> [] -> df_empty (mkDF cols rows) = match rows with [] => true | _ => false end.
Proof. destruct cols; [contradiction|]. destruct rows; reflexivity. Qed.

Lemma inventory_query_nil (db : DB) :
  inventory_query db = [] <-> active_items db = [].
Proof.
  unfold inventory_query. fold (active_items db).
  set (leb := fun a b : Item => String.leb (item_name a) (item_name b)).
  pose proof (order_by_length leb (active_items db)) as L.
  split; intro H.
  - apply (f_equal (@List.length _)) in H. rewrite length_map, L in H.
    now destruct (active_items db).
  - rewrite H. reflexivity.
Qed.

Lemma active_items_nil (db : DB) :
  active_items db = [] <-> (forall i, In i (items db) -> item_active i <> 1).
Proof.
  unfold active_items. split.
  - intros H i Hi A.
    assert (Hin : In i (filter (fun i => item_active i =? 1) (items db))).
    { apply filter_In. split; [exact Hi|now apply Z.eqb_eq]. }
    rewrite H in Hin. exact Hin.
  - intro H. destruct (filter _ (items db)) as [|i l] eqn:E; [reflexivity|].
    assert (Hin : In i (filter (fun i => item_active i =? 1) (items db)))
      by (rewrite E; now left).
    apply filter_In in Hin. destruct Hin as [Hi A].
    apply Z.eqb_eq in A. exfalso. exact (H i Hi A).
Qed.

(** The frame get_inventory_df returns, by whether an active item exists. *)
Lemma get_inventory_df_cases (db : DB) :
  (active_items db = []
   /\ get_inventory_df db = mkDF inventory_columns [])
  \/ (active_items db <> []
      /\ get_inventory_df db
         = df_add_product_column (mkDF inventory_columns (inventory_query db))
             "stock_value_cost" "stock_qty" "cost_price").
Proof.
  unfold get_inventory_df.
  rewrite df_empty_rows by discriminate.
  destruct (inventory_query db) as [|r rs] eqn:E.
  - left. split; [now apply inventory_query_nil|reflexivity].
  - right. split; [|reflexivity].
    intro H. apply inventory_query_nil in H. congruence.
Qed.

(** C10. With no active item the frame is empty and has the eight columns
    of the query only; the column stock_value_cost is present exactly when
    some item is active. *)
Theorem get_inventory_df_without_active_items :
  forall db,
    ((forall i, In i (items db) -> item_active i <> 1) ->
     df_rows (get_inventory_df db) = []
     /\ df_columns (get_inventory_df db) = inventory_columns
     /\ ~ In "stock_value_cost" (df_columns (get_inventory_df db)))
    /\ (In "stock_value_cost" (df_columns (get_inventory_df db))
        <-> exists i, In i (items db) /\ item_active i = 1).
Proof.
  intro db.
  assert (Hnot : ~ In "stock_value_cost" inventory_columns).
  { simpl. intros H. repeat (destruct H as [H|H]; [discriminate H|]). exact H. }
  destruct (get_inventory_df_cases db) as [[Hn E]|[Hn E]]; rewrite E; simpl.
  - split; [intros _; repeat split; exact Hnot|].
    split; [intro H; exfalso; exact (Hnot H)|].
    intros (i & Hi & A).
    pose proof (proj1 (active_items_nil db) Hn i Hi). contradiction.
  - split.
    + intro H. apply active_items_nil in H. contradiction.
    + split; [|intros _; do 8 right; now left].
      intros _. destruct (active_items db) as [|i l] eqn:Ea; [congruence|].
      exists i.
      assert (Hin : In i (active_items db)) by (rewrite Ea; now left).
      unfold active_items in Hin. apply filter_In in Hin.
      destruct Hin as [Hi A]. apply Z.eqb_eq in A. now split.
Qed.

Lemma get_inventory_df_without_active_items_witness :
  df_rows (get_inventory_df empty_db) = []
  /\ df_columns (get_inventory_df empty_db) = inventory_columns
  /\ ~ In "stock_value_cost" (df_columns (get_inventory_df empty_db)).
Proof.
  apply (proj1 (get_inventory_df_without_active_items empty_db)).
  simpl. intros i [].
Defined.

(** ** Rounding to two decimals *)

Lemma rint_nearest (q : Q) : (Qabs (inject_Z (rint q) - q) <= 1 # 2)%Q.
Proof.
  destruct q as [n d]. unfold rint. cbn [Qnum Qden].
  pose proof (Z.div_mod n (Zpos d) ltac:(lia)) as Hdm.
  pose proof (Z.mod_pos_bound n (Zpos d) ltac:(lia)) as Hb.
  set (f := n / Zpos d) in *. set (r := n mod Zpos d) in *.
  assert (Hcase : forall z, (z = f /\ 2 * r <= Zpos d)
                            \/ (z = f + 1 /\ Zpos d <= 2 * r) ->
                  (Qabs (inject_Z z - (n # d)) <= 1 # 2)%Q).
  { intros z Hz. unfold Qle, Qabs, Qminus, Qplus, Qopp, inject_Z. simpl.
    nia. }
  destruct (Z.compare_spec (2 * r) (Zpos d)) as [E|E|E].
  - destruct (Z.even f); apply Hcase; lia.
  - apply Hcase; lia.
  - apply Hcase; lia.
Qed.

Lemma round2_nearest (x : Q) : (Qabs (round2 x - x) <= 1 # 200)%Q.
Proof.
  unfold round2.
  assert (E : (rint (x * 100) # 100) - x
              == (inject_Z (rint (x * 100)) - x * 100) * (1 # 100)).
  { generalize (rint (x * 100)). intro z. destruct x as [n d].
    unfold inject_Z, Qeq, Qminus, Qplus, Qmult, Qopp.
    cbn [Qnum Qden]. rewrite !Pos2Z.inj_mul. ring. }
  rewrite E, Qabs_Qmult.
  pose proof (rint_nearest (x * 100)) as H.
  setoid_replace (1 # 200)%Q with ((1 # 2) * (1 # 100))%Q by reflexivity.
  apply Qmult_le_compat_r; [exact H|].
  unfold Qle, Qabs. simpl. lia.
Qed.

(** ** The aggregate *)

Lemma case_signed_qty_Some (t : Txn) :
  case_signed_qty (Some t) = Some (signed_qty t).
Proof.
  unfold case_signed_qty, signed_qty.
  repeat match goal with |- context [String.eqb ?a ?b] =>
           destruct (String.eqb a b) end; reflexivity.
Qed.

Lemma sql_sum_from (l : list Txn) (a : Q) :
  exists s,
    fold_left
      (fun acc x =>
         match x, acc with
         | None, _ => acc
         | Some v, None => Some v
         | Some v, Some a => Some (a + v)%Q
         end)
      (map (fun t => Some (signed_qty t)) l) (Some a) = Some s
    /\ s == a + signed_sum l.
Proof.
  revert a. induction l as [|t l IH]; intro a; simpl.
  - exists a. split; [reflexivity|]. unfold signed_sum. simpl. ring.
  - destruct (IH (a + signed_qty t)%Q) as (s & Hs & Es).
    exists s. split; [exact Hs|].
    rewrite Es. unfold signed_sum. simpl. ring.
Qed.

Lemma stock_qty_signed_sum (db : DB) (i : Item) :
  stock_qty db i == signed_sum (txns_of db (item_id i)).
Proof.
  unfold stock_qty, left_join_transactions, txns_of.
  destruct (filter _ (transactions db)) as [|t ts].
  - reflexivity.
  - rewrite map_map.
    rewrite (map_ext _ (fun t => Some (signed_qty t)) case_signed_qty_Some).
    unfold sql_sum. simpl.
    destruct (sql_sum_from ts (signed_qty t)) as (s & Hs & Es).
    rewrite Hs. simpl. rewrite Es. unfold signed_sum. simpl. ring.
Qed.

Lemma signed_sum_three_sums (ts : list Txn) :
  signed_sum ts
  == qty_total ts "IN" - qty_total ts "OUT" + qty_total ts "ADJUST".
Proof.
  induction ts as [|t ts IH].
  - reflexivity.
  - unfold signed_sum, qty_total in *. simpl. rewrite IH.
    unfold signed_qty.
    destruct t as [tid iid ty qty up pid ref d rem cr]. cbn [txn_type txn_qty].
    destruct (String.eqb_spec ty "IN") as [E|E]; [subst ty; simpl; ring|].
    destruct (String.eqb_spec ty "OUT") as [E1|E1]; [subst ty; simpl; ring|].
    destruct (String.eqb_spec ty "ADJUST") as [E2|E2];
      [subst ty; simpl; ring|].
    ring.
Qed.

Lemma stock_qty_ledger_sum (db : DB) (i : Item) :
  stock_qty db i == ledger_sum db (item_id i).
Proof.
  rewrite stock_qty_signed_sum. apply signed_sum_three_sums.
Qed.

(** ** The rows of the stock position *)

Lemma get_inventory_df_nonempty (db : DB) :
  active_items db <> [] ->
  get_inventory_df db
  = mkDF position_columns
         (map (position_row db)
              (order_by (fun a b => String.leb (item_name a) (item_name b))
                        (active_items db))).
Proof.
  intro Hne.
  destruct (get_inventory_df_cases db) as [[Hn _]|[_ E]]; [contradiction|].
  rewrite E. unfold df_add_product_column, inventory_query. cbn [df_columns df_rows].
  fold (active_items db). rewrite map_map. reflexivity.
Qed.

Lemma active_items_In (db : DB) (i : Item) :
  In i (active_items db) <-> In i (items db) /\ item_active i = 1.
Proof.
  unfold active_items. rewrite filter_In, Z.eqb_eq. reflexivity.
Qed.

Lemma active_items_inhabited (db : DB) (i : Item) :
  In i (items db) -> item_active i = 1 -> active_items db <> [].
Proof.
  intros Hi A H.
  assert (Hin : In i (active_items db)) by (apply active_items_In; now split).
  rewrite H in Hin. exact Hin.
Qed.

Lemma get_inventory_df_rows (db : DB) (row : list cell) :
  In row (df_rows (get_inventory_df db))
  <-> exists i, In i (items db) /\ item_active i = 1 /\ row = position_row db i.
Proof.
  destruct (active_items db) as [|a l] eqn:Ea.
  - destruct (get_inventory_df_cases db) as [[_ E]|[Hn _]]; [|contradiction].
    rewrite E. simpl. split; [tauto|].
    intros (i & Hi & A & _).
    assert (H : In i (active_items db)) by (apply active_items_In; now split).
    rewrite Ea in H. exact H.
  - rewrite get_inventory_df_nonempty by (rewrite Ea; discriminate).
    cbn [df_rows]. rewrite in_map_iff. split.
    + intros (i & <- & Hi). apply order_by_In, active_items_In in Hi.
      exists i. tauto.
    + intros (i & Hi & A & ->). exists i. split; [reflexivity|].
      apply order_by_In, active_items_In. now split.
Qed.

(** C1. Every active item has a row in the frame of get_inventory_df whose
    stock_qty is the sum of +qty for IN, −qty for OUT and +qty for ADJUST
    over the item's transactions, which is Σ(IN.qty) − Σ(OUT.qty) +
    Σ(ADJUST.qty), and whose stock_value_cost is stock_qty times the item's
    cost_price rounded to two decimals: a multiple of 0.01 within 0.005 of
    the product. *)
Theorem get_inventory_df_stock_position :
  forall db i,
    In i (items db) ->
    item_active i = 1 ->
    exists row q v,
      In row (df_rows (get_inventory_df db))
      /\ df_get (get_inventory_df db) row "id" = Some (CInt (item_id i))
      /\ df_get (get_inventory_df db) row "stock_qty" = Some (CReal q)
      /\ q == signed_sum (txns_of db (item_id i))
      /\ q == ledger_sum db (item_id i)
      /\ df_get (get_inventory_df db) row "stock_value_cost" = Some (CReal v)
      /\ v = round2 (q * item_cost_price i)
      /\ (exists z, v = z # 100)
      /\ (Qabs (v - q * item_cost_price i) <= 1 # 200)%Q.
Proof.
  intros db i Hi A.
  exists (position_row db i), (stock_qty db i),
         (round2 (stock_qty db i * item_cost_price i)).
  split; [apply get_inventory_df_rows; now exists i|].
  pose proof (active_items_inhabited db i Hi A) as Hne.
  rewrite (get_inventory_df_nonempty db Hne).
  split; [reflexivity|]. split; [reflexivity|].
  split; [apply stock_qty_signed_sum|].
  split; [apply stock_qty_ledger_sum|].
  split; [reflexivity|]. split; [reflexivity|].
  split; [eexists; reflexivity|apply round2_nearest].
Qed.

Lemma get_inventory_df_stock_position_witness :
  In shop_screen (items shop)
  /\ item_active shop_screen = 1
  /\ exists row q v,
      In row (df_rows (get_inventory_df shop))
      /\ df_get (get_inventory_df shop) row "id" = Some (CInt 1)
      /\ df_get (get_inventory_df shop) row "stock_qty" = Some (CReal q)
      /\ q == signed_sum (txns_of shop 1)
      /\ q == ledger_sum shop 1
      /\ df_get (get_inventory_df shop) row "stock_value_cost"
         = Some (CReal v)
      /\ v = round2 (q * 100)
      /\ (exists z, v = z # 100)
      /\ (Qabs (v - q * 100) <= 1 # 200)%Q.
Proof.
  assert (H1 : In shop_screen (items shop)) by (left; reflexivity).
  assert (H2 : item_active shop_screen = 1) by reflexivity.
  split; [exact H1|]. split; [exact H2|].
  exact (get_inventory_df_stock_position shop shop_screen H1 H2).
Defined.

(** The scenario of the specification: IN 10 at cost 100, OUT 3, ADJUST 2
    leave 9 in stock, valued 900. *)
Example shop_position :
  stock_qty shop shop_screen == 9
  /\ ledger_sum shop 1 == 9
  /\ exists v,
      df_get (get_inventory_df shop) (position_row shop shop_screen)
             "stock_value_cost" = Some (CReal v)
      /\ v == 900.
Proof.
  split; [reflexivity|]. split; [reflexivity|].
  eexists. split; reflexivity.
Qed.

Lemma round2_zero_product (c : Q) : round2 (0 * c) == 0.
Proof.
  destruct c as [n d]. unfold round2, rint, Qmult. cbn [Qnum Qden].
  rewrite Z.mul_0_l. reflexivity.
Qed.

(** C6. An active item without movements is present in the frame of
    get_inventory_df, with stock_qty 0 and stock_value_cost 0. *)
Theorem get_inventory_df_item_without_movements :
  forall db i,
    In i (items db) ->
    item_active i = 1 ->
    (forall t, In t (transactions db) -> txn_item_id t <> item_id i) ->
    exists row v,
      In row (df_rows (get_inventory_df db))
      /\ df_get (get_inventory_df db) row "id" = Some (CInt (item_id i))
      /\ df_get (get_inventory_df db) row "stock_qty" = Some (CReal 0)
      /\ df_get (get_inventory_df db) row "stock_value_cost" = Some (CReal v)
      /\ v == 0.
Proof.
  intros db i Hi A Hno.
  assert (Hf : filter (fun t => txn_item_id t =? item_id i) (transactions db)
               = []).
  { destruct (filter _ (transactions db)) as [|t ts] eqn:E; [reflexivity|].
    assert (Hin : In t (filter (fun t => txn_item_id t =? item_id i)
                               (transactions db))) by (rewrite E; now left).
    apply filter_In in Hin. destruct Hin as [Ht Et].
    apply Z.eqb_eq in Et. exfalso. exact (Hno t Ht Et). }
  assert (Hs : stock_qty db i = 0%Q).
  { unfold stock_qty, left_join_transactions. rewrite Hf. reflexivity. }
  pose proof (active_items_inhabited db i Hi A) as Hne.
  exists (position_row db i), (round2 (0 * item_cost_price i)).
  split; [apply get_inventory_df_rows; now exists i|].
  rewrite (get_inventory_df_nonempty db Hne).
  unfold position_row, inventory_select. rewrite Hs.
  split; [reflexivity|]. split; [reflexivity|]. split; [reflexivity|].
  apply round2_zero_product.
Qed.

Lemma get_inventory_df_item_without_movements_witness :
  In shop_screen (items shop_item)
  /\ item_active shop_screen = 1
  /\ (forall t, In t (transactions shop_item) -> txn_item_id t <> 1)
  /\ exists row v,
      In row (df_rows (get_inventory_df shop_item))
      /\ df_get (get_inventory_df shop_item) row "id" = Some (CInt 1)
      /\ df_get (get_inventory_df shop_item) row "stock_qty"
         = Some (CReal 0)
      /\ df_get (get_inventory_df shop_item) row "stock_value_cost"
         = Some (CReal v)
      /\ v == 0.
Proof.
  assert (H1 : In shop_screen (items shop_item)) by (left; reflexivity).
  assert (H2 : item_active shop_screen = 1) by reflexivity.
  assert (H3 : forall t, In t (transactions shop_item) -> txn_item_id t <> 1)
    by (intros t []).
  split; [exact H1|]. split; [exact H2|]. split; [exact H3|].
  exact (get_inventory_df_item_without_movements shop_item shop_screen
           H1 H2 H3).
Defined.

(** ** The Stock OUT page *)

Lemma filter_map_commute {A B : Type} (p : B -> bool) (f : A -> B)
    (l : list A) :
  filter p (map f l) = map f (filter (fun x => p (f x)) l).
Proof.
  induction l as [|x xs IH]; simpl; [reflexivity|].
  destruct (p (f x)); simpl; now rewrite IH.
Qed.

Lemma stock_qty_by_id (db : DB) (i j : Item) :
  item_id j = item_id i -> stock_qty db j = stock_qty db i.
Proof.
  intro E. unfold stock_qty, left_join_transactions. now rewrite E.
Qed.

(** The stock the page shows for an active item is its stock position. *)
Lemma curr_stock_position (db : DB) (i : Item) :
  In i (items db) -> item_active i = 1 ->
  curr_stock (get_inventory_df db) (item_id i) = stock_qty db i.
Proof.
  intros Hi A.
  assert (Hin : In i (active_items db)) by (apply active_items_In; now split).
  pose proof (active_items_inhabited db i Hi A) as Hne.
  rewrite (get_inventory_df_nonempty db Hne).
  unfold curr_stock. cbn [df_rows].
  rewrite filter_map_commute.
  set (sorted := order_by _ (active_items db)).
  assert (Hs : In i sorted) by (apply order_by_In; exact Hin).
  assert (Hp : forall j,
             cell_is_int (item_id i)
               (df_get (mkDF position_columns (map (position_row db) sorted))
                       (position_row db j) "id")
             = (item_id j =? item_id i)).
  { intro j. reflexivity. }
  rewrite (filter_ext _ _ Hp).
  destruct (filter (fun j => item_id j =? item_id i) sorted) as [|j js] eqn:E.
  - exfalso.
    assert (Hf : In i (filter (fun j => item_id j =? item_id i) sorted)).
    { apply filter_In. split; [exact Hs|apply Z.eqb_refl]. }
    rewrite E in Hf. exact Hf.
  - assert (Hj : In j (filter (fun j => item_id j =? item_id i) sorted))
      by (rewrite E; now left).
    apply filter_In in Hj. destruct Hj as [_ Ej]. apply Z.eqb_eq in Ej.
    simpl. change (stock_qty db j = stock_qty db i).
    now apply stock_qty_by_id.
Qed.

(** C7. A stock-out submission asking for more than the computed stock of
    the selected item shows the error, appends no movement (the store is
    the one before the submission) and leaves the stock position as it
    was; the stock the handler compares with is the item's ledger sum. *)
Theorem stock_out_submit_blocks_excess :
  forall fk env db sel_name qty unit_price tdate customer_name_sel
         customer_new ref_no remarks item_row rest,
    filter (fun r => String.eqb (item_name r) sel_name) (get_items_df db true)
    = item_row :: rest ->
    (curr_stock (get_inventory_df db) (item_id item_row) < qty)%Q ->
    let out := stock_out_submit fk env db sel_name qty unit_price tdate
                 customer_name_sel customer_new ref_no remarks in
    fst out = Ok (st_error "Not enough stock available.")
    /\ snd out = db
    /\ transactions (snd out) = transactions db
    /\ get_inventory_df (snd out) = get_inventory_df db
    /\ curr_stock (get_inventory_df db) (item_id item_row)
       == ledger_sum db (item_id item_row).
Proof.
  intros fk env db sel_name qty unit_price tdate customer_name_sel
         customer_new ref_no remarks item_row rest Hsel Hlt out.
  subst out. unfold stock_out_submit. rewrite Hsel.
  assert (Hb : Qle_bool qty
                 (curr_stock (get_inventory_df db) (item_id item_row))
               = false).
  { destruct (Qle_bool qty _) eqn:E; [|reflexivity].
    apply Qle_bool_iff in E. exfalso. exact (Qlt_not_le _ _ Hlt E). }
  rewrite Hb. cbn [negb fst snd].
  do 4 (split; [reflexivity|]).
  assert (Hin : In item_row
                  (filter (fun r => String.eqb (item_name r) sel_name)
                          (get_items_df db true)))
    by (rewrite Hsel; now left).
  apply filter_In in Hin. destruct Hin as [Hin _].
  unfold get_items_df in Hin. apply filter_In in Hin.
  destruct Hin as [Hi A]. apply Z.eqb_eq in A.
  rewrite (curr_stock_position db item_row Hi A).
  apply stock_qty_ledger_sum.
Qed.

Lemma stock_out_submit_blocks_excess_witness :
  filter (fun r => String.eqb (item_name r) "iPhone 11 Screen")
         (get_items_df shop true) = shop_screen :: []
  /\ (curr_stock (get_inventory_df shop) 1 < 50)%Q
  /\ fst (stock_out_submit true env0 shop "iPhone 11 Screen" 50 150
            "2024-01-16" "" "Walk-in" "" "")
     = Ok (st_error "Not enough stock available.")
  /\ snd (stock_out_submit true env0 shop "iPhone 11 Screen" 50 150
            "2024-01-16" "" "Walk-in" "" "") = shop
  /\ curr_stock (get_inventory_df shop) 1 == 9.
Proof.
  assert (H1 : filter (fun r => String.eqb (item_name r) "iPhone 11 Screen")
                      (get_items_df shop true) = shop_screen :: [])
    by reflexivity.
  assert (H2 : (curr_stock (get_inventory_df shop) (item_id shop_screen)
                < 50)%Q) by reflexivity.
  destruct (stock_out_submit_blocks_excess true env0 shop "iPhone 11 Screen"
              50 150 "2024-01-16" "" "Walk-in" "" "" shop_screen [] H1 H2)
    as (R1 & R2 & _ & _ & R5).
  split; [exact H1|]. split; [exact H2|]. split; [exact R1|].
  split; [exact R2|]. rewrite R5. reflexivity.
Defined.

(** A submission within the stock is appended: 9 in stock, 3 more sold. *)
Example stock_out_submit_within_stock :
  fst (stock_out_submit false env0 shop "iPhone 11 Screen" 3 150
         "2024-01-16" "" "Walk-in" "INV-7" "")
  = Ok (st_success "Stock OUT recorded.")
  /\ stock_qty
       (snd (stock_out_submit false env0 shop "iPhone 11 Screen" 3 150
               "2024-01-16" "" "Walk-in" "INV-7" ""))
       shop_screen == 6.
Proof. split; reflexivity. Qed.

(** ** The CSV export *)

(** C4, as stated, fails on the shop: the first record of its export is
    not the displayed column set, it starts with the id column. *)
Lemma export_csv_header_counterexample :
  (exists recs,
      export_csv fmt_text shop
      = Some (["id"; "name"; "category"; "brand"; "unit"; "cost_price";
               "sale_price"; "stock_qty"; "stock_value_cost"] :: recs))
  /\ ~ (exists recs,
          export_csv fmt_text shop = Some (displayed_columns :: recs)).
Proof.
  split.
  - eexists. reflexivity.
  - intros (recs & H). discriminate H.
Qed.

(** C4, amended. When some item is active the export's header record is
    id, name, category, brand, unit, cost_price, sale_price, stock_qty,
    stock_value_cost and its data records are one per active item, each the
    rendering of that item's row; with no active item no export is
    offered. *)
Theorem export_csv_header_and_rows :
  forall fmt db,
    ((exists i, In i (items db) /\ item_active i = 1) ->
     exists recs,
       export_csv fmt db
       = Some (["id"; "name"; "category"; "brand"; "unit"; "cost_price";
                "sale_price"; "stock_qty"; "stock_value_cost"] :: recs)
       /\ List.length recs = List.length (active_items db)
       /\ Permutation recs
                      (map (fun i => map fmt (position_row db i))
                           (active_items db)))
    /\ ((forall i, In i (items db) -> item_active i <> 1) ->
        export_csv fmt db = None).
Proof.
  intros fmt db. split.
  - intros (i & Hi & A).
    pose proof (active_items_inhabited db i Hi A) as Hne.
    unfold export_csv. rewrite (get_inventory_df_nonempty db Hne).
    set (sorted := order_by _ (active_items db)).
    assert (Hp : Permutation (active_items db) sorted)
      by apply order_by_perm.
    assert (Hs : sorted <> []).
    { intro H. rewrite H in Hp. apply Permutation_sym, Permutation_nil in Hp.
      contradiction. }
    assert (He : df_empty (mkDF position_columns
                                (map (position_row db) sorted)) = false).
    { destruct sorted; [contradiction|reflexivity]. }
    rewrite He. unfold to_csv. cbn [df_columns df_rows].
    exists (map (map fmt) (map (position_row db) sorted)).
    split; [reflexivity|]. split.
    + rewrite !length_map. symmetry. now apply Permutation_length.
    + rewrite map_map. apply Permutation_map, Permutation_sym, Hp.
  - intro Hnone. apply active_items_nil in Hnone.
    destruct (get_inventory_df_cases db) as [[_ E]|[Hn _]]; [|contradiction].
    unfold export_csv. rewrite E. reflexivity.
Qed.

Lemma export_csv_header_and_rows_witness :
  (exists i, In i (items shop) /\ item_active i = 1)
  /\ exists recs,
       export_csv fmt_text shop
       = Some (["id"; "name"; "category"; "brand"; "unit"; "cost_price";
                "sale_price"; "stock_qty"; "stock_value_cost"] :: recs)
       /\ List.length recs = List.length (active_items shop)
       /\ Permutation recs
                      (map (fun i => map fmt_text (position_row shop i))
                           (active_items shop)).
Proof.
  assert (H : exists i, In i (items shop) /\ item_active i = 1).
  { exists shop_screen. split; [left|]; reflexivity. }
  split; [exact H|].
  exact (proj1 (export_csv_header_and_rows fmt_text shop) H).
Defined.

(** ** upsert_party *)

Lemma str_or_Some_empty (s : string) : str_or (Some s) "" = s.
Proof.
  unfold str_or. destruct (String.eqb_spec s ""); congruence.
Qed.

Lemma parties_matching_none (db : DB) (ty nm : string) :
  parties_matching db ty nm = [] ->
  ~ In (ty, nm) (map (fun p => (party_type p, party_name p)) (parties db)).
Proof.
  intros H Hin. apply in_map_iff in Hin. destruct Hin as (p & E & Hp).
  injection E as E1 E2.
  assert (Hm : In p (parties_matching db ty nm)).
  { apply filter_In. split; [exact Hp|].
    rewrite E1, E2, !String.eqb_refl. reflexivity. }
  rewrite H in Hm. exact Hm.
Qed.

Lemma NoDup_snoc {A : Type} (l : list A) (x : A) :
  NoDup l -> ~ In x l -> NoDup (l ++ [x]).
Proof.
  intros Hl Hx. induction Hl as [|y ys Hy Hys IH]; simpl.
  - constructor; [intros []|constructor].
  - constructor.
    + rewrite in_app_iff. intros [H|[H|[]]]; [contradiction|].
      subst. apply Hx. now left.
    + apply IH. intro H. apply Hx. now right.
Qed.

(** C5. For a party type the schema admits and a name that is not blank,
    find-or-create returns an identity; a second call whose name strips to
    the same text returns that identity and leaves the store exactly as the
    first call left it, whatever phone and address it is given.  The first
    call adds one row (type, stripped name, its phone and address) when no
    row matched and none otherwise, so a parties table in which (type, name)
    is unique stays so. *)
Theorem upsert_party_idempotent :
  forall db ty n1 n2 ph1 ad1 ph2 ad2,
    In ty party_types ->
    strip n1 = strip n2 ->
    strip n1 <> "" ->
    exists pid db1,
      upsert_party db ty (Some n1) ph1 ad1 = (Ok (Some pid), db1)
      /\ upsert_party db1 ty (Some n2) ph2 ad2 = (Ok (Some pid), db1)
      /\ (exists p, hd_error (parties_matching db1 ty (strip n1)) = Some p
                    /\ party_id p = pid)
      /\ (parties_matching db ty (strip n1) = [] ->
          parties db1 = parties db ++ [mkParty pid ty (strip n1) ph1 ad1]
          /\ parties_matching db1 ty (strip n1)
             = [mkParty pid ty (strip n1) ph1 ad1])
      /\ (parties_matching db ty (strip n1) <> [] -> db1 = db)
      /\ (parties_unique db -> parties_unique db1).
Proof.
  intros db ty n1 n2 ph1 ad1 ph2 ad2 Hty Hn Hne.
  assert (Hb1 : String.eqb (strip n1) "" = false)
    by (now apply String.eqb_neq).
  assert (Hb2 : String.eqb (strip n2) "" = false)
    by (rewrite <- Hn; exact Hb1).
  unfold upsert_party. rewrite !str_or_Some_empty, Hb1, Hb2, <- Hn.
  fold (parties_matching db ty (strip n1)).
  destruct (parties_matching db ty (strip n1)) as [|row rows] eqn:Em.
  - (* created *)
    unfold insert_party.
    apply str_in_true_iff in Hty. rewrite Hty.
    set (pid := next_rowid (map party_id (parties db)) (seq_parties db)).
    set (new := mkParty pid ty (strip n1) ph1 ad1).
    set (db1 := mkDB _ _ _ _ _ _).
    assert (Em1 : parties_matching db1 ty (strip n1) = [new]).
    { unfold parties_matching, db1. cbn [parties].
      rewrite filter_app. fold (parties_matching db ty (strip n1)).
      rewrite Em. simpl. rewrite !String.eqb_refl. reflexivity. }
    exists pid, db1. split; [reflexivity|].
    fold (parties_matching db1 ty (strip n1)). rewrite Em1.
    split; [reflexivity|].
    split; [exists new; split; reflexivity|].
    split; [intros _; split; reflexivity|].
    split; [intro H; now contradiction H|].
    unfold parties_unique, db1. cbn [parties]. intro Hu.
    rewrite map_app. cbn [map]. apply NoDup_snoc; [exact Hu|].
    now apply parties_matching_none.
  - (* found *)
    exists (party_id row), db. split; [reflexivity|].
    fold (parties_matching db ty (strip n1)). rewrite Em.
    split; [reflexivity|].
    split; [exists row; split; reflexivity|].
    split; [intro H; discriminate H|].
    split; [reflexivity|tauto].
Qed.

Lemma upsert_party_idempotent_witness :
  In "supplier" party_types
  /\ strip "  Ali Traders " = strip "Ali Traders"
  /\ strip "  Ali Traders " <> ""
  /\ exists pid db1,
      upsert_party shop "supplier" (Some "  Ali Traders ") (Some "0300")
                   None = (Ok (Some pid), db1)
      /\ upsert_party db1 "supplier" (Some "Ali Traders") (Some "0321")
                      (Some "Saddar") = (Ok (Some pid), db1)
      /\ parties db1 = [mkParty pid "supplier" "Ali Traders" (Some "0300")
                                None].
Proof.
  assert (H1 : In "supplier" party_types) by (left; reflexivity).
  assert (H2 : strip "  Ali Traders " = strip "Ali Traders") by reflexivity.
  assert (H3 : strip "  Ali Traders " <> "") by discriminate.
  split; [exact H1|]. split; [exact H2|]. split; [exact H3|].
  destruct (upsert_party_idempotent shop "supplier" "  Ali Traders "
              "Ali Traders" (Some "0300") None (Some "0321") (Some "Saddar")
              H1 H2 H3)
    as (pid & db1 & R1 & R2 & _ & R4 & _).
  exists pid, db1. split; [exact R1|]. split; [exact R2|].
  exact (proj1 (R4 eq_refl)).
Defined.

Lemma parties_unique_empty : parties_unique empty_db.
Proof. constructor. Qed.

(** The same name under the other type is a party of its own, and a blank
    name gives no identity. *)
Example upsert_party_types_are_namespaces :
  let db1 := snd (upsert_party empty_db "supplier" (Some "Ali") None None) in
  fst (upsert_party empty_db "supplier" (Some "Ali") None None)
  = Ok (Some 1)
  /\ fst (upsert_party db1 "customer" (Some "Ali") None None) = Ok (Some 2)
  /\ upsert_party db1 "customer" (Some "   ") None None = (Ok None, db1)
  /\ upsert_party db1 "customer" None None None = (Ok None, db1).
Proof. repeat split. Qed.

(** ** The recent-transactions listing *)

Lemma filter_absent_key {A : Type} (f : A -> Z) (x : Z) (l : list A) :
  ~ In x (map f l) -> filter (fun i => f i =? x) l = [].
Proof.
  induction l as [|a l IH]; simpl; intro H; [reflexivity|].
  destruct (Z.eqb_spec (f a) x) as [E|E].
  - exfalso. apply H. now left.
  - apply IH. intro Hin. apply H. now right.
Qed.

Lemma filter_unique_key {A : Type} (f : A -> Z) (x : Z) (l : list A) :
  NoDup (map f l) -> In x (map f l) ->
  List.length (filter (fun i => f i =? x) l) = 1%nat.
Proof.
  induction l as [|a l IH]; simpl; intros Hnd Hin; [contradiction|].
  inversion Hnd as [|? ? Hna Hnd']; subst.
  destruct (Z.eqb_spec (f a) x) as [E|E].
  - simpl. subst x. now rewrite (filter_absent_key f (f a) l Hna).
  - destruct Hin as [Hin|Hin]; [contradiction|]. now apply IH.
Qed.

(** Under the primary key and the foreign key the join keeps one row per
    transaction. *)
Lemma recent_join_length (db : DB) :
  item_ids_unique db -> item_refs_exist db ->
  List.length (recent_join db) = List.length (transactions db).
Proof.
  unfold item_ids_unique, item_refs_exist, recent_join.
  intros Hu Hr.
  induction (transactions db) as [|t ts IH]; simpl; [reflexivity|].
  rewrite length_app, length_map.
  rewrite (filter_unique_key item_id (txn_item_id t) (items db) Hu)
    by (apply Hr; now left).
  simpl. f_equal. apply IH. intros t' Ht'. apply Hr. now right.
Qed.

Lemma created_desc_sorted (l : list (Txn * Item)) :
  StronglySorted newest_first (order_by created_desc l).
Proof.
  apply order_by_sorted; unfold created_desc, newest_first.
  - intros a b H. now apply Z.leb_le.
  - intros a b H. apply Z.leb_gt in H. lia.
  - intros a b c H1 H2. lia.
Qed.

(** The rows [recent_rows] computes are among those the query admits. *)
Lemma recent_rows_admissible (db : DB) : recent_admissible db (recent_rows db).
Proof.
  exists (order_by created_desc (recent_join db)).
  split; [apply order_by_perm|].
  split; [apply created_desc_sorted|reflexivity].
Qed.

(** Whatever order the query gives rows of equal creation time, an
    admissible listing has at most 200 rows, is ordered by creation
    timestamp descending, and, when every transaction references exactly
    one item, has min(200, number of transactions) rows. *)
Lemma recent_admissible_bounded_newest_first :
  forall db,
    recent_admissible db (recent_rows db)
    /\ List.length (df_rows (recent_transactions db))
       = List.length (recent_rows db)
    /\ forall out,
        recent_admissible db out ->
        (List.length out <= 200)%nat
        /\ StronglySorted newest_first out
        /\ (item_ids_unique db -> item_refs_exist db ->
            List.length out
            = Nat.min 200 (List.length (transactions db))
            /\ ((201 <= List.length (transactions db))%nat ->
                List.length out = 200%nat)).
Proof.
  intro db. split; [apply recent_rows_admissible|].
  split; [unfold recent_transactions; cbn [df_rows]; apply length_map|].
  intros out (full & Hp & Hs & ->).
  split; [apply firstn_le_length|].
  split; [now apply firstn_strongly_sorted|].
  intros Hu Hr.
  assert (Hl : List.length full = List.length (transactions db)).
  { rewrite <- (Permutation_length Hp). now apply recent_join_length. }
  rewrite length_firstn, Hl. split; [reflexivity|].
  intro H. apply Nat.min_l. lia.
Qed.

Lemma item_refs_exist_dec (db : DB) :
  forallb (fun t => existsb (fun i => item_id i =? txn_item_id t) (items db))
          (transactions db) = true ->
  item_refs_exist db.
Proof.
  intros H t Ht. rewrite forallb_forall in H. specialize (H t Ht).
  apply existsb_exists in H. destruct H as (i & Hi & E).
  apply Z.eqb_eq in E. rewrite <- E. now apply in_map.
Qed.

(** *** Ties in the listing *)

Lemma insert_sorted_ties (x : Txn * Item) (l : list (Txn * Item)) :
  StronglySorted newest_first_then_id l ->
  Forall (by_txn_id x) l ->
  StronglySorted newest_first_then_id (insert_sorted created_desc x l).
Proof.
  induction 1 as [|y ys Hs IH Hall]; intro Hid; simpl.
  - repeat constructor.
  - inversion Hid as [|? ? Hxy Hxys]; subst.
    unfold created_desc at 1.
    destruct (Z.leb_spec (txn_created_at (fst y)) (txn_created_at (fst x)))
      as [Hle|Hgt].
    + constructor; [now constructor|].
      constructor.
      * unfold newest_first_then_id, by_txn_id in *. lia.
      * rewrite Forall_forall in *. intros z Hz.
        specialize (Hall z Hz). specialize (Hxys z Hz).
        unfold newest_first_then_id, by_txn_id in *. lia.
    + constructor; [now apply IH|].
      apply Forall_forall. intros z Hz.
      apply (Permutation_in _ (Permutation_sym
                                 (insert_sorted_perm created_desc x ys)))
        in Hz.
      destruct Hz as [<-|Hz].
      * unfold newest_first_then_id. lia.
      * rewrite Forall_forall in Hall. now apply Hall.
Qed.

(** The sort keeps the scan order among rows of equal creation time. *)
Lemma order_by_created_desc_ties (l : list (Txn * Item)) :
  StronglySorted by_txn_id l ->
  StronglySorted newest_first_then_id (order_by created_desc l).
Proof.
  induction 1 as [|x xs Hs IH Hall]; simpl.
  - constructor.
  - apply insert_sorted_ties; [exact IH|].
    apply Forall_forall. intros z Hz.
    apply order_by_In in Hz. rewrite Forall_forall in Hall. now apply Hall.
Qed.

Lemma filter_key_at_most_one {A : Type} (f : A -> Z) (x : Z) (l : list A) :
  NoDup (map f l) ->
  filter (fun i => f i =? x) l = []
  \/ exists a, filter (fun i => f i =? x) l = [a].
Proof.
  intro Hnd. destruct (in_dec Z.eq_dec x (map f l)) as [Hin|Hno].
  - right. pose proof (filter_unique_key f x l Hnd Hin) as Hl.
    destruct (filter (fun i => f i =? x) l) as [|a [|b r]];
      try discriminate Hl. now exists a.
  - left. now apply filter_absent_key.
Qed.

(** The join scans the transactions in rowid order and finds at most one
    item for each. *)
Lemma recent_join_by_txn_id (db : DB) :
  txns_in_rowid_order db -> item_ids_unique db ->
  StronglySorted by_txn_id (recent_join db).
Proof.
  unfold txns_in_rowid_order, item_ids_unique, recent_join.
  intros Hs Hu. induction (transactions db) as [|t ts IH]; simpl.
  - constructor.
  - simpl in Hs. inversion Hs as [|? ? Hts Hall]; subst.
    specialize (IH Hts).
    destruct (filter_key_at_most_one item_id (txn_item_id t) (items db) Hu)
      as [E|(i & E)]; rewrite E; simpl; [exact IH|].
    constructor; [exact IH|].
    apply Forall_forall. intros r Hr.
    apply in_flat_map in Hr. destruct Hr as (t' & Ht' & Hr).
    apply in_map_iff in Hr. destruct Hr as (i' & <- & _).
    unfold by_txn_id. cbn [fst].
    rewrite Forall_forall in Hall. apply Hall. now apply in_map.
Qed.

(** C3. On a store whose transactions table is in rowid order and whose
    item ids are distinct (the primary key), the recent-transactions
    listing has at most 200 rows, ordered by creation timestamp descending,
    rows of equal creation timestamp by transaction identity ascending.
    When every movement references an existing item (the foreign key; the
    stores the pages produce are such stores) it has min(200, number of
    transactions) rows, so exactly 200 once 201 or more transactions
    exist. *)
Theorem recent_rows_newest_first_ties_by_id :
  forall db,
    txns_in_rowid_order db ->
    item_ids_unique db ->
    df_rows (recent_transactions db) = map recent_select (recent_rows db)
    /\ List.length (df_rows (recent_transactions db))
       = List.length (recent_rows db)
    /\ (List.length (recent_rows db) <= 200)%nat
    /\ StronglySorted newest_first_then_id (recent_rows db)
    /\ (item_refs_exist db ->
        List.length (recent_rows db)
        = Nat.min 200 (List.length (transactions db))
        /\ ((201 <= List.length (transactions db))%nat ->
            List.length (recent_rows db) = 200%nat)).
Proof.
  intros db Ho Hu.
  split; [reflexivity|].
  split; [unfold recent_transactions; cbn [df_rows]; apply length_map|].
  split; [unfold recent_rows; apply firstn_le_length|].
  split.
  - unfold recent_rows. apply firstn_strongly_sorted.
    apply order_by_created_desc_ties. now apply recent_join_by_txn_id.
  - intro Hr.
    assert (Hl : List.length (recent_rows db)
                 = Nat.min 200 (List.length (transactions db))).
    { unfold recent_rows.
      now rewrite length_firstn, order_by_length, recent_join_length. }
    split; [exact Hl|].
    intro H. rewrite Hl. apply Nat.min_l. lia.
Qed.

Lemma ascendingb_sorted (l : list Z) :
  ascendingb l = true -> StronglySorted Z.lt l.
Proof.
  intro H. apply Sorted_StronglySorted; [exact Z.lt_trans|].
  induction l as [|x tl IH]; [constructor|].
  destruct tl as [|y tl'].
  - repeat constructor.
  - cbn [ascendingb] in H. apply andb_true_iff in H. destruct H as [Hxy Ht].
    constructor; [now apply IH|]. constructor. now apply Z.ltb_lt.
Qed.

Lemma recent_rows_newest_first_ties_by_id_witness :
  txns_in_rowid_order shop_ledger
  /\ item_ids_unique shop_ledger
  /\ item_refs_exist shop_ledger
  /\ (201 <= List.length (transactions shop_ledger))%nat
  /\ List.length (recent_rows shop_ledger) = 200%nat
  /\ StronglySorted newest_first_then_id (recent_rows shop_ledger).
Proof.
  assert (Ho : txns_in_rowid_order shop_ledger).
  { apply ascendingb_sorted. vm_compute. reflexivity. }
  assert (Hu : item_ids_unique shop_ledger).
  { unfold item_ids_unique.
    replace (map item_id (items shop_ledger)) with [1]
      by (vm_compute; reflexivity).
    constructor; [intros []|constructor]. }
  assert (Hr : item_refs_exist shop_ledger).
  { apply item_refs_exist_dec. vm_compute. reflexivity. }
  assert (Hn : (201 <= List.length (transactions shop_ledger))%nat).
  { replace (List.length (transactions shop_ledger)) with 203%nat
      by (vm_compute; reflexivity).
    repeat constructor. }
  destruct (recent_rows_newest_first_ties_by_id shop_ledger Ho Hu)
    as (_ & _ & _ & Hs & Hcount).
  split; [exact Ho|]. split; [exact Hu|]. split; [exact Hr|].
  split; [exact Hn|]. split; [exact (proj2 (Hcount Hr) Hn)|exact Hs].
Defined.

(** The listing of [shop_ledger]: receipts of one creation time come by
    ascending id, newer times first; the three oldest receipts are cut. *)
Example shop_ledger_listing_head :
  map (fun r => (txn_id (fst r), txn_created_at (fst r)))
      (firstn 5 (recent_rows shop_ledger))
  = [(202, 1705312867); (203, 1705312867);
     (199, 1705312866); (200, 1705312866); (201, 1705312866)]
  /\ map (fun r => txn_id (fst r)) (skipn 197 (recent_rows shop_ledger))
     = [4; 5; 6].
Proof. split; vm_compute; reflexivity. Qed.

(** After 201 appends the frame shown has 200 rows. *)
Example recent_transactions_after_201_appends :
  List.length (transactions shop_busy) = 201%nat
  /\ List.length (df_rows (recent_transactions shop_busy)) = 200%nat.
Proof. split; vm_compute; reflexivity. Qed.

(** * Further properties of the helpers *)

(** ** Rowids *)

Lemma next_rowid_above (ids : list Z) (seq : Z) :
  seq < next_rowid ids seq /\ Forall (fun k => k < next_rowid ids seq) ids.
Proof.
  unfold next_rowid. induction ids as [|k ids [IH1 IH2]]; simpl.
  - split; [lia|constructor].
  - split; [lia|]. constructor; [lia|].
    eapply Forall_impl; [|exact IH2]. intros a Ha. simpl in Ha. lia.
Qed.

Lemma rowids_ok_snoc (ids : list Z) (seq : Z) :
  rowids_ok ids seq ->
  rowids_ok (ids ++ [next_rowid ids seq]) (next_rowid ids seq).
Proof.
  intros [Hnd Hle].
  destruct (next_rowid_above ids seq) as [Hs Hall].
  split.
  - apply NoDup_snoc; [exact Hnd|].
    intro Hin. rewrite Forall_forall in Hall. specialize (Hall _ Hin). lia.
  - apply Forall_app. split.
    + eapply Forall_impl; [|exact Hall]. intros a Ha. simpl in Ha. lia.
    + constructor; [lia|constructor].
Qed.

(** ** record_txn, when the row is accepted *)

Lemma Qle_bool_false_lt (a b : Q) : (b < a)%Q -> Qle_bool a b = false.
Proof.
  intro H. destruct (Qle_bool a b) eqn:E; [|reflexivity].
  apply Qle_bool_iff in E. exfalso. exact (Qlt_not_le _ _ H E).
Qed.

Lemma str_in_false_iff (s : string) (l : list string) :
  str_in s l = false <-> ~ In s l.
Proof.
  rewrite <- str_in_true_iff. destruct (str_in s l); split; intro H;
    try reflexivity; try discriminate; try (intro; discriminate).
  exfalso. now apply H.
Qed.

(** The row record_txn writes. *)
Lemma record_txn_accepted (fk : bool) (env : Env) (db : DB) (iid : Z)
    (ty : string) (qty : Q) (unit_price : option Q) (pid : option Z)
    (ref_no tdate remarks : option string) :
  (0 < qty)%Q -> In ty txn_types -> fk && negb (fk_ok db iid pid) = false ->
  record_txn fk env db iid ty qty unit_price pid ref_no tdate remarks
  = (Ok tt,
     mkDB (items db) (parties db)
          (transactions db
             ++ [mkTxn (next_rowid (map txn_id (transactions db))
                                   (seq_transactions db))
                       iid ty qty unit_price pid ref_no
                       (str_or tdate (today env)) remarks (now env)])
          (seq_items db) (seq_parties db)
          (next_rowid (map txn_id (transactions db)) (seq_transactions db))).
Proof.
  intros Hq Hty Hfk. unfold record_txn, insert_transaction.
  rewrite (Qle_bool_false_lt _ _ Hq).
  apply str_in_true_iff in Hty. rewrite Hty, Hfk. reflexivity.
Qed.

(** X1. A call of record_txn with qty > 0, a type among 'IN', 'OUT',
    'ADJUST' and, where the connection enforces foreign keys, an existing
    item and party, succeeds and only appends: the earlier transactions rows
    are kept as they are, in place, one row follows them whose id is larger
    than every earlier id and than the recorded sequence value, whose date
    is the given one or today's when it is missing or empty, and whose
    created_at is the current time; items and parties are untouched. *)
Theorem record_txn_appends_one_row :
  forall fk env db iid ty qty unit_price pid ref_no tdate remarks,
    (0 < qty)%Q ->
    In ty txn_types ->
    (fk = true -> fk_ok db iid pid = true) ->
    let out := record_txn fk env db iid ty qty unit_price pid ref_no tdate
                          remarks in
    fst out = Ok tt
    /\ items (snd out) = items db
    /\ parties (snd out) = parties db
    /\ exists tid,
        transactions (snd out)
        = transactions db
          ++ [mkTxn tid iid ty qty unit_price pid ref_no
                    (match tdate with
                     | Some d => if String.eqb d "" then today env else d
                     | None => today env
                     end)
                    remarks (now env)]
        /\ Forall (fun t => txn_id t < tid) (transactions db)
        /\ seq_transactions db < tid
        /\ seq_transactions (snd out) = tid.
Proof.
  intros fk env db iid ty qty unit_price pid ref_no tdate remarks Hq Hty Hfk
         out.
  assert (Hb : fk && negb (fk_ok db iid pid) = false).
  { destruct fk; [|reflexivity]. now rewrite (Hfk eq_refl). }
  subst out. rewrite (record_txn_accepted _ _ _ _ _ _ _ _ _ _ _ Hq Hty Hb).
  cbn [fst snd items parties transactions seq_transactions].
  do 3 (split; [reflexivity|]).
  eexists. split; [reflexivity|].
  destruct (next_rowid_above (map txn_id (transactions db))
                             (seq_transactions db)) as [Hs Hall].
  split; [|split; [exact Hs|reflexivity]].
  rewrite Forall_map in Hall. exact Hall.
Qed.

Lemma record_txn_appends_one_row_witness :
  (0 < 4)%Q
  /\ In "IN" txn_types
  /\ (true = true -> fk_ok shop 1 None = true)
  /\ fst (record_txn true env0 shop 1 "IN" 4 None None None (Some "") None)
     = Ok tt
  /\ exists tid,
      transactions
        (snd (record_txn true env0 shop 1 "IN" 4 None None None (Some "")
                         None))
      = transactions shop
        ++ [mkTxn tid 1 "IN" 4 None None None "2024-01-15" None 1705312800]
      /\ Forall (fun t => txn_id t < tid) (transactions shop).
Proof.
  assert (H1 : (0 < 4)%Q) by reflexivity.
  assert (H2 : In "IN" txn_types) by (left; reflexivity).
  assert (H3 : true = true -> fk_ok shop 1 None = true)
    by (intros _; reflexivity).
  destruct (record_txn_appends_one_row true env0 shop 1 "IN" 4 None None None
              (Some "") None H1 H2 H3)
    as (R1 & _ & _ & tid & R4 & R5 & _).
  split; [exact H1|]. split; [exact H2|]. split; [exact H3|].
  split; [exact R1|]. exists tid. split; [exact R4|exact R5].
Defined.

Lemma signed_sum_app (l1 l2 : list Txn) :
  signed_sum (l1 ++ l2) == signed_sum l1 + signed_sum l2.
Proof.
  unfold signed_sum. induction l1 as [|t l1 IH]; simpl.
  - ring.
  - rewrite IH. ring.
Qed.

(** The stock of an item after one more row in the transactions table. *)
Lemma stock_qty_snoc (db db' : DB) (t : Txn) (i : Item) :
  transactions db' = transactions db ++ [t] ->
  (txn_item_id t = item_id i ->
   stock_qty db' i == stock_qty db i + signed_qty t)
  /\ (txn_item_id t <> item_id i -> stock_qty db' i = stock_qty db i).
Proof.
  intro Ht. split; intro E.
  - rewrite !stock_qty_signed_sum. unfold txns_of.
    rewrite Ht, filter_app, signed_sum_app. simpl.
    apply Z.eqb_eq in E. rewrite E. unfold signed_sum. simpl. ring.
  - unfold stock_qty, left_join_transactions.
    rewrite Ht, filter_app. simpl.
    apply Z.eqb_neq in E. rewrite E, app_nil_r. reflexivity.
Qed.

Lemma signed_qty_by_type (t : Txn) :
  In (txn_type t) txn_types ->
  signed_qty t
  = if String.eqb (txn_type t) "OUT" then (- txn_qty t)%Q else txn_qty t.
Proof.
  unfold signed_qty, txn_types.
  intros [E|[E|[E|[]]]]; rewrite <- E; reflexivity.
Qed.

(** X2. An accepted movement changes the stock of its own item only: the
    computed stock_qty goes down by qty for 'OUT' and up by qty for 'IN' and
    for 'ADJUST', so an ADJUST can never lower the stock; every item with
    another id keeps its stock_qty. *)
Theorem record_txn_moves_stock_of_its_item :
  forall fk env db iid ty qty unit_price pid ref_no tdate remarks i,
    (0 < qty)%Q ->
    In ty txn_types ->
    (fk = true -> fk_ok db iid pid = true) ->
    let db' := snd (record_txn fk env db iid ty qty unit_price pid ref_no
                               tdate remarks) in
    (item_id i = iid ->
     stock_qty db' i
     == stock_qty db i + (if String.eqb ty "OUT" then - qty else qty)
     /\ (ty <> "OUT" -> (stock_qty db i < stock_qty db' i)%Q))
    /\ (item_id i <> iid -> stock_qty db' i = stock_qty db i).
Proof.
  intros fk env db iid ty qty unit_price pid ref_no tdate remarks i Hq Hty
         Hfk db'.
  assert (Hb : fk && negb (fk_ok db iid pid) = false).
  { destruct fk; [|reflexivity]. now rewrite (Hfk eq_refl). }
  subst db'. rewrite (record_txn_accepted _ _ _ _ _ _ _ _ _ _ _ Hq Hty Hb).
  cbn [snd].
  set (t := mkTxn _ iid ty qty unit_price pid ref_no _ remarks (now env)).
  set (db' := mkDB _ _ _ _ _ _).
  destruct (stock_qty_snoc db db' t i eq_refl) as [Hsame Hother].
  split.
  - intro E. symmetry in E. specialize (Hsame E).
    rewrite (signed_qty_by_type t Hty) in Hsame. cbn [txn_type txn_qty t] in Hsame.
    split; [exact Hsame|].
    intro Hno. apply String.eqb_neq in Hno. rewrite Hno in Hsame.
    rewrite Hsame.
    rewrite <- (Qplus_0_r (stock_qty db i)) at 1.
    apply Qplus_lt_r. exact Hq.
  - intro E. apply Hother. cbn [txn_item_id t]. congruence.
Qed.

Lemma record_txn_moves_stock_of_its_item_witness :
  (0 < 3)%Q
  /\ In "OUT" txn_types
  /\ (false = true -> fk_ok shop 1 None = true)
  /\ stock_qty
       (snd (record_txn false env0 shop 1 "OUT" 3 None None None None None))
       shop_screen
     == stock_qty shop shop_screen + - 3.
Proof.
  assert (H1 : (0 < 3)%Q) by reflexivity.
  assert (H2 : In "OUT" txn_types) by (right; left; reflexivity).
  assert (H3 : false = true -> fk_ok shop 1 None = true)
    by (intro H; discriminate H).
  split; [exact H1|]. split; [exact H2|]. split; [exact H3|].
  exact (proj1 (proj1 (record_txn_moves_stock_of_its_item false env0 shop 1
                         "OUT" 3 None None None None None shop_screen
                         H1 H2 H3) eq_refl)).
Defined.

(** ** record_txn and the foreign keys *)

Lemma existsb_item_false (db : DB) (iid : Z) :
  ~ In iid (map item_id (items db)) ->
  existsb (fun i => item_id i =? iid) (items db) = false.
Proof.
  intro H. destruct (existsb _ (items db)) eqn:E; [|reflexivity].
  apply existsb_exists in E. destruct E as (i & Hi & Ei).
  apply Z.eqb_eq in Ei. exfalso. apply H. rewrite <- Ei. now apply in_map.
Qed.

Lemma inventory_query_snoc_orphan (db db' : DB) (t : Txn) :
  items db' = items db ->
  transactions db' = transactions db ++ [t] ->
  ~ In (txn_item_id t) (map item_id (items db)) ->
  get_inventory_df db' = get_inventory_df db.
Proof.
  intros Hi Ht Hno.
  unfold get_inventory_df, inventory_query. rewrite Hi.
  set (sorted := order_by _ _).
  assert (E : map (inventory_select db') sorted
              = map (inventory_select db) sorted).
  { apply map_ext_in. intros i Hin.
    apply order_by_In, filter_In in Hin. destruct Hin as [Hin _].
    unfold inventory_select.
    rewrite (proj2 (stock_qty_snoc db db' t i Ht)); [reflexivity|].
    intro E. apply Hno. rewrite E. now apply in_map. }
  rewrite E. reflexivity.
Qed.

(** X3. A movement for an item id that is not in the items table and
    otherwise acceptable: a connection that enforces foreign keys rejects it
    with an integrity error and leaves the store as it was; a connection
    that does not enforce them (what get_conn opens unless the SQLite
    library defaults otherwise) stores it, and the stored row shows up
    neither in the stock position frame nor among the joined rows of the
    recent-transactions listing. *)
Theorem record_txn_unknown_item :
  forall env db iid ty qty unit_price pid ref_no tdate remarks,
    (0 < qty)%Q ->
    In ty txn_types ->
    ~ In iid (map item_id (items db)) ->
    record_txn true env db iid ty qty unit_price pid ref_no tdate remarks
    = (Raise (IntegrityError ForeignKeyConstraint), db)
    /\ let out := record_txn false env db iid ty qty unit_price pid ref_no
                             tdate remarks in
       fst out = Ok tt
       /\ List.length (transactions (snd out))
          = S (List.length (transactions db))
       /\ get_inventory_df (snd out) = get_inventory_df db
       /\ recent_join (snd out) = recent_join db.
Proof.
  intros env db iid ty qty unit_price pid ref_no tdate remarks Hq Hty Hno.
  split.
  - unfold record_txn, insert_transaction.
    rewrite (Qle_bool_false_lt _ _ Hq).
    apply str_in_true_iff in Hty. rewrite Hty.
    unfold fk_ok. rewrite (existsb_item_false db iid Hno). reflexivity.
  - rewrite (record_txn_accepted false env db iid ty qty unit_price pid
               ref_no tdate remarks Hq Hty eq_refl).
    cbn [fst snd]. split; [reflexivity|].
    split; [cbn [transactions]; rewrite length_app; simpl; lia|].
    split.
    + eapply inventory_query_snoc_orphan; [reflexivity|reflexivity|exact Hno].
    + unfold recent_join. cbn [transactions items].
      rewrite flat_map_app. simpl.
      rewrite (filter_absent_key item_id iid (items db) Hno).
      simpl. now rewrite app_nil_r.
Qed.

Lemma record_txn_unknown_item_witness :
  (0 < 2)%Q
  /\ In "IN" txn_types
  /\ ~ In 7 (map item_id (items shop))
  /\ record_txn true env0 shop 7 "IN" 2 None None None None None
     = (Raise (IntegrityError ForeignKeyConstraint), shop)
  /\ fst (record_txn false env0 shop 7 "IN" 2 None None None None None)
     = Ok tt.
Proof.
  assert (H1 : (0 < 2)%Q) by reflexivity.
  assert (H2 : In "IN" txn_types) by (left; reflexivity).
  assert (H3 : ~ In 7 (map item_id (items shop))).
  { simpl. intros [H|[]]. discriminate H. }
  destruct (record_txn_unknown_item env0 shop 7 "IN" 2 None None None None
              None H1 H2 H3) as (R1 & R2 & _).
  split; [exact H1|]. split; [exact H2|]. split; [exact H3|].
  split; [exact R1|exact R2].
Defined.

(** ** strip *)

Lemma rstrip_keeps_head (c : ascii) (s : string) :
  is_space c = false -> exists r, rstrip (String c s) = String c r.
Proof.
  intro H. simpl. destruct (rstrip s); rewrite ?H; eexists; reflexivity.
Qed.

Lemma lstrip_head (s : string) :
  lstrip s = EmptyString
  \/ exists c r, lstrip s = String c r /\ is_space c = false.
Proof.
  induction s as [|c s IH]; simpl; [now left|].
  destruct (is_space c) eqn:E; [exact IH|].
  right. exists c, s. now split.
Qed.

Lemma rstrip_idempotent (s : string) : rstrip (rstrip s) = rstrip s.
Proof.
  induction s as [|c s IH]; simpl; [reflexivity|].
  destruct (rstrip s) as [|d r] eqn:E.
  - destruct (is_space c) eqn:Ec; simpl; [reflexivity|now rewrite Ec].
  - change (rstrip (String c (String d r)) = String c (String d r)).
    simpl. simpl in IH. rewrite IH. reflexivity.
Qed.

Lemma strip_idempotent (s : string) : strip (strip s) = strip s.
Proof.
  unfold strip.
  destruct (lstrip_head s) as [E|(c & r & E & Hc)]; rewrite E.
  - reflexivity.
  - destruct (rstrip_keeps_head c r Hc) as (r' & Er).
    rewrite Er. simpl lstrip. rewrite Hc. rewrite <- Er.
    apply rstrip_idempotent.
Qed.

(** ** upsert_party: the cases of one call *)

Lemma upsert_party_cases (db : DB) (ptype : string) (name : option string)
    (phone address : option string) :
  let nm := strip (str_or name "") in
  (nm = "" /\ upsert_party db ptype name phone address = (Ok None, db))
  \/ (nm <> "" /\ exists row rest,
        parties_matching db ptype nm = row :: rest
        /\ upsert_party db ptype name phone address
           = (Ok (Some (party_id row)), db))
  \/ (nm <> "" /\ parties_matching db ptype nm = []
      /\ ~ In ptype party_types
      /\ upsert_party db ptype name phone address
         = (Raise (IntegrityError CheckConstraint), db))
  \/ (nm <> "" /\ parties_matching db ptype nm = []
      /\ In ptype party_types
      /\ upsert_party db ptype name phone address
         = (Ok (Some (next_rowid (map party_id (parties db))
                                 (seq_parties db))),
            mkDB (items db)
                 (parties db
                    ++ [mkParty (next_rowid (map party_id (parties db))
                                            (seq_parties db))
                                ptype nm phone address])
                 (transactions db) (seq_items db)
                 (next_rowid (map party_id (parties db)) (seq_parties db))
                 (seq_transactions db))).
Proof.
  intro nm. unfold upsert_party. fold nm.
  destruct (String.eqb_spec nm "") as [E|E]; [left; now split|].
  right. fold (parties_matching db ptype nm).
  destruct (parties_matching db ptype nm) as [|row rest] eqn:Em.
  - right. unfold insert_party.
    destruct (str_in ptype party_types) eqn:Et.
    + right. apply str_in_true_iff in Et. repeat split; assumption.
    + left. apply str_in_false_iff in Et. repeat split; assumption.
  - left. split; [exact E|]. exists row, rest. now split.
Qed.

Lemma lstrip_empty_iff (s : string) :
  lstrip s = "" <-> all_space s = true.
Proof.
  induction s as [|c s IH]; simpl; [tauto|].
  destruct (is_space c); simpl; [exact IH|].
  split; intro H; discriminate H.
Qed.

Lemma strip_empty_iff (s : string) : strip s = "" <-> all_space s = true.
Proof.
  rewrite <- lstrip_empty_iff. unfold strip. split; intro H.
  - destruct (lstrip_head s) as [E|(c & r & E & Hc)]; [exact E|].
    rewrite E in H. destruct (rstrip_keeps_head c r Hc) as (r' & Er).
    rewrite Er in H. discriminate H.
  - rewrite H. reflexivity.
Qed.

(** X4. upsert_party gives no identity exactly for a blank name: the
    result is None if and only if the name is None or consists of
    whitespace only (the empty string included), and then the store is left
    as it was, whatever the party type. *)
Theorem upsert_party_blank_name :
  forall db ptype name phone address,
    (fst (upsert_party db ptype name phone address) = Ok None
     <-> match name with None => True | Some s => all_space s = true end)
    /\ (fst (upsert_party db ptype name phone address) = Ok None ->
        snd (upsert_party db ptype name phone address) = db).
Proof.
  intros db ptype name phone address.
  assert (Hb : strip (str_or name "") = ""
               <-> match name with
                   | None => True
                   | Some s => all_space s = true
                   end).
  { destruct name as [s|]; [|simpl; tauto].
    rewrite str_or_Some_empty. apply strip_empty_iff. }
  destruct (upsert_party_cases db ptype name phone address)
    as [[E R]|[(N & row & rest & _ & R)|[(N & _ & _ & R)|(N & _ & _ & R)]]];
    rewrite R; cbn [fst snd].
  - split; [|reflexivity]. split; [intros _; now apply Hb|reflexivity].
  - split; [|intro H; discriminate H].
    split; [intro H; discriminate H|]. intro H. apply Hb in H. contradiction.
  - split; [|intro H; discriminate H].
    split; [intro H; discriminate H|]. intro H. apply Hb in H. contradiction.
  - split; [|intro H; discriminate H].
    split; [intro H; discriminate H|]. intro H. apply Hb in H. contradiction.
Qed.

Lemma upsert_party_blank_name_witness :
  all_space "   " = true
  /\ upsert_party shop "no such type" (Some "   ") (Some "0300") None
     = (Ok None, shop).
Proof.
  assert (H : all_space "   " = true) by reflexivity.
  split; [exact H|].
  destruct (upsert_party_blank_name shop "no such type" (Some "   ")
              (Some "0300") None) as [Hiff Hdb].
  apply injective_projections; [exact (proj2 Hiff H)|].
  exact (Hdb (proj2 Hiff H)).
Defined.

(** X5. A party type outside 'supplier' and 'customer' is not checked by
    upsert_party itself: with a name that is not blank and no row of that
    type and name, the INSERT fails the CHECK constraint, the call raises
    the integrity error and the store is left as it was.  No such row can
    be there when every parties row has an admitted type. *)
Theorem upsert_party_unknown_type :
  forall db ptype name phone address,
    ~ In ptype party_types ->
    strip (str_or name "") <> "" ->
    Forall (fun p => In (party_type p) party_types) (parties db) ->
    upsert_party db ptype name phone address
    = (Raise (IntegrityError CheckConstraint), db).
Proof.
  intros db ptype name phone address Hty Hne Hall.
  destruct (upsert_party_cases db ptype name phone address)
    as [[E _]|[(_ & row & rest & Em & _)|[(_ & _ & _ & R)|(_ & _ & Hin & _)]]].
  - contradiction.
  - exfalso.
    assert (Hr : In row (parties_matching db ptype
                           (strip (str_or name ""))))
      by (rewrite Em; now left).
    apply filter_In in Hr. destruct Hr as [Hr Hb].
    apply andb_true_iff in Hb. destruct Hb as [Hb _].
    apply String.eqb_eq in Hb.
    rewrite Forall_forall in Hall. specialize (Hall row Hr).
    rewrite Hb in Hall. contradiction.
  - exact R.
  - contradiction.
Qed.

Lemma upsert_party_unknown_type_witness :
  ~ In "vendor" party_types
  /\ strip (str_or (Some "Ali Traders") "") <> ""
  /\ Forall (fun p => In (party_type p) party_types) (parties shop)
  /\ upsert_party shop "vendor" (Some "Ali Traders") None None
     = (Raise (IntegrityError CheckConstraint), shop).
Proof.
  assert (H1 : ~ In "vendor" party_types).
  { simpl. intros [H|[H|[]]]; discriminate H. }
  assert (H2 : strip (str_or (Some "Ali Traders") "") <> "") by discriminate.
  assert (H3 : Forall (fun p => In (party_type p) party_types) (parties shop))
    by constructor.
  split; [exact H1|]. split; [exact H2|]. split; [exact H3|].
  exact (upsert_party_unknown_type shop "vendor" (Some "Ali Traders") None
           None H1 H2 H3).
Defined.

(** ** What every helper keeps *)

Lemma record_txn_cases (fk : bool) (env : Env) (db : DB) (iid : Z)
    (ty : string) (qty : Q) (unit_price : option Q) (pid : option Z)
    (ref_no tdate remarks : option string) :
  snd (record_txn fk env db iid ty qty unit_price pid ref_no tdate remarks)
  = db
  \/ ((0 < qty)%Q /\ In ty txn_types
      /\ fk && negb (fk_ok db iid pid) = false).
Proof.
  unfold record_txn, insert_transaction.
  destruct (Qle_bool qty 0) eqn:Eq; [now left|].
  destruct (str_in ty txn_types) eqn:Et; [|now left].
  destruct (fk && negb (fk_ok db iid pid)) eqn:Ef; [now left|].
  right. split; [|split; [now apply str_in_true_iff|reflexivity]].
  apply Qnot_le_lt. intro H. apply Qle_bool_iff in H. congruence.
Qed.

Lemma update_item_basic_ids (db : DB) (iid : Z) (c s : option Q) :
  map item_id (items (update_item_basic db iid c s)) = map item_id (items db).
Proof.
  unfold update_item_basic. cbn [items]. rewrite map_map.
  apply map_ext. intro i. destruct (item_id i =? iid); reflexivity.
Qed.

Lemma store_ok_step (fk : bool) (db db' : DB) :
  helper_step fk db db' -> store_ok db -> store_ok db'.
Proof.
  intros Hstep Hok.
  pose proof Hok as (Hi & Hp & Ht & Hu & Hpo & Hto & Ha).
  destruct Hstep
    as [db name category brand unit cost_price sale_price notes
       |db iid cost_price sale_price
       |db ptype name phone address
       |env db iid ty qty unit_price pid ref_no tdate remarks].
  - (* add_item *)
    unfold store_ok, add_item, parties_unique.
    cbn [items parties transactions seq_items seq_parties seq_transactions].
    rewrite (map_app item_id). cbn [map item_id].
    repeat split; try assumption; try apply Hp; try apply Ht.
    + now apply rowids_ok_snoc.
    + now apply rowids_ok_snoc.
    + apply Forall_app. split; [exact Ha|]. now repeat constructor.
  - (* update_item_basic *)
    unfold store_ok. rewrite update_item_basic_ids.
    unfold update_item_basic, parties_unique.
    cbn [items parties transactions seq_items seq_parties seq_transactions].
    repeat split; try assumption; try apply Hi; try apply Hp; try apply Ht.
    apply Forall_map. eapply Forall_impl; [|exact Ha].
    intros i Hact. simpl. destruct (item_id i =? iid); exact Hact.
  - (* upsert_party *)
    destruct (upsert_party_cases db ptype name phone address)
      as [[_ R]|[(_ & row & rest & _ & R)
               |[(_ & _ & _ & R)|(N & Em & Hty & R)]]];
      rewrite R; cbn [snd]; try exact Hok.
    unfold store_ok, parties_unique.
    cbn [items parties transactions seq_items seq_parties seq_transactions].
    rewrite !map_app. cbn [map party_id party_type party_name].
    repeat split; try assumption; try apply Hi; try apply Ht.
    + now apply rowids_ok_snoc.
    + now apply rowids_ok_snoc.
    + apply NoDup_snoc; [exact Hu|]. now apply parties_matching_none.
    + apply Forall_app. split; [exact Hpo|].
      constructor; [|constructor].
      repeat split; cbn [party_type party_name]; try assumption.
      apply strip_idempotent.
  - (* record_txn *)
    destruct (record_txn_cases fk env db iid ty qty unit_price pid ref_no
                tdate remarks) as [R|(Hq & Hty & Hfk)].
    + rewrite R. exact Hok.
    + rewrite (record_txn_accepted _ _ _ _ _ _ _ _ _ _ _ Hq Hty Hfk).
      cbn [snd]. unfold store_ok, parties_unique.
      cbn [items parties transactions seq_items seq_parties
           seq_transactions].
      rewrite !map_app. cbn [map txn_id].
      repeat split; try assumption; try apply Hi; try apply Hp.
      * now apply rowids_ok_snoc.
      * now apply rowids_ok_snoc.
      * apply Forall_app. split; [exact Hto|].
        constructor; [|constructor]. split; assumption.
Qed.

Lemma store_ok_empty : store_ok empty_db.
Proof.
  unfold store_ok, rowids_ok, parties_unique, empty_db. simpl.
  repeat split; constructor.
Qed.

(** X6. Whatever sequence of add_item, update_item_basic, upsert_party and
    record_txn calls is made on a fresh store, with or without foreign key
    enforcement: the ids of each table stay distinct and never exceed the
    table's recorded sequence value (no rowid is handed out twice); no two
    parties share type and name; every party has an admitted type and a
    stored name that is stripped and not empty; every movement has a type
    among 'IN', 'OUT', 'ADJUST' and a quantity above 0; and every item is
    active, since no helper clears the flag. *)
Theorem helper_reachable_store_ok :
  forall fk db, helper_reachable fk db -> store_ok db.
Proof.
  intros fk db H. induction H as [|db db' _ IH Hstep].
  - apply store_ok_empty.
  - exact (store_ok_step fk db db' Hstep IH).
Qed.

Lemma helper_reachable_shop : helper_reachable false shop.
Proof.
  unfold shop, shop_out, shop_in.
  do 3 (eapply helper_next; [|apply step_record_txn]).
  unfold shop_item.
  eapply helper_next; [apply helper_init|apply step_add_item].
Defined.

Lemma helper_reachable_store_ok_witness :
  helper_reachable false shop /\ store_ok shop.
Proof.
  split; [exact helper_reachable_shop|].
  exact (helper_reachable_store_ok false shop helper_reachable_shop).
Defined.

(** ** upsert_party: identities *)

Lemma NoDup_map_injective {A : Type} (f : A -> Z) (l : list A) (a b : A) :
  NoDup (map f l) -> In a l -> In b l -> f a = f b -> a = b.
Proof.
  induction l as [|x l IH]; simpl; intros Hnd Ha Hb E; [contradiction|].
  inversion Hnd as [|? ? Hx Hl]; subst.
  destruct Ha as [<-|Ha], Hb as [<-|Hb].
  - reflexivity.
  - exfalso. apply Hx. rewrite E. now apply in_map.
  - exfalso. apply Hx. rewrite <- E. now apply in_map.
  - now apply IH.
Qed.

(** A call with an admitted type and a name that is not blank returns the
    id of a row of that type and stripped name, and keeps the rows and the
    distinctness of ids. *)
Lemma upsert_party_returns_row (db : DB) (ty n : string)
    (phone address : option string) :
  In ty party_types -> strip n <> "" ->
  rowids_ok (map party_id (parties db)) (seq_parties db) ->
  exists pid db' p,
    upsert_party db ty (Some n) phone address = (Ok (Some pid), db')
    /\ In p (parties db') /\ party_id p = pid
    /\ party_type p = ty /\ party_name p = strip n
    /\ (forall q, In q (parties db) -> In q (parties db'))
    /\ rowids_ok (map party_id (parties db')) (seq_parties db').
Proof.
  intros Hty Hne Hok.
  destruct (upsert_party_cases db ty (Some n) phone address)
    as [[E _]|[(_ & row & rest & Em & R)|[(_ & _ & N & _)|(_ & _ & _ & R)]]];
    rewrite ?str_or_Some_empty in *; try contradiction.
  - assert (Hr : In row (parties_matching db ty (strip n)))
      by (rewrite Em; now left).
    apply filter_In in Hr. destruct Hr as [Hr Hb].
    apply andb_true_iff in Hb. destruct Hb as [Hb1 Hb2].
    apply String.eqb_eq in Hb1, Hb2.
    exists (party_id row), db, row.
    split; [exact R|]. split; [exact Hr|]. split; [reflexivity|].
    split; [exact Hb1|]. split; [exact Hb2|]. split; [tauto|exact Hok].
  - eexists _, _, _. split; [exact R|].
    cbn [parties seq_parties].
    split; [apply in_or_app; right; left; reflexivity|].
    do 3 (split; [reflexivity|]).
    split; [intros q Hq; apply in_or_app; now left|].
    rewrite (map_app party_id). now apply rowids_ok_snoc.
Qed.

(** X7. Two find-or-create calls in a row whose (type, stripped name) differ
    return different identities, so the same name as a supplier and as a
    customer is two parties. *)
Theorem upsert_party_distinct_keys_distinct_ids :
  forall db ty1 n1 ph1 ad1 ty2 n2 ph2 ad2,
    rowids_ok (map party_id (parties db)) (seq_parties db) ->
    In ty1 party_types -> In ty2 party_types ->
    strip n1 <> "" -> strip n2 <> "" ->
    (ty1, strip n1) <> (ty2, strip n2) ->
    exists p1 db1 p2 db2,
      upsert_party db ty1 (Some n1) ph1 ad1 = (Ok (Some p1), db1)
      /\ upsert_party db1 ty2 (Some n2) ph2 ad2 = (Ok (Some p2), db2)
      /\ p1 <> p2.
Proof.
  intros db ty1 n1 ph1 ad1 ty2 n2 ph2 ad2 Hok H1 H2 N1 N2 Hkey.
  destruct (upsert_party_returns_row db ty1 n1 ph1 ad1 H1 N1 Hok)
    as (p1 & db1 & r1 & R1 & Hr1 & I1 & T1 & M1 & _ & Hok1).
  destruct (upsert_party_returns_row db1 ty2 n2 ph2 ad2 H2 N2 Hok1)
    as (p2 & db2 & r2 & R2 & Hr2 & I2 & T2 & M2 & Hkeep & Hok2).
  exists p1, db1, p2, db2. split; [exact R1|]. split; [exact R2|].
  intro E. apply Hkey.
  assert (Er : r1 = r2).
  { apply (NoDup_map_injective party_id (parties db2));
      [apply Hok2|now apply Hkeep|exact Hr2|congruence]. }
  subst r2. congruence.
Qed.

Lemma upsert_party_distinct_keys_distinct_ids_witness :
  rowids_ok (map party_id (parties shop)) (seq_parties shop)
  /\ ("supplier", strip " Ali ") <> ("customer", strip "Ali")
  /\ exists p1 db1 p2 db2,
      upsert_party shop "supplier" (Some " Ali ") None None
      = (Ok (Some p1), db1)
      /\ upsert_party db1 "customer" (Some "Ali") None None
         = (Ok (Some p2), db2)
      /\ p1 <> p2.
Proof.
  assert (H0 : rowids_ok (map party_id (parties shop)) (seq_parties shop))
    by (split; constructor).
  assert (Hk : ("supplier", strip " Ali ") <> ("customer", strip "Ali"))
    by discriminate.
  split; [exact H0|]. split; [exact Hk|].
  apply (upsert_party_distinct_keys_distinct_ids shop "supplier" " Ali " None
           None "customer" "Ali" None None H0).
  - left; reflexivity.
  - right; left; reflexivity.
  - discriminate.
  - discriminate.
  - exact Hk.
Defined.

(** ** Permutations and filters *)

Lemma filter_permutation {A : Type} (p : A -> bool) (l l' : list A) :
  Permutation l l' -> Permutation (filter p l) (filter p l').
Proof.
  induction 1 as [|x l l' _ IH|a b l|l1 l2 l3 _ IH1 _ IH2]; simpl.
  - constructor.
  - destruct (p x); [now constructor|exact IH].
  - destruct (p a), (p b); try apply Permutation_refl. apply perm_swap.
  - now apply perm_trans with (filter p l2).
Qed.

(** ** add_item *)

Lemma inventory_rows_same_ledger (db db' : DB) (i : Item) :
  transactions db' = transactions db ->
  position_row db' i = position_row db i.
Proof.
  intro Ht. unfold position_row, inventory_select, stock_qty,
    left_join_transactions. now rewrite Ht.
Qed.

(** X9. On a store whose item ids do not exceed the recorded sequence
    value and whose movements all reference existing items, add_item lists
    the new item at once: it is active, carries a new id above every
    earlier one, appears in the stock position frame with stock_qty 0, and
    the frame's other rows are those of before. *)
Theorem add_item_listed_with_zero_stock :
  forall db name category brand unit cost_price sale_price notes,
    rowids_ok (map item_id (items db)) (seq_items db) ->
    item_refs_exist db ->
    let db' := add_item db name category brand unit cost_price sale_price
                        notes in
    exists i,
      items db' = items db ++ [i]
      /\ item_name i = name /\ item_active i = 1
      /\ Forall (fun j => item_id j < item_id i) (items db)
      /\ stock_qty db' i = 0%Q
      /\ In (position_row db' i) (df_rows (get_inventory_df db'))
      /\ forall row,
          In row (df_rows (get_inventory_df db'))
          <-> In row (df_rows (get_inventory_df db))
              \/ row = position_row db' i.
Proof.
  intros db name category brand unit cost_price sale_price notes Hok Hrefs
         db'.
  set (iid := next_rowid (map item_id (items db)) (seq_items db)).
  set (i := mkItem iid name category brand unit cost_price sale_price 1
                   notes).
  assert (Hitems : items db' = items db ++ [i]) by reflexivity.
  assert (Htx : transactions db' = transactions db) by reflexivity.
  destruct (next_rowid_above (map item_id (items db)) (seq_items db))
    as [_ Habove].
  rewrite Forall_map in Habove.
  assert (Hnone : filter (fun t => txn_item_id t =? iid) (transactions db)
                  = []).
  { destruct (filter _ (transactions db)) as [|t ts] eqn:E; [reflexivity|].
    assert (Hin : In t (filter (fun t => txn_item_id t =? iid)
                               (transactions db))) by (rewrite E; now left).
    apply filter_In in Hin. destruct Hin as [Ht Et]. apply Z.eqb_eq in Et.
    specialize (Hrefs t Ht). apply in_map_iff in Hrefs.
    destruct Hrefs as (j & Ej & Hj).
    rewrite Forall_forall in Habove. specialize (Habove j Hj).
    fold iid in Habove. lia. }
  assert (Hzero : stock_qty db' i = 0%Q).
  { unfold stock_qty, left_join_transactions. rewrite Htx.
    cbn [item_id i]. rewrite Hnone. reflexivity. }
  assert (Hrow : forall row,
             In row (df_rows (get_inventory_df db'))
             <-> In row (df_rows (get_inventory_df db))
                 \/ row = position_row db' i).
  { intro row. rewrite !get_inventory_df_rows. rewrite Hitems. split.
    - intros (j & Hj & A & ->). apply in_app_or in Hj.
      destruct Hj as [Hj|[<-|[]]]; [left|now right].
      exists j. split; [exact Hj|]. split; [exact A|].
      now apply inventory_rows_same_ledger.
    - intros [(j & Hj & A & E)|E]; subst row.
      + exists j. split; [apply in_or_app; now left|]. split; [exact A|].
        symmetry. now apply inventory_rows_same_ledger.
      + exists i. split; [apply in_or_app; right; now left|].
        split; reflexivity. }
  exists i. split; [exact Hitems|].
  do 2 (split; [reflexivity|]). split; [exact Habove|].
  split; [exact Hzero|]. split; [|exact Hrow].
  apply Hrow. now right.
Qed.

Lemma add_item_listed_with_zero_stock_witness :
  rowids_ok (map item_id (items shop)) (seq_items shop)
  /\ item_refs_exist shop
  /\ exists i,
      items (add_item shop "USB Cable" (Some "Cable") None "pcs" 40 90 None)
      = items shop ++ [i]
      /\ item_name i = "USB Cable" /\ item_active i = 1
      /\ Forall (fun j => item_id j < item_id i) (items shop)
      /\ stock_qty
           (add_item shop "USB Cable" (Some "Cable") None "pcs" 40 90 None) i
         = 0%Q.
Proof.
  assert (H1 : rowids_ok (map item_id (items shop)) (seq_items shop)).
  { split; simpl.
    - constructor; [intros []|constructor].
    - constructor; [vm_compute; discriminate|constructor]. }
  assert (H2 : item_refs_exist shop).
  { apply item_refs_exist_dec. reflexivity. }
  split; [exact H1|]. split; [exact H2|].
  destruct (add_item_listed_with_zero_stock shop "USB Cable" (Some "Cable")
              None "pcs" 40 90 None H1 H2)
    as (i & R1 & R2 & R3 & R4 & R5 & _).
  exists i. repeat (split; [assumption|]). assumption.
Defined.

(** ** ORDER BY name *)

Lemma ascii_compare_lt_trans (x y z : ascii) :
  Ascii.compare x y = Lt -> Ascii.compare y z = Lt -> Ascii.compare x z = Lt.
Proof.
  unfold Ascii.compare. rewrite !N.compare_lt_iff. apply N.lt_trans.
Qed.

Lemma string_compare_lt_trans (a b c : string) :
  String.compare a b = Lt -> String.compare b c = Lt ->
  String.compare a c = Lt.
Proof.
  revert b c. induction a as [|x a IH]; intros [|y b] [|z c]; simpl;
    intros H1 H2; try discriminate; try reflexivity.
  destruct (Ascii.compare x y) eqn:Exy; try discriminate.
  - apply Ascii.compare_eq_iff in Exy. subst y.
    destruct (Ascii.compare x z); try discriminate.
    + now apply IH with b.
    + reflexivity.
  - destruct (Ascii.compare y z) eqn:Eyz; try discriminate.
    + apply Ascii.compare_eq_iff in Eyz. subst z. now rewrite Exy.
    + now rewrite (ascii_compare_lt_trans x y z Exy Eyz).
Qed.

Lemma string_leb_cases (a b : string) :
  String.leb a b = true <-> String.compare a b = Lt \/ a = b.
Proof.
  unfold String.leb. destruct (String.compare a b) eqn:E.
  - apply String.compare_eq_iff in E. tauto.
  - tauto.
  - split; [discriminate|]. intros [H|H]; [discriminate|].
    subst b. pose proof (String.compare_antisym a a) as E'.
    rewrite E in E'. discriminate E'.
Qed.

Lemma string_leb_trans (a b c : string) :
  String.leb a b = true -> String.leb b c = true -> String.leb a c = true.
Proof.
  rewrite !string_leb_cases. intros [H1| ->] [H2| ->]; auto.
  left. now apply string_compare_lt_trans with b.
Qed.

Lemma order_by_key_sorted {A : Type} (key : A -> string) (l : list A) :
  StronglySorted (fun a b => String.leb (key a) (key b) = true)
                 (order_by (fun a b => String.leb (key a) (key b)) l).
Proof.
  apply order_by_sorted.
  - tauto.
  - intros a b H. destruct (String.leb_total (key a) (key b)); congruence.
  - intros a b c. apply string_leb_trans.
Qed.

(** X10. The stock position frame lists the active items and nothing
    else, one row each, in ascending order of name (code point order, so
    upper case before lower case): its rows are the rows of a rearrangement
    of the active items that is sorted by name. *)
Theorem get_inventory_df_sorted_by_name :
  forall db,
  exists listed,
    df_rows (get_inventory_df db) = map (position_row db) listed
    /\ Permutation listed (active_items db)
    /\ StronglySorted
         (fun a b => String.leb (item_name a) (item_name b) = true) listed.
Proof.
  intro db.
  exists (order_by (fun a b => String.leb (item_name a) (item_name b))
                   (active_items db)).
  split; [|split].
  - destruct (get_inventory_df_cases db) as [[Hn E]|[Hn _]].
    + rewrite E, Hn. reflexivity.
    + now rewrite (get_inventory_df_nonempty db Hn).
  - apply Permutation_sym, order_by_perm.
  - apply (order_by_key_sorted item_name).
Qed.

(** X11. list_parties returns the (id, name) pairs of exactly the parties
    of the asked type, in ascending order of name; a type no party has
    gives the empty list. *)
Theorem list_parties_of_type_sorted :
  forall db ptype,
    (forall pid nm,
        In (pid, nm) (list_parties db ptype)
        <-> exists p, In p (parties db) /\ party_type p = ptype
                      /\ party_id p = pid /\ party_name p = nm)
    /\ StronglySorted (fun a b => String.leb (snd a) (snd b) = true)
                      (list_parties db ptype)
    /\ List.length (list_parties db ptype)
       = List.length (filter (fun p => String.eqb (party_type p) ptype)
                             (parties db)).
Proof.
  intros db ptype. unfold list_parties.
  set (sel := filter (fun p => String.eqb (party_type p) ptype) (parties db)).
  set (leb := fun a b : Party => String.leb (party_name a) (party_name b)).
  split; [|split].
  - intros pid nm. rewrite in_map_iff. split.
    + intros (p & E & Hp). injection E as E1 E2.
      apply order_by_In, filter_In in Hp. destruct Hp as [Hp Ht].
      apply String.eqb_eq in Ht. exists p. tauto.
    + intros (p & Hp & Ht & E1 & E2). exists p. split; [congruence|].
      apply order_by_In, filter_In. split; [exact Hp|].
      now apply String.eqb_eq.
  - pose proof (order_by_key_sorted party_name sel) as Hs. fold leb in Hs.
    induction Hs as [|p l _ IH Hall]; simpl; constructor; [exact IH|].
    apply Forall_map. exact Hall.
  - rewrite length_map. apply order_by_length.
Qed.

(** ** curr_stock *)

Lemma filter_all_false {A : Type} (p : A -> bool) (l : list A) :
  (forall x, In x l -> p x = false) -> filter p l = [].
Proof.
  induction l as [|x l IH]; simpl; intro H; [reflexivity|].
  rewrite (H x (or_introl eq_refl)). apply IH. intros y Hy. apply H. now right.
Qed.

(** X12. curr_stock reads the stock position frame by item id: for a listed
    (active) item it is the item's ledger sum, and for an id without a row,
    an unknown or an inactive item, it is the default 0.0. *)
Theorem curr_stock_listed_or_zero :
  forall db iid,
    (forall i, In i (items db) -> item_active i = 1 -> item_id i = iid ->
               curr_stock (get_inventory_df db) iid == ledger_sum db iid)
    /\ ((forall i, In i (items db) -> item_active i = 1 -> item_id i <> iid)
        -> curr_stock (get_inventory_df db) iid = 0%Q).
Proof.
  intros db iid. split.
  - intros i Hi A <-. rewrite (curr_stock_position db i Hi A).
    apply stock_qty_ledger_sum.
  - intro Hno.
    destruct (get_inventory_df_cases db) as [[_ E]|[Hn _]].
    + rewrite E. reflexivity.
    + rewrite (get_inventory_df_nonempty db Hn).
      unfold curr_stock. cbn [df_rows]. rewrite filter_map_commute.
      set (sorted := order_by _ (active_items db)).
      assert (Hp : forall j,
                 cell_is_int iid
                   (df_get (mkDF position_columns
                                 (map (position_row db) sorted))
                           (position_row db j) "id")
                 = (item_id j =? iid)) by (intro j; reflexivity).
      rewrite (filter_ext _ _ Hp).
      rewrite filter_all_false; [reflexivity|].
      intros j Hj. apply order_by_In, active_items_In in Hj.
      destruct Hj as [Hj A]. apply Z.eqb_neq. now apply Hno.
Qed.

Lemma curr_stock_listed_or_zero_witness :
  curr_stock (get_inventory_df shop) 1 == ledger_sum shop 1
  /\ curr_stock (get_inventory_df shop) 7 = 0%Q.
Proof.
  destruct (curr_stock_listed_or_zero shop 1) as [H1 _].
  destruct (curr_stock_listed_or_zero shop 7) as [_ H2].
  split.
  - apply (H1 shop_screen); [left|..]; reflexivity.
  - apply H2. intros i [<-|[]] _. discriminate.
Defined.

(** ** The Stock IN and Stock OUT pages: party, then movement *)

Lemma upsert_party_admitted_type (db : DB) (ptype : string)
    (name : option string) (phone address : option string) :
  In ptype party_types ->
  exists pid db1,
    upsert_party db ptype name phone address = (Ok pid, db1)
    /\ items db1 = items db
    /\ transactions db1 = transactions db
    /\ seq_transactions db1 = seq_transactions db
    /\ (forall q, In q (parties db) -> In q (parties db1))
    /\ match pid with
       | None => strip (str_or name "") = ""
       | Some p =>
           exists q, In q (parties db1) /\ party_id q = p
                     /\ party_type q = ptype
                     /\ party_name q = strip (str_or name "")
       end.
Proof.
  intro Hty.
  destruct (upsert_party_cases db ptype name phone address)
    as [[E R]|[(_ & row & rest & Em & R)|[(_ & _ & N & _)|(_ & _ & _ & R)]]];
    try contradiction; rewrite R.
  - exists None, db. do 4 (split; [reflexivity|]). split; [tauto|exact E].
  - assert (Hr : In row (parties_matching db ptype
                           (strip (str_or name ""))))
      by (rewrite Em; now left).
    apply filter_In in Hr. destruct Hr as [Hr Hb].
    apply andb_true_iff in Hb. destruct Hb as [Hb1 Hb2].
    apply String.eqb_eq in Hb1, Hb2.
    exists (Some (party_id row)), db.
    do 4 (split; [reflexivity|]). split; [tauto|].
    exists row. tauto.
  - eexists (Some _), _. split; [reflexivity|].
    cbn [items transactions seq_transactions parties].
    do 3 (split; [reflexivity|]).
    split; [intros q Hq; apply in_or_app; now left|].
    eexists. split; [apply in_or_app; right; left; reflexivity|].
    repeat split.
Qed.

Lemma existsb_item_true (db : DB) (i : Item) :
  In i (items db) -> existsb (fun j => item_id j =? item_id i) (items db) = true.
Proof.
  intro H. apply existsb_exists. exists i. split; [exact H|apply Z.eqb_refl].
Qed.

(** The two writes of a stock form, when the quantity is above 0. *)
Lemma party_then_movement (fk : bool) (env : Env) (db : DB)
    (ptype nm ty : string) (i : Item) (qty : Q) (unit_price : option Q)
    (ref_no tdate remarks : option string) :
  In ptype party_types -> In ty txn_types -> In i (items db) ->
  (0 < qty)%Q ->
  exists pid db1 db2 tid,
    upsert_party db ptype (Some nm) None None = (Ok pid, db1)
    /\ record_txn fk env db1 (item_id i) ty qty unit_price pid ref_no tdate
                  remarks = (Ok tt, db2)
    /\ items db2 = items db
    /\ transactions db2
       = transactions db
         ++ [mkTxn tid (item_id i) ty qty unit_price pid ref_no
                   (str_or tdate (today env)) remarks (now env)]
    /\ (forall q, In q (parties db) -> In q (parties db2))
    /\ match pid with
       | None => strip nm = ""
       | Some p =>
           exists q, In q (parties db2) /\ party_id q = p
                     /\ party_type q = ptype /\ party_name q = strip nm
       end.
Proof.
  intros Hpt Hty Hi Hq.
  destruct (upsert_party_admitted_type db ptype (Some nm) None None Hpt)
    as (pid & db1 & R1 & Hit & Htx & Hseq & Hkeep & Hpid).
  rewrite str_or_Some_empty in Hpid.
  assert (Hfk : fk && negb (fk_ok db1 (item_id i) pid) = false).
  { assert (Hok : fk_ok db1 (item_id i) pid = true).
    { unfold fk_ok. rewrite Hit, (existsb_item_true db i Hi). simpl.
      destruct pid as [p|]; [|reflexivity].
      destruct Hpid as (q & Hq1 & Hq2 & _).
      apply existsb_exists. exists q. split; [exact Hq1|].
      now apply Z.eqb_eq. }
    rewrite Hok. apply andb_false_r. }
  exists pid, db1. eexists. eexists. split; [exact R1|].
  split; [apply (record_txn_accepted _ _ _ _ _ _ _ _ _ _ _ Hq Hty Hfk)|].
  cbn [items transactions parties]. rewrite Hit, Htx.
  split; [reflexivity|]. split; [reflexivity|]. split; [exact Hkeep|exact Hpid].
Qed.

Lemma selected_item_listed (db : DB) (sel : string) (item_row : Item)
    (rest : list Item) :
  filter (fun r => String.eqb (item_name r) sel) (get_items_df db true)
  = item_row :: rest ->
  In item_row (items db) /\ item_active item_row = 1
  /\ item_name item_row = sel.
Proof.
  intro H.
  assert (Hin : In item_row
                  (filter (fun r => String.eqb (item_name r) sel)
                          (get_items_df db true)))
    by (rewrite H; now left).
  apply filter_In in Hin. destruct Hin as [Hin Hn].
  apply String.eqb_eq in Hn.
  unfold get_items_df in Hin. apply filter_In in Hin.
  destruct Hin as [Hi A]. apply Z.eqb_eq in A. tauto.
Qed.

(** X13. A Stock IN submission for a listed item with a quantity above 0
    succeeds, with or without foreign key enforcement: it appends one 'IN'
    movement for the selected item, dated as given, whose party is the
    supplier named in the form (the typed name before the selected one,
    found or created) or none when both are blank; the item's stock_qty
    rises by the quantity and the stock of items with another id is
    unchanged. *)
Theorem stock_in_submit_records_receipt :
  forall fk env db sel qty unit_price tdate supplier_name_sel supplier_new
         ref_no remarks item_row rest,
    filter (fun r => String.eqb (item_name r) sel) (get_items_df db true)
    = item_row :: rest ->
    (0 < qty)%Q ->
    let out := stock_in_submit fk env db sel qty unit_price tdate
                 supplier_name_sel supplier_new ref_no remarks in
    let text := str_or (Some (strip supplier_new)) (strip supplier_name_sel) in
    fst out = Ok (st_success "Stock IN recorded.")
    /\ (exists t,
          transactions (snd out) = transactions db ++ [t]
          /\ txn_item_id t = item_id item_row
          /\ txn_type t = "IN" /\ txn_qty t = qty
          /\ txn_date t = (if String.eqb tdate "" then today env else tdate)
          /\ match txn_party_id t with
             | None => strip text = ""
             | Some p =>
                 exists q, In q (parties (snd out)) /\ party_id q = p
                           /\ party_type q = "supplier"
                           /\ party_name q = strip text
             end)
    /\ stock_qty (snd out) item_row == stock_qty db item_row + qty
    /\ (forall j, item_id j <> item_id item_row ->
                  stock_qty (snd out) j = stock_qty db j).
Proof.
  intros fk env db sel qty unit_price tdate psel pnew ref_no remarks item_row
         rest Hsel Hq out text.
  destruct (selected_item_listed db sel item_row rest Hsel) as (Hi & _ & _).
  destruct (party_then_movement fk env db "supplier" text "IN" item_row qty
              (Some unit_price) (or_none (strip ref_no)) (Some tdate)
              (or_none (strip remarks)))
    as (pid & db1 & db2 & tid & R1 & R2 & Hit & Htx & Hkeep & Hpid);
    [left; reflexivity|left; reflexivity|exact Hi|exact Hq|].
  subst out. unfold stock_in_submit. rewrite Hsel. fold text.
  rewrite R1, R2. cbn [fst snd].
  split; [reflexivity|].
  destruct (stock_qty_snoc db db2 _ item_row Htx) as [Hsame _].
  split; [|split].
  - eexists. split; [exact Htx|]. cbn [txn_item_id txn_type txn_qty txn_date
                                       txn_party_id str_or].
    do 4 (split; [reflexivity|]). exact Hpid.
  - apply Hsame. reflexivity.
  - intros j Hj. apply (stock_qty_snoc db db2 _ j Htx).
    cbn [txn_item_id]. congruence.
Qed.

Lemma stock_in_submit_records_receipt_witness :
  filter (fun r => String.eqb (item_name r) "iPhone 11 Screen")
         (get_items_df shop true) = shop_screen :: []
  /\ (0 < 5)%Q
  /\ fst (stock_in_submit true env0 shop "iPhone 11 Screen" 5 100 "2024-01-16"
            "" " Ali Traders" "B-17" "")
     = Ok (st_success "Stock IN recorded.")
  /\ stock_qty
       (snd (stock_in_submit true env0 shop "iPhone 11 Screen" 5 100
               "2024-01-16" "" " Ali Traders" "B-17" ""))
       shop_screen
     == stock_qty shop shop_screen + 5.
Proof.
  assert (H1 : filter (fun r => String.eqb (item_name r) "iPhone 11 Screen")
                      (get_items_df shop true) = shop_screen :: [])
    by reflexivity.
  assert (H2 : (0 < 5)%Q) by reflexivity.
  destruct (stock_in_submit_records_receipt true env0 shop "iPhone 11 Screen"
              5 100 "2024-01-16" "" " Ali Traders" "B-17" "" shop_screen []
              H1 H2) as (R1 & _ & R3 & _).
  split; [exact H1|]. split; [exact H2|]. split; [exact R1|exact R3].
Defined.

(** X15. A Stock OUT submission for a listed item with a quantity above 0
    and not above the computed stock succeeds, with or without foreign key
    enforcement: one 'OUT' movement for the selected item is appended, the
    item's stock_qty falls by the quantity and is not negative afterwards,
    and the stock of items with another id is unchanged. *)
Theorem stock_out_submit_records_issue :
  forall fk env db sel qty unit_price tdate customer_name_sel customer_new
         ref_no remarks item_row rest,
    filter (fun r => String.eqb (item_name r) sel) (get_items_df db true)
    = item_row :: rest ->
    (0 < qty)%Q ->
    (qty <= curr_stock (get_inventory_df db) (item_id item_row))%Q ->
    let out := stock_out_submit fk env db sel qty unit_price tdate
                 customer_name_sel customer_new ref_no remarks in
    fst out = Ok (st_success "Stock OUT recorded.")
    /\ (exists t,
          transactions (snd out) = transactions db ++ [t]
          /\ txn_item_id t = item_id item_row
          /\ txn_type t = "OUT" /\ txn_qty t = qty)
    /\ stock_qty (snd out) item_row == stock_qty db item_row - qty
    /\ (0 <= stock_qty (snd out) item_row)%Q
    /\ (forall j, item_id j <> item_id item_row ->
                  stock_qty (snd out) j = stock_qty db j).
Proof.
  intros fk env db sel qty unit_price tdate psel pnew ref_no remarks item_row
         rest Hsel Hq Hle out.
  destruct (selected_item_listed db sel item_row rest Hsel) as (Hi & A & _).
  set (text := str_or (Some (strip pnew)) (strip psel)).
  destruct (party_then_movement fk env db "customer" text "OUT" item_row qty
              (Some unit_price) (or_none (strip ref_no)) (Some tdate)
              (or_none (strip remarks)))
    as (pid & db1 & db2 & tid & R1 & R2 & Hit & Htx & Hkeep & Hpid);
    [right; left; reflexivity|right; left; reflexivity|exact Hi|exact Hq|].
  subst out. unfold stock_out_submit. rewrite Hsel. fold text.
  pose proof Hle as Hb. apply Qle_bool_iff in Hb. rewrite Hb. cbn [negb].
  rewrite R1, R2. cbn [fst snd].
  split; [reflexivity|].
  destruct (stock_qty_snoc db db2 _ item_row Htx) as [Hsame _].
  specialize (Hsame eq_refl).
  assert (Hs : stock_qty db2 item_row == stock_qty db item_row - qty).
  { rewrite Hsame. unfold signed_qty. simpl. ring. }
  split; [|split; [exact Hs|split]].
  - eexists. split; [exact Htx|]. repeat split.
  - rewrite Hs. rewrite (curr_stock_position db item_row Hi A) in Hle.
    unfold Qminus. rewrite <- (Qplus_opp_r qty).
    apply Qplus_le_l. exact Hle.
  - intros j Hj. apply (stock_qty_snoc db db2 _ j Htx).
    cbn [txn_item_id]. congruence.
Qed.

Lemma stock_out_submit_records_issue_witness :
  filter (fun r => String.eqb (item_name r) "iPhone 11 Screen")
         (get_items_df shop true) = shop_screen :: []
  /\ (0 < 9)%Q
  /\ (9 <= curr_stock (get_inventory_df shop) 1)%Q
  /\ fst (stock_out_submit true env0 shop "iPhone 11 Screen" 9 150
            "2024-01-16" "" "" "" "")
     = Ok (st_success "Stock OUT recorded.")
  /\ stock_qty
       (snd (stock_out_submit true env0 shop "iPhone 11 Screen" 9 150
               "2024-01-16" "" "" "" ""))
       shop_screen
     == stock_qty shop shop_screen - 9.
Proof.
  assert (H1 : filter (fun r => String.eqb (item_name r) "iPhone 11 Screen")
                      (get_items_df shop true) = shop_screen :: [])
    by reflexivity.
  assert (H2 : (0 < 9)%Q) by reflexivity.
  assert (H3 : (9 <= curr_stock (get_inventory_df shop)
                                (item_id shop_screen))%Q).
  { vm_compute. discriminate. }
  destruct (stock_out_submit_records_issue true env0 shop "iPhone 11 Screen"
              9 150 "2024-01-16" "" "" "" "" shop_screen [] H1 H2 H3)
    as (R1 & _ & R3 & _).
  split; [exact H1|]. split; [exact H2|]. split; [exact H3|].
  split; [exact R1|exact R3].
Defined.

(** ** The id a caller binds *)

Lemma update_item_basic_bound_int (db : DB) (z : Z) (c s : option Q) :
  update_item_basic_bound db (PyInt z) c s = update_item_basic db z c s.
Proof. reflexivity. Qed.

Lemma update_item_basic_bound_numpy (db : DB) (z : Z) (c s : option Q) :
  update_item_basic_bound db (NumpyInt64 z) c s = db.
Proof.
  unfold update_item_basic_bound. cbn [bind_id id_equals].
  rewrite map_id. destruct db; reflexivity.
Qed.

(** ** What the pages keep *)

Lemma stock_qty_same_ledger (db db' : DB) (i i' : Item) :
  transactions db' = transactions db -> item_id i' = item_id i ->
  stock_qty db' i' = stock_qty db i.
Proof.
  intros Ht Ei. unfold stock_qty, left_join_transactions.
  now rewrite Ht, Ei.
Qed.

Lemma ledger_ok_frame (db db' : DB) :
  transactions db' = transactions db ->
  map item_id (items db') = map item_id (items db) ->
  (forall q, In q (parties db) -> In q (parties db')) ->
  ledger_ok db -> ledger_ok db'.
Proof.
  intros Ht Hids Hkeep (Ha & Hb & Hc & Hd).
  unfold ledger_ok, item_refs_exist. rewrite Ht, Hids.
  split; [exact Ha|]. split; [|split; [exact Hc|]].
  - intros t p Hin Ep. specialize (Hb t p Hin Ep).
    apply in_map_iff in Hb. destruct Hb as (q & Eq & Hq).
    apply in_map_iff. exists q. split; [exact Eq|now apply Hkeep].
  - intros i' Hi'.
    assert (Hid : In (item_id i') (map item_id (items db)))
      by (rewrite <- Hids; now apply in_map).
    apply in_map_iff in Hid. destruct Hid as (i & Ei & Hi).
    rewrite (stock_qty_same_ledger db db' i i' Ht (eq_sym Ei)).
    now apply Hd.
Qed.

Lemma ledger_ok_add_item (db : DB) (name : string)
    (category brand : option string) (unit : string)
    (cost_price sale_price : Q) (notes : option string) :
  store_ok db -> ledger_ok db ->
  ledger_ok (add_item db name category brand unit cost_price sale_price notes).
Proof.
  intros (Hi & _) (Ha & Hb & Hc & Hd).
  unfold ledger_ok, item_refs_exist, add_item.
  cbn [items parties transactions].
  split; [|split; [exact Hb|split; [exact Hc|]]].
  - intros t Ht. rewrite (map_app item_id). apply in_or_app. left.
    now apply Ha.
  - intros j Hj. apply in_app_or in Hj. destruct Hj as [Hj|[<-|[]]].
    + unfold stock_qty, left_join_transactions. cbn [transactions].
      now apply Hd.
    + unfold stock_qty, left_join_transactions. cbn [transactions item_id].
      rewrite filter_all_false; [unfold Qle; simpl; lia|].
      intros t Ht. apply Z.eqb_neq. intro E.
      specialize (Ha t Ht). rewrite E in Ha.
      destruct (next_rowid_above (map item_id (items db)) (seq_items db))
        as [_ Habove].
      rewrite Forall_forall in Habove. specialize (Habove _ Ha). lia.
Qed.

Lemma ledger_ok_movement (db db2 : DB) (t : Txn) :
  ledger_ok db ->
  items db2 = items db ->
  transactions db2 = transactions db ++ [t] ->
  (forall q, In q (parties db) -> In q (parties db2)) ->
  In (txn_item_id t) (map item_id (items db)) ->
  (forall p, txn_party_id t = Some p -> In p (map party_id (parties db2))) ->
  txn_type t = "IN" \/ txn_type t = "OUT" ->
  (forall i, In i (items db) -> item_id i = txn_item_id t ->
             (0 <= stock_qty db i + signed_qty t)%Q) ->
  ledger_ok db2.
Proof.
  intros (Ha & Hb & Hc & Hd) Hit Htx Hkeep Hitem Hparty Hty Hstock.
  unfold ledger_ok, item_refs_exist. rewrite Hit, Htx.
  split; [|split; [|split]].
  - intros t' Ht'. apply in_app_or in Ht'.
    destruct Ht' as [Ht'|[<-|[]]]; [now apply Ha|exact Hitem].
  - intros t' p Ht' Ep. apply in_app_or in Ht'.
    destruct Ht' as [Ht'|[<-|[]]]; [|now apply Hparty].
    specialize (Hb t' p Ht' Ep). apply in_map_iff in Hb.
    destruct Hb as (q & Eq & Hq). apply in_map_iff.
    exists q. split; [exact Eq|now apply Hkeep].
  - apply Forall_app. split; [exact Hc|].
    constructor; [exact Hty|constructor].
  - intros i Hi. destruct (Z.eq_dec (txn_item_id t) (item_id i)) as [E|E].
    + rewrite (proj1 (stock_qty_snoc db db2 t i Htx) E).
      apply Hstock; [exact Hi|now symmetry].
    + rewrite (proj2 (stock_qty_snoc db db2 t i Htx) E). now apply Hd.
Qed.

Lemma stock_form_keeps_ok (fk : bool) (env : Env) (db : DB)
    (ptype nm ty : string) (i : Item) (qty : Q) (unit_price : option Q)
    (ref_no tdate remarks : option string) :
  In ptype party_types -> ty = "IN" \/ ty = "OUT" -> In i (items db) ->
  (ty = "OUT" -> (qty <= stock_qty db i)%Q) ->
  store_ok db -> ledger_ok db ->
  let db1 := snd (upsert_party db ptype (Some nm) None None) in
  (store_ok db1 /\ ledger_ok db1)
  /\ forall pid,
      fst (upsert_party db ptype (Some nm) None None) = Ok pid ->
      let db2 := snd (record_txn fk env db1 (item_id i) ty qty unit_price pid
                                 ref_no tdate remarks) in
      store_ok db2 /\ ledger_ok db2.
Proof.
  intros Hpt Hty Hi Hout Hs Hl db1.
  assert (Hs1 : store_ok db1).
  { apply (store_ok_step fk db db1); [apply step_upsert_party|exact Hs]. }
  destruct (upsert_party_admitted_type db ptype (Some nm) None None Hpt)
    as (pid0 & d1 & R1 & Hit & Htx & _ & Hkeep & Hpid).
  assert (Ed : db1 = d1) by (unfold db1; now rewrite R1).
  rewrite <- Ed in *. clear Ed d1.
  assert (Hl1 : ledger_ok db1).
  { apply (ledger_ok_frame db db1); [exact Htx|now rewrite Hit|exact Hkeep
                                     |exact Hl]. }
  split; [now split|].
  intros pid Epid db2. rewrite R1 in Epid. cbn [fst] in Epid.
  injection Epid as <-.
  split.
  { apply (store_ok_step fk db1 db2); [apply step_record_txn|exact Hs1]. }
  destruct (record_txn_cases fk env db1 (item_id i) ty qty unit_price pid0
              ref_no tdate remarks) as [R|(Hq & Htyp & Hfk)].
  - unfold db2. rewrite R. exact Hl1.
  - pose proof (record_txn_accepted fk env db1 (item_id i) ty qty unit_price
                  pid0 ref_no tdate remarks Hq Htyp Hfk) as R2.
    set (t := mkTxn (next_rowid (map txn_id (transactions db1))
                                (seq_transactions db1))
                    (item_id i) ty qty unit_price pid0 ref_no
                    (str_or tdate (today env)) remarks (now env)).
    assert (E2 : db2 = mkDB (items db1) (parties db1)
                            (transactions db1 ++ [t]) (seq_items db1)
                            (seq_parties db1) (txn_id t))
      by (unfold db2; now rewrite R2).
    apply (ledger_ok_movement db1 db2 t Hl1); rewrite ?E2;
      cbn [items transactions parties txn_item_id txn_party_id txn_type t].
    + reflexivity.
    + reflexivity.
    + tauto.
    + rewrite Hit. now apply in_map.
    + intros p Ep. subst pid0. destruct Hpid as (q & Hq1 & Hq2 & _).
      rewrite <- Hq2. now apply in_map.
    + exact Hty.
    + intros j Hj Ej. rewrite Hit in Hj.
      rewrite (stock_qty_same_ledger db db1 i j Htx Ej).
      unfold signed_qty. cbn [txn_type txn_qty].
      destruct Hty as [-> | ->]; simpl.
      * destruct Hl as (_ & _ & _ & Hd). specialize (Hd i Hi).
        apply Qle_trans with (stock_qty db i); [exact Hd|].
        rewrite <- (Qplus_0_r (stock_qty db i)) at 1.
        apply Qplus_le_r. now apply Qlt_le_weak.
      * specialize (Hout eq_refl).
        rewrite <- (Qplus_opp_r qty). apply Qplus_le_l. exact Hout.
Qed.

Lemma page_step_keeps_ok (fk : bool) (db db' : DB) :
  page_step fk db db' -> store_ok db /\ ledger_ok db ->
  store_ok db' /\ ledger_ok db'.
Proof.
  intros Hstep [Hs Hl].
  destruct Hstep
    as [db name category brand unit cost_price sale_price notes
       |db sel cost_new sale_new
       |env db sel qty unit_price tdate psel pnew ref_no remarks
       |env db sel qty unit_price tdate psel pnew ref_no remarks
       |db name phone addr
       |db name phone addr].
  - (* add_item_submit *)
    unfold add_item_submit.
    destruct (String.eqb (strip name) ""); cbn [snd]; [now split|].
    split; [|now apply ledger_ok_add_item].
    apply (store_ok_step fk db); [apply step_add_item|exact Hs].
  - (* save_price_changes *)
    unfold save_price_changes.
    destruct (filter _ (get_items_df db true)) as [|item_row rest];
      cbn [snd]; [now split|].
    rewrite update_item_basic_bound_numpy. now split.
  - (* stock_in_submit *)
    unfold stock_in_submit.
    destruct (filter _ (get_items_df db true)) as [|item_row rest] eqn:Hsel;
      [now split|].
    destruct (selected_item_listed db sel item_row rest Hsel) as (Hi & _ & _).
    set (text := str_or (Some (strip pnew)) (strip psel)).
    destruct (stock_form_keeps_ok fk env db "supplier" text "IN" item_row qty
                (Some unit_price) (or_none (strip ref_no)) (Some tdate)
                (or_none (strip remarks)))
      as [H1 H2]; try assumption;
      [left; reflexivity|now left|intro H; discriminate H|].
    destruct (upsert_party db "supplier" (Some text) None None)
      as [[pid|e] db1]; cbn [fst snd] in *; [|exact H1].
    specialize (H2 pid eq_refl).
    destruct (record_txn fk env db1 (item_id item_row) "IN" qty
                (Some unit_price) pid (or_none (strip ref_no)) (Some tdate)
                (or_none (strip remarks))) as [[u|e] db2];
      cbn [fst snd] in *; exact H2.
  - (* stock_out_submit *)
    unfold stock_out_submit.
    destruct (filter _ (get_items_df db true)) as [|item_row rest] eqn:Hsel;
      [now split|].
    destruct (selected_item_listed db sel item_row rest Hsel) as (Hi & A & _).
    destruct (Qle_bool qty (curr_stock (get_inventory_df db)
                                       (item_id item_row))) eqn:Hb;
      cbn [negb]; [|now split].
    apply Qle_bool_iff in Hb.
    rewrite (curr_stock_position db item_row Hi A) in Hb.
    set (text := str_or (Some (strip pnew)) (strip psel)).
    destruct (stock_form_keeps_ok fk env db "customer" text "OUT" item_row qty
                (Some unit_price) (or_none (strip ref_no)) (Some tdate)
                (or_none (strip remarks)))
      as [H1 H2]; try assumption;
      [right; left; reflexivity|now right|intros _; exact Hb|].
    destruct (upsert_party db "customer" (Some text) None None)
      as [[pid|e] db1]; cbn [fst snd] in *; [|exact H1].
    specialize (H2 pid eq_refl).
    destruct (record_txn fk env db1 (item_id item_row) "OUT" qty
                (Some unit_price) pid (or_none (strip ref_no)) (Some tdate)
                (or_none (strip remarks))) as [[u|e] db2];
      cbn [fst snd] in *; exact H2.
  - (* add_supplier_submit *)
    unfold add_supplier_submit, add_party_submit.
    destruct (String.eqb (strip name) ""); [now split|].
    destruct (upsert_party_admitted_type db "supplier" (Some (strip name))
                (or_none (strip phone)) (or_none (strip addr)))
      as (pid & db1 & R & Hit & Htx & _ & Hkeep & _); [left; reflexivity|].
    pose proof (store_ok_step fk db _
                  (step_upsert_party fk db "supplier" (Some (strip name))
                     (or_none (strip phone)) (or_none (strip addr))) Hs) as H.
    rewrite R in *. cbn [snd] in *. split; [exact H|].
    apply (ledger_ok_frame db); [exact Htx|now rewrite Hit|exact Hkeep
                                 |exact Hl].
  - (* add_customer_submit *)
    unfold add_customer_submit, add_party_submit.
    destruct (String.eqb (strip name) ""); [now split|].
    destruct (upsert_party_admitted_type db "customer" (Some (strip name))
                (or_none (strip phone)) (or_none (strip addr)))
      as (pid & db1 & R & Hit & Htx & _ & Hkeep & _);
      [right; left; reflexivity|].
    pose proof (store_ok_step fk db _
                  (step_upsert_party fk db "customer" (Some (strip name))
                     (or_none (strip phone)) (or_none (strip addr))) Hs) as H.
    rewrite R in *. cbn [snd] in *. split; [exact H|].
    apply (ledger_ok_frame db); [exact Htx|now rewrite Hit|exact Hkeep
                                 |exact Hl].
Qed.

Lemma ledger_ok_empty : ledger_ok empty_db.
Proof.
  unfold ledger_ok, item_refs_exist, empty_db. simpl.
  repeat split; try tauto. constructor.
Qed.

(** X16. Whatever is submitted on the pages of a fresh store, in any order
    and with or without foreign key enforcement: every movement references
    an item of the items table and, where it names a party, a party of the
    parties table; every movement is an 'IN' or an 'OUT' (no page records
    an ADJUST); no item's stock_qty is negative; and the store keeps the
    invariants of the helpers (distinct ids, unique party names per type,
    quantities above 0, all items active). *)
Theorem page_reachable_ledger_ok :
  forall fk db, page_reachable fk db -> store_ok db /\ ledger_ok db.
Proof.
  intros fk db H. induction H as [|db db' _ IH Hstep].
  - split; [apply store_ok_empty|apply ledger_ok_empty].
  - exact (page_step_keeps_ok fk db db' Hstep IH).
Qed.

Lemma page_reachable_shop_by_pages : page_reachable false shop_by_pages.
Proof.
  unfold shop_by_pages.
  eapply page_next; [|apply step_stock_out].
  eapply page_next; [|apply step_stock_in].
  eapply page_next; [apply page_init|apply step_add_item_submit].
Defined.

Lemma page_reachable_ledger_ok_witness :
  page_reachable false shop_by_pages
  /\ store_ok shop_by_pages /\ ledger_ok shop_by_pages.
Proof.
  split; [exact page_reachable_shop_by_pages|].
  exact (page_reachable_ledger_ok false shop_by_pages
           page_reachable_shop_by_pages).
Defined.

(** ** The Items page *)

Lemma upsert_party_items (db : DB) (ptype : string) (name : option string)
    (phone address : option string) :
  items (snd (upsert_party db ptype name phone address)) = items db.
Proof.
  destruct (upsert_party_cases db ptype name phone address)
    as [[_ R]|[(_ & row & rest & _ & R)|[(_ & _ & _ & R)|(_ & _ & _ & R)]]];
    rewrite R; reflexivity.
Qed.

Lemma record_txn_items (fk : bool) (env : Env) (db : DB) (iid : Z)
    (ty : string) (qty : Q) (unit_price : option Q) (pid : option Z)
    (ref_no tdate remarks : option string) :
  items (snd (record_txn fk env db iid ty qty unit_price pid ref_no tdate
                         remarks)) = items db.
Proof.
  destruct (record_txn_cases fk env db iid ty qty unit_price pid ref_no tdate
              remarks) as [R|(Hq & Hty & Hfk)].
  - now rewrite R.
  - now rewrite (record_txn_accepted _ _ _ _ _ _ _ _ _ _ _ Hq Hty Hfk).
Qed.

Lemma or_pcs_not_empty (unit : string) : str_or (Some (strip unit)) "pcs" <> "".
Proof.
  unfold str_or. destruct (String.eqb_spec (strip unit) "") as [E|E];
    [discriminate|exact E].
Qed.

Lemma page_step_keeps_items_ok (fk : bool) (db db' : DB) :
  page_step fk db db' -> Forall item_ok (items db) -> Forall item_ok (items db').
Proof.
  intros Hstep Hok.
  destruct Hstep
    as [db name category brand unit cost_price sale_price notes
       |db sel cost_new sale_new
       |env db sel qty unit_price tdate psel pnew ref_no remarks
       |env db sel qty unit_price tdate psel pnew ref_no remarks
       |db name phone addr
       |db name phone addr].
  - unfold add_item_submit.
    destruct (String.eqb_spec (strip name) "") as [E|E]; cbn [snd];
      [exact Hok|].
    unfold add_item. cbn [items]. apply Forall_app. split; [exact Hok|].
    constructor; [|constructor]. unfold item_ok.
    cbn [item_name item_unit item_category].
    split; [apply strip_idempotent|]. split; [exact E|].
    split; [apply or_pcs_not_empty|discriminate].
  - unfold save_price_changes.
    destruct (filter _ (get_items_df db true)) as [|item_row rest];
      cbn [snd]; [exact Hok|].
    rewrite update_item_basic_bound_numpy. exact Hok.
  - unfold stock_in_submit.
    destruct (filter _ (get_items_df db true)) as [|item_row rest];
      [exact Hok|].
    destruct (upsert_party db "supplier" _ None None) as [[pid|e] db1] eqn:E1;
      cbn [snd];
      pose proof (upsert_party_items db "supplier"
                    (Some (str_or (Some (strip pnew)) (strip psel)))
                    None None) as H1;
      rewrite E1 in H1; cbn [snd] in H1; [|now rewrite H1].
    destruct (record_txn fk env db1 _ "IN" qty _ pid _ _ _)
      as [[u|e] db2] eqn:E2; cbn [snd];
      pose proof (record_txn_items fk env db1 (item_id item_row) "IN" qty
                    (Some unit_price) pid (or_none (strip ref_no))
                    (Some tdate) (or_none (strip remarks))) as H2;
      rewrite E2 in H2; cbn [snd] in H2; now rewrite H2, H1.
  - unfold stock_out_submit.
    destruct (filter _ (get_items_df db true)) as [|item_row rest];
      [exact Hok|].
    destruct (negb _); [exact Hok|].
    destruct (upsert_party db "customer" _ None None) as [[pid|e] db1] eqn:E1;
      cbn [snd];
      pose proof (upsert_party_items db "customer"
                    (Some (str_or (Some (strip pnew)) (strip psel)))
                    None None) as H1;
      rewrite E1 in H1; cbn [snd] in H1; [|now rewrite H1].
    destruct (record_txn fk env db1 _ "OUT" qty _ pid _ _ _)
      as [[u|e] db2] eqn:E2; cbn [snd];
      pose proof (record_txn_items fk env db1 (item_id item_row) "OUT" qty
                    (Some unit_price) pid (or_none (strip ref_no))
                    (Some tdate) (or_none (strip remarks))) as H2;
      rewrite E2 in H2; cbn [snd] in H2; now rewrite H2, H1.
  - unfold add_supplier_submit, add_party_submit.
    destruct (String.eqb (strip name) ""); [exact Hok|].
    pose proof (upsert_party_items db "supplier" (Some (strip name))
                  (or_none (strip phone)) (or_none (strip addr))) as H1.
    destruct (upsert_party db "supplier" _ _ _) as [[pid|e] db1];
      cbn [snd] in *; now rewrite H1.
  - unfold add_customer_submit, add_party_submit.
    destruct (String.eqb (strip name) ""); [exact Hok|].
    pose proof (upsert_party_items db "customer" (Some (strip name))
                  (or_none (strip phone)) (or_none (strip addr))) as H1.
    destruct (upsert_party db "customer" _ _ _) as [[pid|e] db1];
      cbn [snd] in *; now rewrite H1.
Qed.

(** X17. Every item the pages ever store has a name that is stripped and
    not empty (a blank name is refused with "Item Name required."), a unit
    that is not empty (a blank unit becomes "pcs") and a category; price
    updates and stock movements leave these fields alone. *)
Theorem page_reachable_items_ok :
  forall fk db, page_reachable fk db -> Forall item_ok (items db).
Proof.
  intros fk db H. induction H as [|db db' _ IH Hstep].
  - constructor.
  - exact (page_step_keeps_items_ok fk db db' Hstep IH).
Qed.

Lemma page_reachable_items_ok_witness :
  page_reachable false shop_by_pages /\ Forall item_ok (items shop_by_pages).
Proof.
  split; [exact page_reachable_shop_by_pages|].
  exact (page_reachable_items_ok false shop_by_pages
           page_reachable_shop_by_pages).
Defined.

(** The item stored for the name " iPhone 11 Screen " and a blank unit. *)
Example shop_by_pages_item :
  items shop_by_pages
  = [mkItem 1 "iPhone 11 Screen" (Some "Screen") (Some "Apple") "pcs" 100 150
            1 None]
  /\ stock_qty shop_by_pages shop_screen == 7.
Proof. split; reflexivity. Qed.

(** ** Price updates *)

(** X18. update_item_basic silently does nothing when no item has the
    given id, and also when both prices are omitted: the store is returned
    as it was, and no error is raised. *)
Theorem update_item_basic_no_effect :
  forall db iid cost_price sale_price,
    ~ In iid (map item_id (items db))
    \/ (cost_price = None /\ sale_price = None) ->
    update_item_basic db iid cost_price sale_price = db.
Proof.
  intros db iid cost_price sale_price H.
  unfold update_item_basic.
  assert (E : map (fun i =>
                     if item_id i =? iid then
                       mkItem (item_id i) (item_name i) (item_category i)
                              (item_brand i) (item_unit i)
                              (coalesce cost_price (item_cost_price i))
                              (coalesce sale_price (item_sale_price i))
                              (item_active i) (item_notes i)
                     else i) (items db) = items db).
  { rewrite <- (map_id (items db)) at 2. apply map_ext_in. intros i Hi.
    destruct (Z.eqb_spec (item_id i) iid) as [E|E]; [|reflexivity].
    destruct H as [H|[-> ->]].
    - exfalso. apply H. rewrite <- E. now apply in_map.
    - destruct i; reflexivity. }
  rewrite E. destruct db; reflexivity.
Qed.

Lemma update_item_basic_no_effect_witness :
  (~ In 7 (map item_id (items shop)) \/ (Some 5%Q = None /\ Some 6%Q = None))
  /\ update_item_basic shop 7 (Some 5%Q) (Some 6%Q) = shop.
Proof.
  assert (H : ~ In 7 (map item_id (items shop))
              \/ (Some 5%Q = None /\ Some 6%Q = None)).
  { left. simpl. intros [E|[]]. discriminate E. }
  split; [exact H|].
  exact (update_item_basic_no_effect shop 7 (Some 5%Q) (Some 6%Q) H).
Defined.

(** X19. "Save Price Changes" reports "Item price updated." and stores
    nothing.  The handler passes the id as the frame row holds it, a
    numpy.int64, which is bound as a BLOB and equals no item id, so the
    UPDATE matches no row: the store, and with it the stock position frame
    and every price in it, is as before.  The same UPDATE with the id
    converted to an int is the price update of update_item_basic. *)
Theorem save_price_changes_stores_nothing :
  forall db sel cost_new sale_new item_row rest,
    filter (fun r => String.eqb (item_name r) sel) (get_items_df db true)
    = item_row :: rest ->
    save_price_changes db sel cost_new sale_new
    = (Ok (st_success "Item price updated."), db)
    /\ get_inventory_df (snd (save_price_changes db sel cost_new sale_new))
       = get_inventory_df db
    /\ update_item_basic_bound db (PyInt (item_id item_row)) (Some cost_new)
                               (Some sale_new)
       = update_item_basic db (item_id item_row) (Some cost_new)
                           (Some sale_new).
Proof.
  intros db sel cost_new sale_new item_row rest Hsel.
  unfold save_price_changes. rewrite Hsel.
  rewrite update_item_basic_bound_numpy. cbn [snd].
  split; [reflexivity|]. split; reflexivity.
Qed.

Lemma save_price_changes_stores_nothing_witness :
  filter (fun r => String.eqb (item_name r) "iPhone 11 Screen")
         (get_items_df shop true) = shop_screen :: []
  /\ save_price_changes shop "iPhone 11 Screen" 120 180
     = (Ok (st_success "Item price updated."), shop)
  /\ map item_cost_price (items (update_item_basic shop 1 (Some 120%Q)
                                                   (Some 180%Q)))
     = [120%Q].
Proof.
  assert (H1 : filter (fun r => String.eqb (item_name r) "iPhone 11 Screen")
                      (get_items_df shop true) = shop_screen :: [])
    by reflexivity.
  split; [exact H1|]. split; [|reflexivity].
  exact (proj1 (save_price_changes_stores_nothing shop "iPhone 11 Screen"
                  120 180 shop_screen [] H1)).
Defined.

(** ** The newest movement in the recent-transactions listing *)

Lemma filter_unique_row {A : Type} (f : A -> Z) (l : list A) (a : A) :
  NoDup (map f l) -> In a l -> filter (fun x => f x =? f a) l = [a].
Proof.
  induction l as [|x l IH]; simpl; intros Hnd Ha; [contradiction|].
  inversion Hnd as [|? ? Hx Hl]; subst.
  destruct Ha as [->|Ha].
  - rewrite Z.eqb_refl. now rewrite (filter_absent_key f (f a) l Hx).
  - destruct (Z.eqb_spec (f x) (f a)) as [E|E].
    + exfalso. apply Hx. rewrite E. now apply in_map.
    + now apply IH.
Qed.

Lemma recent_join_txn (db : DB) (r : Txn * Item) :
  In r (recent_join db) -> In (fst r) (transactions db).
Proof.
  unfold recent_join. rewrite in_flat_map.
  intros (t & Ht & Hr). apply in_map_iff in Hr.
  destruct Hr as (i & <- & _). exact Ht.
Qed.

(** X20. After a movement is accepted for an existing item at a time later
    than every stored creation time, every listing the recent-transactions
    query admits starts with that movement, joined with its item. *)
Theorem recent_listing_starts_with_newest :
  forall fk env db i ty qty unit_price pid ref_no tdate remarks out,
    item_ids_unique db ->
    In i (items db) ->
    (0 < qty)%Q ->
    In ty txn_types ->
    (fk = true -> fk_ok db (item_id i) pid = true) ->
    Forall (fun t => txn_created_at t < now env) (transactions db) ->
    recent_admissible
      (snd (record_txn fk env db (item_id i) ty qty unit_price pid ref_no
                       tdate remarks)) out ->
    exists t,
      hd_error out = Some (t, i)
      /\ txn_item_id t = item_id i /\ txn_type t = ty /\ txn_qty t = qty
      /\ txn_created_at t = now env
      /\ ~ In t (transactions db).
Proof.
  intros fk env db i ty qty unit_price pid ref_no tdate remarks out Hu Hi Hq
         Hty Hfk Hold (full & Hp & Hs & ->).
  assert (Hb : fk && negb (fk_ok db (item_id i) pid) = false).
  { destruct fk; [|reflexivity]. now rewrite (Hfk eq_refl). }
  rewrite (record_txn_accepted _ _ _ _ _ _ _ _ _ _ _ Hq Hty Hb) in Hp.
  cbn [snd] in Hp.
  set (t := mkTxn (next_rowid (map txn_id (transactions db))
                              (seq_transactions db))
                  (item_id i) ty qty unit_price pid ref_no
                  (str_or tdate (today env)) remarks (now env)) in *.
  assert (Hj : recent_join
                 (mkDB (items db) (parties db) (transactions db ++ [t])
                       (seq_items db) (seq_parties db) (txn_id t))
               = recent_join db ++ [(t, i)]).
  { unfold recent_join. cbn [transactions items].
    rewrite flat_map_app. simpl. rewrite app_nil_r.
    change (txn_item_id t) with (item_id i).
    now rewrite (filter_unique_row item_id (items db) i Hu Hi). }
  change (txn_id t) with (next_rowid (map txn_id (transactions db))
                                     (seq_transactions db)) in Hj.
  rewrite Hj in Hp.
  assert (Hold' : forall r, In r (recent_join db) ->
                            txn_created_at (fst r) < now env).
  { intros r Hr. apply recent_join_txn in Hr.
    rewrite Forall_forall in Hold. now apply Hold. }
  assert (Hnew : ~ In t (transactions db)).
  { intro Hin. rewrite Forall_forall in Hold. specialize (Hold t Hin).
    cbn [txn_created_at t] in Hold. lia. }
  exists t.
  split; [|repeat split; exact Hnew].
  destruct full as [|h tl].
  - apply Permutation_sym, Permutation_nil in Hp.
    destruct (recent_join db); discriminate Hp.
  - simpl. f_equal.
    assert (Hh : In h (recent_join db ++ [(t, i)])).
    { apply (Permutation_in _ (Permutation_sym Hp)). now left. }
    apply in_app_or in Hh. destruct Hh as [Hh|[<-|[]]]; [|reflexivity].
    exfalso. specialize (Hold' h Hh).
    assert (Hx : In (t, i) (h :: tl)).
    { apply (Permutation_in _ Hp). apply in_or_app. right. now left. }
    destruct Hx as [->|Hx].
    + cbn [fst txn_created_at t] in Hold'. lia.
    + inversion Hs as [|? ? _ Hall]; subst.
      rewrite Forall_forall in Hall. specialize (Hall _ Hx).
      cbn [fst txn_created_at t] in Hall. lia.
Qed.

Lemma recent_listing_starts_with_newest_witness :
  item_ids_unique shop
  /\ In shop_screen (items shop)
  /\ Forall (fun t => txn_created_at t < 1705316400) (transactions shop)
  /\ exists t,
      hd_error
        (recent_rows
           (snd (record_txn false (mkEnv "2024-01-15" 1705316400) shop 1
                            "OUT" 1 None None None None None)))
      = Some (t, shop_screen)
      /\ txn_type t = "OUT".
Proof.
  assert (H1 : item_ids_unique shop).
  { unfold item_ids_unique. simpl. constructor; [intros []|constructor]. }
  assert (H2 : In shop_screen (items shop)) by (left; reflexivity).
  assert (H3 : (0 < 1)%Q) by reflexivity.
  assert (H4 : In "OUT" txn_types) by (right; left; reflexivity).
  assert (H5 : false = true -> fk_ok shop (item_id shop_screen) None = true)
    by (intro H; discriminate H).
  assert (H6 : Forall (fun t => txn_created_at t < 1705316400)
                      (transactions shop)).
  { simpl. repeat constructor. }
  destruct (recent_listing_starts_with_newest false
              (mkEnv "2024-01-15" 1705316400) shop shop_screen "OUT" 1 None
              None None None None _ H1 H2 H3 H4 H5 H6
              (recent_rows_admissible _))
    as (t & R1 & _ & R3 & _).
  split; [exact H1|]. split; [exact H2|]. split; [exact H6|].
  exists t. split; [exact R1|exact R3].
Defined.

(** ** The Dashboard *)

Lemma q_sum_map_permutation {A : Type} (f : A -> Q) (l l' : list A) :
  Permutation l l' -> q_sum (map f l) == q_sum (map f l').
Proof.
  unfold q_sum. induction 1 as [|x l l' _ IH|a b l|l1 l2 l3 _ IH1 _ IH2];
    simpl.
  - reflexivity.
  - now rewrite IH.
  - ring.
  - now rewrite IH1.
Qed.

Lemma q_sum_map_ext {A : Type} (f g : A -> Q) (l : list A) :
  (forall x, f x == g x) -> q_sum (map f l) == q_sum (map g l).
Proof.
  intro H. unfold q_sum. induction l as [|x l IH]; simpl.
  - reflexivity.
  - now rewrite IH, H.
Qed.

Lemma df_sum_position_rows (db : DB) (rows : list (list cell))
    (col : string) (f : Item -> Q) (l : list Item) :
  (forall j, df_get (mkDF position_columns rows) (position_row db j) col
             = Some (CReal (f j))) ->
  df_sum (mkDF position_columns rows) (map (position_row db) l) col
  == q_sum (map f l).
Proof.
  intro Hget. unfold df_sum.
  assert (H : forall acc,
             fold_left
               (fun a r =>
                  match df_get (mkDF position_columns rows) r col with
                  | Some (CReal q) => (a + q)%Q
                  | Some (CInt z) => (a + inject_Z z)%Q
                  | _ => a
                  end)
               (map (position_row db) l) acc
             == acc + q_sum (map f l)).
  { induction l as [|j l IH]; intro acc; simpl.
    - unfold q_sum. simpl. ring.
    - rewrite Hget, IH. unfold q_sum. simpl. ring. }
  rewrite H. ring.
Qed.

Lemma filter_all_true {A : Type} (p : A -> bool) (l : list A) :
  (forall x, p x = true) -> filter p l = l.
Proof.
  intro H. induction l as [|x l IH]; simpl; [reflexivity|].
  now rewrite H, IH.
Qed.

(** X21. The Dashboard shows the "No items yet" notice exactly when no
    item is active.  Otherwise its three metrics are taken over the active
    items of the selected category (all of them under "All"; an item
    without category counts under the empty category): their number, the
    sum of their ledger sums, and the sum of their rounded stock values. *)
Theorem dashboard_metrics_totals :
  forall db selected_cat,
    let shown := filter (in_category selected_cat) (active_items db) in
    (active_items db = [] -> dashboard_metrics db selected_cat = None)
    /\ (active_items db <> [] ->
        exists q v,
          dashboard_metrics db selected_cat
          = Some (List.length shown, q, v)
          /\ q == q_sum (map (fun i => ledger_sum db (item_id i)) shown)
          /\ v == q_sum (map (fun i =>
                                round2 (stock_qty db i * item_cost_price i))
                             shown)).
Proof.
  intros db cat shown. split.
  - intro Hn. unfold dashboard_metrics.
    destruct (get_inventory_df_cases db) as [[_ E]|[Hne _]];
      [now rewrite E|contradiction].
  - intro Hne. unfold dashboard_metrics.
    rewrite (get_inventory_df_nonempty db Hne).
    set (sorted := order_by _ (active_items db)).
    set (df := mkDF position_columns (map (position_row db) sorted)).
    assert (Hperm : Permutation (active_items db) sorted)
      by apply order_by_perm.
    assert (He : df_empty df = false).
    { unfold df. destruct sorted; [|reflexivity].
      apply Permutation_sym, Permutation_nil in Hperm. contradiction. }
    rewrite He. cbn [df_rows df].
    set (kept := filter (in_category cat) sorted).
    assert (Hk : (if String.eqb cat "All"
                  then map (position_row db) sorted
                  else filter (category_is df cat)
                              (map (position_row db) sorted))
                 = map (position_row db) kept).
    { unfold kept, in_category.
      destruct (String.eqb cat "All") eqn:Ea.
      - simpl. now rewrite filter_all_true.
      - rewrite filter_map_commute. f_equal. apply filter_ext.
        intro j. unfold category_is, df. simpl.
        change (df_get _ (position_row db j) "category")
          with (Some (opt_text (item_category j))).
        destruct (item_category j); reflexivity. }
    fold df. rewrite Hk.
    assert (Hpk : Permutation shown kept).
    { unfold shown, kept. now apply filter_permutation. }
    rewrite length_map, <- (Permutation_length Hpk).
    assert (Hq : df_sum df (map (position_row db) kept) "stock_qty"
                 == q_sum (map (fun i => ledger_sum db (item_id i)) shown)).
    { unfold df. rewrite (df_sum_position_rows db _ "stock_qty" (stock_qty db))
        by (intro j; reflexivity).
      rewrite <- (q_sum_map_permutation _ _ _ Hpk).
      apply q_sum_map_ext. intro j. apply stock_qty_ledger_sum. }
    assert (Hv : df_sum df (map (position_row db) kept) "stock_value_cost"
                 == q_sum (map (fun i =>
                                  round2 (stock_qty db i * item_cost_price i))
                               shown)).
    { unfold df.
      rewrite (df_sum_position_rows db _ "stock_value_cost"
                 (fun i => round2 (stock_qty db i * item_cost_price i)))
        by (intro j; reflexivity).
      symmetry. now apply q_sum_map_permutation. }
    destruct (List.length shown) eqn:El.
    + exists 0%Q, 0%Q. split; [reflexivity|].
      destruct shown; [|discriminate El]. split; reflexivity.
    + eexists _, _. split; [reflexivity|]. split; [exact Hq|exact Hv].
Qed.

Lemma dashboard_metrics_totals_witness :
  active_items shop <> []
  /\ exists q v,
      dashboard_metrics shop "Screen" = Some (1%nat, q, v)
      /\ q == 9 /\ v == 900.
Proof.
  assert (H : active_items shop <> []) by discriminate.
  split; [exact H|].
  destruct (proj2 (dashboard_metrics_totals shop "Screen") H)
    as (q & v & R & Hq & Hv).
  exists q, v. split; [exact R|]. split.
  - rewrite Hq. reflexivity.
  - rewrite Hv. reflexivity.
Defined.

(** ** The Parties page *)

(** X22. The add-supplier and add-customer forms refuse a blank name with
    "Name required." and store nothing.  For a name whose stripped text
    already names a party of that type they report success although
    nothing is stored: the store, and with it the party's phone and
    address, is left exactly as it was. *)
Theorem add_party_forms_never_update :
  forall db name phone addr,
    (all_space name = true ->
     add_supplier_submit db name phone addr
     = (Ok (st_error "Name required."), db)
     /\ add_customer_submit db name phone addr
        = (Ok (st_error "Name required."), db))
    /\ (parties_matching db "supplier" (strip name) <> [] ->
        all_space name = false ->
        add_supplier_submit db name phone addr
        = (Ok (st_success "Supplier added."), db))
    /\ (parties_matching db "customer" (strip name) <> [] ->
        all_space name = false ->
        add_customer_submit db name phone addr
        = (Ok (st_success "Customer added."), db)).
Proof.
  intros db name phone addr.
  unfold add_supplier_submit, add_customer_submit, add_party_submit.
  split; [|split].
  - intro Hb. apply strip_empty_iff in Hb. rewrite Hb. now split.
  - intros Hm Hb.
    assert (Hne : strip name <> "").
    { intro E. apply strip_empty_iff in E. congruence. }
    apply String.eqb_neq in Hne. rewrite Hne.
    destruct (upsert_party_cases db "supplier" (Some (strip name))
                (or_none (strip phone)) (or_none (strip addr)))
      as [[_ R]|[(_ & row & rest & _ & R)|[(_ & Em & _)|(_ & Em & _)]]];
      rewrite ?str_or_Some_empty, ?strip_idempotent in *;
      try contradiction; now rewrite R.
  - intros Hm Hb.
    assert (Hne : strip name <> "").
    { intro E. apply strip_empty_iff in E. congruence. }
    apply String.eqb_neq in Hne. rewrite Hne.
    destruct (upsert_party_cases db "customer" (Some (strip name))
                (or_none (strip phone)) (or_none (strip addr)))
      as [[_ R]|[(_ & row & rest & _ & R)|[(_ & Em & _)|(_ & Em & _)]]];
      rewrite ?str_or_Some_empty, ?strip_idempotent in *;
      try contradiction; now rewrite R.
Qed.

Lemma add_party_forms_never_update_witness :
  let db := snd (add_supplier_submit shop "Ali Traders" "0300" "") in
  parties_matching db "supplier" (strip " Ali Traders ") <> []
  /\ all_space " Ali Traders " = false
  /\ add_supplier_submit db " Ali Traders " "0321" "Saddar"
     = (Ok (st_success "Supplier added."), db)
  /\ parties db = [mkParty 1 "supplier" "Ali Traders" (Some "0300") None].
Proof.
  intro db.
  assert (H1 : parties_matching db "supplier" (strip " Ali Traders ") <> [])
    by discriminate.
  assert (H2 : all_space " Ali Traders " = false) by reflexivity.
  split; [exact H1|]. split; [exact H2|].
  split; [|reflexivity].
  exact (proj1 (proj2 (add_party_forms_never_update db " Ali Traders "
                         "0321" "Saddar")) H1 H2).
Defined.

(** ** Items that share a name *)

Lemma stock_qty_after_upsert_record (fk : bool) (env : Env) (db : DB)
    (ptype : string) (name : option string) (iid : Z) (ty : string) (qty : Q)
    (unit_price : option Q) (ref_no tdate remarks : option string)
    (j : Item) :
  item_id j <> iid ->
  match upsert_party db ptype name None None with
  | (Raise _, db1) => stock_qty db1 j = stock_qty db j
  | (Ok pid, db1) =>
      stock_qty
        (snd (record_txn fk env db1 iid ty qty unit_price pid ref_no tdate
                         remarks)) j
      = stock_qty db j
  end.
Proof.
  intro Hj.
  assert (H1 : forall r db1,
             upsert_party db ptype name None None = (r, db1) ->
             transactions db1 = transactions db).
  { intros r db1 E.
    destruct (upsert_party_cases db ptype name None None)
      as [[_ R]|[(_ & row & rest & _ & R)|[(_ & _ & _ & R)|(_ & _ & _ & R)]]];
      rewrite R in E; injection E as _ <-; reflexivity. }
  destruct (upsert_party db ptype name None None) as [[pid|e] db1] eqn:E.
  - specialize (H1 _ _ eq_refl).
    destruct (record_txn_cases fk env db1 iid ty qty unit_price pid ref_no
                tdate remarks) as [R|(Hq & Hty & Hfk)].
    + rewrite R. now apply stock_qty_same_ledger.
    + rewrite (record_txn_accepted _ _ _ _ _ _ _ _ _ _ _ Hq Hty Hfk).
      cbn [snd].
      set (t := mkTxn _ iid ty qty unit_price pid ref_no _ remarks (now env)).
      set (db2 := mkDB _ _ _ _ _ _).
      rewrite (proj2 (stock_qty_snoc db1 db2 t j eq_refl));
        [now apply stock_qty_same_ledger|].
      cbn [txn_item_id t]. congruence.
  - specialize (H1 _ _ eq_refl). now apply stock_qty_same_ledger.
Qed.

(** X23. The stock forms find the item by its name and take the first
    listed row of that name, so when several items share a name only the
    first can be stocked or issued through the pages: whatever is submitted
    under that name, the stock_qty of every item with another id stays as
    it was. *)
Theorem stock_forms_move_first_of_name_only :
  forall fk env db sel qty unit_price tdate party_sel party_new ref_no
         remarks item_row rest j,
    filter (fun r => String.eqb (item_name r) sel) (get_items_df db true)
    = item_row :: rest ->
    item_id j <> item_id item_row ->
    stock_qty (snd (stock_in_submit fk env db sel qty unit_price tdate
                                    party_sel party_new ref_no remarks)) j
    = stock_qty db j
    /\ stock_qty (snd (stock_out_submit fk env db sel qty unit_price tdate
                                        party_sel party_new ref_no remarks)) j
       = stock_qty db j.
Proof.
  intros fk env db sel qty unit_price tdate psel pnew ref_no remarks item_row
         rest j Hsel Hj.
  split.
  - unfold stock_in_submit. rewrite Hsel.
    pose proof (stock_qty_after_upsert_record fk env db "supplier"
                  (Some (str_or (Some (strip pnew)) (strip psel)))
                  (item_id item_row) "IN" qty (Some unit_price)
                  (or_none (strip ref_no)) (Some tdate)
                  (or_none (strip remarks)) j Hj) as H.
    destruct (upsert_party db "supplier" _ None None) as [[pid|e] db1];
      [|exact H].
    destruct (record_txn fk env db1 _ "IN" qty _ pid _ _ _) as [[u|e] db2];
      exact H.
  - unfold stock_out_submit. rewrite Hsel.
    destruct (negb _); [reflexivity|].
    pose proof (stock_qty_after_upsert_record fk env db "customer"
                  (Some (str_or (Some (strip pnew)) (strip psel)))
                  (item_id item_row) "OUT" qty (Some unit_price)
                  (or_none (strip ref_no)) (Some tdate)
                  (or_none (strip remarks)) j Hj) as H.
    destruct (upsert_party db "customer" _ None None) as [[pid|e] db1];
      [|exact H].
    destruct (record_txn fk env db1 _ "OUT" qty _ pid _ _ _) as [[u|e] db2];
      exact H.
Qed.

Lemma stock_forms_move_first_of_name_only_witness :
  let db := add_item shop "iPhone 11 Screen" (Some "Screen") (Some "Copy")
                     "pcs" 60 90 None in
  let second := mkItem 2 "iPhone 11 Screen" (Some "Screen") (Some "Copy")
                       "pcs" 60 90 1 None in
  filter (fun r => String.eqb (item_name r) "iPhone 11 Screen")
         (get_items_df db true) = shop_screen :: [second]
  /\ item_id second <> item_id shop_screen
  /\ stock_qty (snd (stock_in_submit false env0 db "iPhone 11 Screen" 5 60
                                     "2024-01-16" "" "" "" "")) second
     = stock_qty db second
  /\ stock_qty (snd (stock_in_submit false env0 db "iPhone 11 Screen" 5 60
                                     "2024-01-16" "" "" "" "")) shop_screen
     == 14.
Proof.
  intros db second.
  assert (H1 : filter (fun r => String.eqb (item_name r) "iPhone 11 Screen")
                      (get_items_df db true) = shop_screen :: [second])
    by reflexivity.
  assert (H2 : item_id second <> item_id shop_screen) by discriminate.
  split; [exact H1|]. split; [exact H2|]. split; [|reflexivity].
  exact (proj1 (stock_forms_move_first_of_name_only false env0 db
                  "iPhone 11 Screen" 5 60 "2024-01-16" "" "" "" ""
                  shop_screen [second] second H1 H2)).
Defined.

(** ** The stores the pages produce, as the listing reads them *)

Lemma StronglySorted_snoc (l : list Z) (x : Z) :
  StronglySorted Z.lt l -> Forall (fun k => k < x) l ->
  StronglySorted Z.lt (l ++ [x]).
Proof.
  induction 1 as [|y ys Hs IH Hall]; intro Hlt; simpl.
  - repeat constructor.
  - inversion Hlt as [|? ? Hy Hys]; subst.
    constructor; [now apply IH|].
    apply Forall_app. split; [exact Hall|]. now repeat constructor.
Qed.

Lemma helper_step_rowid_order (fk : bool) (db db' : DB) :
  helper_step fk db db' -> txns_in_rowid_order db -> txns_in_rowid_order db'.
Proof.
  intros Hstep Ho.
  destruct Hstep
    as [db name category brand unit cost_price sale_price notes
       |db iid cost_price sale_price
       |db ptype name phone address
       |env db iid ty qty unit_price pid ref_no tdate remarks].
  - exact Ho.
  - exact Ho.
  - destruct (upsert_party_cases db ptype name phone address)
      as [[_ R]|[(_ & row & rest & _ & R)|[(_ & _ & _ & R)|(_ & _ & _ & R)]]];
      rewrite R; exact Ho.
  - destruct (record_txn_cases fk env db iid ty qty unit_price pid ref_no
                tdate remarks) as [R|(Hq & Hty & Hfk)].
    + now rewrite R.
    + rewrite (record_txn_accepted _ _ _ _ _ _ _ _ _ _ _ Hq Hty Hfk).
      unfold txns_in_rowid_order. cbn [snd transactions].
      rewrite (map_app txn_id). cbn [map txn_id].
      apply StronglySorted_snoc; [exact Ho|].
      apply next_rowid_above.
Qed.

(** A submission is at most two helper calls, one after the other. *)
Lemma page_step_chain (fk : bool) (db db' : DB) :
  page_step fk db db' ->
  exists mid,
    (mid = db \/ helper_step fk db mid)
    /\ (db' = mid \/ helper_step fk mid db').
Proof.
  intro Hstep.
  destruct Hstep
    as [db name category brand unit cost_price sale_price notes
       |db sel cost_new sale_new
       |env db sel qty unit_price tdate psel pnew ref_no remarks
       |env db sel qty unit_price tdate psel pnew ref_no remarks
       |db name phone addr
       |db name phone addr].
  - exists db. split; [now left|].
    unfold add_item_submit.
    destruct (String.eqb (strip name) ""); cbn [snd]; [now left|].
    right. apply step_add_item.
  - exists db. split; [now left|]. left.
    unfold save_price_changes.
    destruct (filter _ (get_items_df db true)); cbn [snd]; [reflexivity|].
    apply update_item_basic_bound_numpy.
  - unfold stock_in_submit.
    destruct (filter _ (get_items_df db true)) as [|item_row rest];
      [exists db; split; now left|].
    set (name := Some (str_or (Some (strip pnew)) (strip psel))).
    exists (snd (upsert_party db "supplier" name None None)).
    split; [right; apply step_upsert_party|].
    destruct (upsert_party db "supplier" name None None) as [[pid|e] db1];
      cbn [snd]; [|now left].
    pose proof (step_record_txn fk env db1 (item_id item_row) "IN" qty
                  (Some unit_price) pid (or_none (strip ref_no)) (Some tdate)
                  (or_none (strip remarks))) as H.
    destruct (record_txn fk env db1 _ "IN" qty _ pid _ _ _) as [[u|e] db2];
      cbn [snd] in *; now right.
  - unfold stock_out_submit.
    destruct (filter _ (get_items_df db true)) as [|item_row rest];
      [exists db; split; now left|].
    destruct (negb _); [exists db; split; now left|].
    set (name := Some (str_or (Some (strip pnew)) (strip psel))).
    exists (snd (upsert_party db "customer" name None None)).
    split; [right; apply step_upsert_party|].
    destruct (upsert_party db "customer" name None None) as [[pid|e] db1];
      cbn [snd]; [|now left].
    pose proof (step_record_txn fk env db1 (item_id item_row) "OUT" qty
                  (Some unit_price) pid (or_none (strip ref_no)) (Some tdate)
                  (or_none (strip remarks))) as H.
    destruct (record_txn fk env db1 _ "OUT" qty _ pid _ _ _) as [[u|e] db2];
      cbn [snd] in *; now right.
  - exists db. split; [now left|].
    unfold add_supplier_submit, add_party_submit.
    destruct (String.eqb (strip name) ""); [now left|].
    pose proof (step_upsert_party fk db "supplier" (Some (strip name))
                  (or_none (strip phone)) (or_none (strip addr))) as H.
    destruct (upsert_party db "supplier" _ _ _) as [[pid|e] db1];
      cbn [snd] in *; now right.
  - exists db. split; [now left|].
    unfold add_customer_submit, add_party_submit.
    destruct (String.eqb (strip name) ""); [now left|].
    pose proof (step_upsert_party fk db "customer" (Some (strip name))
                  (or_none (strip phone)) (or_none (strip addr))) as H.
    destruct (upsert_party db "customer" _ _ _) as [[pid|e] db1];
      cbn [snd] in *; now right.
Qed.

(** Every store the pages produce is one the listing's order and count are
    stated for: transactions in rowid order, distinct item ids, every
    movement with an existing item. *)
Lemma page_reachable_listing_keys (fk : bool) (db : DB) :
  page_reachable fk db ->
  txns_in_rowid_order db /\ item_ids_unique db /\ item_refs_exist db.
Proof.
  intro H.
  assert (Hall : (store_ok db /\ ledger_ok db) /\ txns_in_rowid_order db).
  { induction H as [|db db' _ [IHok IHo] Hstep].
    - split; [split; [apply store_ok_empty|apply ledger_ok_empty]|].
      constructor.
    - split; [exact (page_step_keeps_ok fk db db' Hstep IHok)|].
      destruct (page_step_chain fk db db' Hstep)
        as (mid & [->|H1] & [->|H2]).
      + exact IHo.
      + exact (helper_step_rowid_order fk db db' H2 IHo).
      + exact (helper_step_rowid_order fk db mid H1 IHo).
      + apply (helper_step_rowid_order fk mid db' H2).
        exact (helper_step_rowid_order fk db mid H1 IHo). }
  destruct Hall as [[Hs Hl] Ho].
  split; [exact Ho|]. split; [apply Hs|apply Hl].
Qed.
